(** * BikeSaferPA: the data-cleaning pipeline of [1_BikeSaferPA_data.ipynb]

    A shallow embedding of the notebook's cleaning, joining and
    target-derivation cells, and the properties of the specification
    that concern them.

    A pandas DataFrame is a list of rows; a row is a record whose fields are
    columns of the table.  The bicycles and persons records hold every
    column their cells recode; the crashes records hold the columns the
    properties below depend on (the other columns are recoded on their own
    or pass through, and no statement kept here reads them).  A column
    statement [df[c] = f(df[c])] is a [map] over the rows; statements that
    look at the whole table ([groupby], [merge], [.at]) are functions of the
    whole list. *)

From Stdlib Require Import ZArith List String Ascii Bool Lia QArith.
From Stdlib Require Import DecimalString Sorted.
Import ListNotations.
Local Open Scope string_scope.
Local Open Scope Z_scope.

(* ================================================================== *)
(** * Part I: the embedding                                            *)
(* ================================================================== *)

(** ** Cells

    A cell of an object column: [np.nan], a number or a string.  The numeric
    codes of the raw files are integers, so a number is a [Z]. *)

Inductive cell : Type :=
| NaN : cell
| Num : Z -> cell
| Str : string -> cell.

(** Python's [==] on two cells: [nan == x] is false for every [x], a number
    never equals a string. *)
Definition cell_eqb (a b : cell) : bool :=
  match a, b with
  | Num x, Num y => x =? y
  | Str s, Str t => String.eqb s t
  | _, _ => false
  end.

(** Equality of merge keys: [DataFrame.merge] matches a missing key with a
    missing key. *)
Definition key_eqb (a b : cell) : bool :=
  match a, b with
  | NaN, NaN => true
  | _, _ => cell_eqb a b
  end.

Definition isna (c : cell) : bool :=
  match c with NaN => true | _ => false end.

Definition notnull (c : cell) : bool := negb (isna c).

(** [Series.fillna(v)] on one cell. *)
Definition fillna (v : cell) (c : cell) : cell :=
  match c with NaN => v | _ => c end.

(** [Series.fillna(v)] on a numeric column. *)
Definition fillna_num {A : Type} (v : option A) (c : option A) : option A :=
  match c with None => v | Some _ => c end.

(** *** [pd.to_numeric(_, errors='coerce')]

    Which texts are numbers is decided by the parser of pandas, which reads
    more than plain digits (a sign, blanks, a decimal point, an exponent).
    The embedding does not fix this grammar: the parser is an interface, and
    every property below holds for whatever it reads.  [parse_number s] is
    the number the text [s] stands for, and [None] when the coercion gives
    [np.nan].  A number stays as it is.  The numbers of these columns are
    integer codes, as in [cell]; a text that stands for another kind of
    number is outside the embedding, like such a number itself. *)

Class Parser := parse_number : string -> option Z.

Definition to_numeric {pd : Parser} (c : cell) : cell :=
  match c with
  | NaN => NaN
  | Num z => Num z
  | Str s => match parse_number s with Some z => Num z | None => NaN end
  end.

(** *** [Series.replace(dict)]

    The dictionary is the list of its [key: value] pairs in the order of the
    literal.  All keys are looked up in the original cell (pandas does not
    chain replacements), the first key equal to the cell gives its value, a
    cell equal to no key is kept. *)

Definition dict := list (cell * cell).

Fixpoint replace (d : dict) (x : cell) : cell :=
  match d with
  | [] => x
  | (k, v) :: d' => if cell_eqb k x then v else replace d' x
  end.

(** [Series.replace] on a numeric column: keys and values are numbers or
    [np.nan]. *)
Fixpoint replace_num (d : list (Z * option Z)) (x : option Z) : option Z :=
  match x with
  | None => None
  | Some z =>
      match d with
      | [] => x
      | (k, v) :: d' => if k =? z then v else replace_num d' x
      end
  end.

(** No value of the dictionary is itself one of its keys. *)
Definition dict_closed (d : dict) : bool :=
  forallb (fun kv => negb (existsb (fun kv' => cell_eqb (fst kv') (snd kv)) d)) d.

(** ** Indexed frames

    [df.at[label, col] = v] addresses a row by its index label.  A frame read
    by [read_csv] has the labels [0, 1, ...]; when the label is absent pandas
    appends a row with this label, all of whose other columns are missing. *)

Definition frame (A : Type) := list (Z * A).

Fixpoint range_index {A : Type} (i : Z) (rows : list A) : frame A :=
  match rows with
  | [] => []
  | r :: rs => (i, r) :: range_index (i + 1) rs
  end.

Definition values {A : Type} (f : frame A) : list A := map snd f.

Fixpoint at_set {A : Type} (nan_row : A) (label : Z) (upd : A -> A)
  (f : frame A) : frame A :=
  match f with
  | [] => [(label, upd nan_row)]
  | (l, r) :: f' =>
      if l =? label then (l, upd r) :: f'
      else (l, r) :: at_set nan_row label upd f'
  end.

(** ** Left merge

    [left.merge(right, how='left')] on a key: every left row is paired, in
    order, with each right row of equal key; a left row without a match is
    kept once, with the right columns missing. *)

Section Merge.
Context {L R O : Type}.
Variable matches : L -> R -> bool.
Variable join : L -> option R -> O.

Definition merge_row (l : L) (right : list R) : list O :=
  match filter (matches l) right with
  | [] => [join l None]
  | ms => map (fun r => join l (Some r)) ms
  end.

Definition merge_left (left : list L) (right : list R) : list O :=
  flat_map (fun l => merge_row l right) left.
End Merge.

(** A column statement [df[c] = f(row)]: the new column is computed from the
    old frame and stored in every row. *)
Definition assign {A V : Type} (set : V -> A -> A) (f : A -> V) (t : list A)
  : list A :=
  map (fun r => set (f r) r) t.

(* ------------------------------------------------------------------ *)
(** ** The [bicycles] table                                             *)
(* ------------------------------------------------------------------ *)

Module Bicycles.

(** One vehicle unit.  [IMPACT_SIDE] is the column the recode adds; in a raw
    table it is not there yet (missing). *)
Record bicycle : Type := {
  CRN : Z;
  UNIT_NUM : cell;
  VEH_TYPE : cell;
  GRADE : cell;
  IMPACT_POINT : cell;
  IMPACT_SIDE : cell;
  RDWY_ALIGNMENT : cell;
  VEH_MOVEMENT : cell;
  VEH_POSITION : cell;
  VEH_ROLE : cell;
  PC_HDLGHT_IND : cell;
  PC_HLMT_IND : cell;
  PC_REAR_RFLTR_IND : cell
}.

Definition set_UNIT_NUM (v : cell) (r : bicycle) : bicycle :=
  {| CRN := CRN r; UNIT_NUM := v; VEH_TYPE := VEH_TYPE r; GRADE := GRADE r;
     IMPACT_POINT := IMPACT_POINT r; IMPACT_SIDE := IMPACT_SIDE r;
     RDWY_ALIGNMENT := RDWY_ALIGNMENT r; VEH_MOVEMENT := VEH_MOVEMENT r;
     VEH_POSITION := VEH_POSITION r; VEH_ROLE := VEH_ROLE r;
     PC_HDLGHT_IND := PC_HDLGHT_IND r; PC_HLMT_IND := PC_HLMT_IND r;
     PC_REAR_RFLTR_IND := PC_REAR_RFLTR_IND r |}.

Definition set_VEH_TYPE (v : cell) (r : bicycle) : bicycle :=
  {| CRN := CRN r; UNIT_NUM := UNIT_NUM r; VEH_TYPE := v; GRADE := GRADE r;
     IMPACT_POINT := IMPACT_POINT r; IMPACT_SIDE := IMPACT_SIDE r;
     RDWY_ALIGNMENT := RDWY_ALIGNMENT r; VEH_MOVEMENT := VEH_MOVEMENT r;
     VEH_POSITION := VEH_POSITION r; VEH_ROLE := VEH_ROLE r;
     PC_HDLGHT_IND := PC_HDLGHT_IND r; PC_HLMT_IND := PC_HLMT_IND r;
     PC_REAR_RFLTR_IND := PC_REAR_RFLTR_IND r |}.

Definition set_GRADE (v : cell) (r : bicycle) : bicycle :=
  {| CRN := CRN r; UNIT_NUM := UNIT_NUM r; VEH_TYPE := VEH_TYPE r;
     GRADE := v; IMPACT_POINT := IMPACT_POINT r;
     IMPACT_SIDE := IMPACT_SIDE r; RDWY_ALIGNMENT := RDWY_ALIGNMENT r;
     VEH_MOVEMENT := VEH_MOVEMENT r; VEH_POSITION := VEH_POSITION r;
     VEH_ROLE := VEH_ROLE r; PC_HDLGHT_IND := PC_HDLGHT_IND r;
     PC_HLMT_IND := PC_HLMT_IND r; PC_REAR_RFLTR_IND := PC_REAR_RFLTR_IND r |}.

Definition set_IMPACT_POINT (v : cell) (r : bicycle) : bicycle :=
  {| CRN := CRN r; UNIT_NUM := UNIT_NUM r; VEH_TYPE := VEH_TYPE r;
     GRADE := GRADE r; IMPACT_POINT := v; IMPACT_SIDE := IMPACT_SIDE r;
     RDWY_ALIGNMENT := RDWY_ALIGNMENT r; VEH_MOVEMENT := VEH_MOVEMENT r;
     VEH_POSITION := VEH_POSITION r; VEH_ROLE := VEH_ROLE r;
     PC_HDLGHT_IND := PC_HDLGHT_IND r; PC_HLMT_IND := PC_HLMT_IND r;
     PC_REAR_RFLTR_IND := PC_REAR_RFLTR_IND r |}.

Definition set_IMPACT_SIDE (v : cell) (r : bicycle) : bicycle :=
  {| CRN := CRN r; UNIT_NUM := UNIT_NUM r; VEH_TYPE := VEH_TYPE r;
     GRADE := GRADE r; IMPACT_POINT := IMPACT_POINT r; IMPACT_SIDE := v;
     RDWY_ALIGNMENT := RDWY_ALIGNMENT r; VEH_MOVEMENT := VEH_MOVEMENT r;
     VEH_POSITION := VEH_POSITION r; VEH_ROLE := VEH_ROLE r;
     PC_HDLGHT_IND := PC_HDLGHT_IND r; PC_HLMT_IND := PC_HLMT_IND r;
     PC_REAR_RFLTR_IND := PC_REAR_RFLTR_IND r |}.

Definition set_RDWY_ALIGNMENT (v : cell) (r : bicycle) : bicycle :=
  {| CRN := CRN r; UNIT_NUM := UNIT_NUM r; VEH_TYPE := VEH_TYPE r;
     GRADE := GRADE r; IMPACT_POINT := IMPACT_POINT r;
     IMPACT_SIDE := IMPACT_SIDE r; RDWY_ALIGNMENT := v;
     VEH_MOVEMENT := VEH_MOVEMENT r; VEH_POSITION := VEH_POSITION r;
     VEH_ROLE := VEH_ROLE r; PC_HDLGHT_IND := PC_HDLGHT_IND r;
     PC_HLMT_IND := PC_HLMT_IND r; PC_REAR_RFLTR_IND := PC_REAR_RFLTR_IND r |}.

Definition set_VEH_MOVEMENT (v : cell) (r : bicycle) : bicycle :=
  {| CRN := CRN r; UNIT_NUM := UNIT_NUM r; VEH_TYPE := VEH_TYPE r;
     GRADE := GRADE r; IMPACT_POINT := IMPACT_POINT r;
     IMPACT_SIDE := IMPACT_SIDE r; RDWY_ALIGNMENT := RDWY_ALIGNMENT r;
     VEH_MOVEMENT := v; VEH_POSITION := VEH_POSITION r;
     VEH_ROLE := VEH_ROLE r; PC_HDLGHT_IND := PC_HDLGHT_IND r;
     PC_HLMT_IND := PC_HLMT_IND r; PC_REAR_RFLTR_IND := PC_REAR_RFLTR_IND r |}.

Definition set_VEH_POSITION (v : cell) (r : bicycle) : bicycle :=
  {| CRN := CRN r; UNIT_NUM := UNIT_NUM r; VEH_TYPE := VEH_TYPE r;
     GRADE := GRADE r; IMPACT_POINT := IMPACT_POINT r;
     IMPACT_SIDE := IMPACT_SIDE r; RDWY_ALIGNMENT := RDWY_ALIGNMENT r;
     VEH_MOVEMENT := VEH_MOVEMENT r; VEH_POSITION := v;
     VEH_ROLE := VEH_ROLE r; PC_HDLGHT_IND := PC_HDLGHT_IND r;
     PC_HLMT_IND := PC_HLMT_IND r; PC_REAR_RFLTR_IND := PC_REAR_RFLTR_IND r |}.

Definition set_VEH_ROLE (v : cell) (r : bicycle) : bicycle :=
  {| CRN := CRN r; UNIT_NUM := UNIT_NUM r; VEH_TYPE := VEH_TYPE r;
     GRADE := GRADE r; IMPACT_POINT := IMPACT_POINT r;
     IMPACT_SIDE := IMPACT_SIDE r; RDWY_ALIGNMENT := RDWY_ALIGNMENT r;
     VEH_MOVEMENT := VEH_MOVEMENT r; VEH_POSITION := VEH_POSITION r;
     VEH_ROLE := v; PC_HDLGHT_IND := PC_HDLGHT_IND r;
     PC_HLMT_IND := PC_HLMT_IND r; PC_REAR_RFLTR_IND := PC_REAR_RFLTR_IND r |}.

Definition set_PC_HDLGHT_IND (v : cell) (r : bicycle) : bicycle :=
  {| CRN := CRN r; UNIT_NUM := UNIT_NUM r; VEH_TYPE := VEH_TYPE r;
     GRADE := GRADE r; IMPACT_POINT := IMPACT_POINT r;
     IMPACT_SIDE := IMPACT_SIDE r; RDWY_ALIGNMENT := RDWY_ALIGNMENT r;
     VEH_MOVEMENT := VEH_MOVEMENT r; VEH_POSITION := VEH_POSITION r;
     VEH_ROLE := VEH_ROLE r; PC_HDLGHT_IND := v;
     PC_HLMT_IND := PC_HLMT_IND r; PC_REAR_RFLTR_IND := PC_REAR_RFLTR_IND r |}.

Definition set_PC_HLMT_IND (v : cell) (r : bicycle) : bicycle :=
  {| CRN := CRN r; UNIT_NUM := UNIT_NUM r; VEH_TYPE := VEH_TYPE r;
     GRADE := GRADE r; IMPACT_POINT := IMPACT_POINT r;
     IMPACT_SIDE := IMPACT_SIDE r; RDWY_ALIGNMENT := RDWY_ALIGNMENT r;
     VEH_MOVEMENT := VEH_MOVEMENT r; VEH_POSITION := VEH_POSITION r;
     VEH_ROLE := VEH_ROLE r; PC_HDLGHT_IND := PC_HDLGHT_IND r;
     PC_HLMT_IND := v; PC_REAR_RFLTR_IND := PC_REAR_RFLTR_IND r |}.

Definition set_PC_REAR_RFLTR_IND (v : cell) (r : bicycle) : bicycle :=
  {| CRN := CRN r; UNIT_NUM := UNIT_NUM r; VEH_TYPE := VEH_TYPE r;
     GRADE := GRADE r; IMPACT_POINT := IMPACT_POINT r;
     IMPACT_SIDE := IMPACT_SIDE r; RDWY_ALIGNMENT := RDWY_ALIGNMENT r;
     VEH_MOVEMENT := VEH_MOVEMENT r; VEH_POSITION := VEH_POSITION r;
     VEH_ROLE := VEH_ROLE r; PC_HDLGHT_IND := PC_HDLGHT_IND r;
     PC_HLMT_IND := PC_HLMT_IND r; PC_REAR_RFLTR_IND := v |}.

Definition GRADE_codes : dict :=
  [(Num 1, Str "level"); (Num 2, Str "uphill"); (Num 3, Str "downhill");
   (Num 4, Str "bottom_hill"); (Num 5, Str "top_hill"); (Num 9, NaN)].

Definition IMPACT_SIDE_codes : dict :=
  [(Num 0, Str "non_collision"); (Num 13, Str "top");
   (Num 14, Str "undercarriage");
   (Num 11, Str "front"); (Num 12, Str "front"); (Num 1, Str "front");
   (Num 2, Str "front_right"); (Num 3, Str "right"); (Num 4, Str "rear_right");
   (Num 5, Str "rear"); (Num 6, Str "rear"); (Num 7, Str "rear");
   (Num 8, Str "rear_left"); (Num 9, Str "left"); (Num 10, Str "front_left");
   (Num 99, NaN)].

Definition RDWY_ALIGNMENT_codes : dict :=
  [(Num 1, Str "straight"); (Num 2, Str "curve"); (Num 3, Str "curve");
   (Num 4, Str "curve"); (Num 9, NaN)].

Definition VEH_ROLE_codes : dict :=
  [(Num 0, Str "non_collision"); (Num 1, Str "striking"); (Num 2, Str "struck");
   (Num 3, Str "striking_struck")].

Definition VEH_TYPE_codes : dict :=
  [(Num 20, Str "bicycle"); (Num 21, Str "other_pedalcycle")].

Definition VEH_POSITION_codes : dict :=
  [(Num 0, NaN); (Num 1, Str "right_lane_curb"); (Num 2, Str "right_lane");
   (Num 3, Str "left_lane"); (Num 4, Str "left_turn_lane");
   (Num 5, Str "center_turn_lane"); (Num 6, Str "other_forward_lane");
   (Num 7, Str "oncoming_lane"); (Num 8, Str "left_of_trafficway");
   (Num 9, Str "right_of_trafficway"); (Num 10, Str "HOV_lane");
   (Num 11, Str "shoulder_right"); (Num 12, Str "shoulder_left");
   (Num 13, Str "one_lane_road"); (Num 14, Str "acc_dec_lane");
   (Num 98, Str "other"); (Num 99, NaN)].

Definition VEH_MOVEMENT_codes : dict :=
  [(Num 1, Str "straight"); (Num 2, Str "slowing_or_stopping_in_lane");
   (Num 3, Str "stopped_in_lane"); (Num 4, Str "passing_vehicle");
   (Num 5, Str "entering_lane"); (Num 6, Str "parked");
   (Num 7, Str "leaving_lane"); (Num 8, Str "avoiding");
   (Num 9, Str "turning_right_red"); (Num 10, Str "turning_right");
   (Num 11, Str "turning_left_red"); (Num 12, Str "turning_left");
   (Num 13, Str "u_turn"); (Num 14, Str "backing");
   (Num 15, Str "changing_merging");
   (Num 16, Str "curve_right"); (Num 17, Str "curve_left");
   (Num 18, Str "entering_lane"); (Num 19, Str "leaving_lane");
   (Num 98, Str "other"); (Num 99, NaN)].

Definition indicator_codes : dict :=
  [(Str "Y", Num 1); (Str "N", Num 0); (Str "U", NaN)].

Definition unknown_codes : dict := [(Str "U", NaN); (Num 99, NaN)].

(** The first loop of the cell: numeric coercion of the mixed-type columns. *)
Definition coerce {pd : Parser} (t : list bicycle) : list bicycle :=
  let t := assign set_RDWY_ALIGNMENT (fun b => to_numeric (RDWY_ALIGNMENT b)) t in
  let t := assign set_VEH_MOVEMENT (fun b => to_numeric (VEH_MOVEMENT b)) t in
  let t := assign set_VEH_TYPE (fun b => to_numeric (VEH_TYPE b)) t in
  let t := assign set_VEH_POSITION (fun b => to_numeric (VEH_POSITION b)) t in
  let t := assign set_VEH_ROLE (fun b => to_numeric (VEH_ROLE b)) t in
  t.

(** The rest of the cell: dictionary replacements, the derived
    [IMPACT_SIDE], and the two constant fills. *)
Definition relabel (t : list bicycle) : list bicycle :=
  let t := assign set_PC_HDLGHT_IND
             (fun b => replace indicator_codes (PC_HDLGHT_IND b)) t in
  let t := assign set_PC_HLMT_IND
             (fun b => replace indicator_codes (PC_HLMT_IND b)) t in
  let t := assign set_PC_REAR_RFLTR_IND
             (fun b => replace indicator_codes (PC_REAR_RFLTR_IND b)) t in
  let t := assign set_UNIT_NUM (fun b => replace unknown_codes (UNIT_NUM b)) t in
  let t := assign set_IMPACT_POINT
             (fun b => replace unknown_codes (IMPACT_POINT b)) t in
  let t := assign set_GRADE (fun b => replace GRADE_codes (GRADE b)) t in
  let t := assign set_IMPACT_SIDE
             (fun b => replace IMPACT_SIDE_codes (IMPACT_POINT b)) t in
  let t := assign set_RDWY_ALIGNMENT
             (fun b => replace RDWY_ALIGNMENT_codes (RDWY_ALIGNMENT b)) t in
  let t := assign set_VEH_ROLE (fun b => replace VEH_ROLE_codes (VEH_ROLE b)) t in
  let t := assign set_VEH_TYPE (fun b => replace VEH_TYPE_codes (VEH_TYPE b)) t in
  let t := assign set_VEH_POSITION
             (fun b => replace VEH_POSITION_codes (VEH_POSITION b)) t in
  let t := assign set_VEH_MOVEMENT
             (fun b => replace VEH_MOVEMENT_codes (VEH_MOVEMENT b)) t in
  let t := assign set_UNIT_NUM (fun b => fillna (Num 1) (UNIT_NUM b)) t in
  let t := assign set_VEH_ROLE
             (fun b => fillna (Str "non_collision") (VEH_ROLE b)) t in
  t.

(** The whole "Features in 'bicycles'" cell. *)
Definition recode {pd : Parser}
  (t : list bicycle) : list bicycle := relabel (coerce t).

(** What the cell makes of a raw [IMPACT_POINT]. *)
Definition impact_side (raw : cell) : cell :=
  replace IMPACT_SIDE_codes (replace unknown_codes raw).

Definition side_labels : list cell :=
  [Str "front"; Str "front_left"; Str "front_right"; Str "left"; Str "right";
   Str "rear"; Str "rear_left"; Str "rear_right"].

End Bicycles.

(* ------------------------------------------------------------------ *)
(** ** The [persons] table                                              *)
(* ------------------------------------------------------------------ *)

Module Persons.

(** One person.  [AGE] is a numeric column.  [CRN] is a cell because the
    positional repair below can append a row in which it is missing. *)
Record person : Type := {
  CRN : cell;
  UNIT_NUM : cell;
  PERSON_NUM : cell;
  INJ_SEVERITY : cell;
  PERSON_TYPE : cell;
  AGE : option Z;
  SEX : cell;
  TRANSPORTED : cell;
  RESTRAINT_HELMET : cell
}.

Definition set_UNIT_NUM (v : cell) (r : person) : person :=
  {| CRN := CRN r; UNIT_NUM := v; PERSON_NUM := PERSON_NUM r;
     INJ_SEVERITY := INJ_SEVERITY r; PERSON_TYPE := PERSON_TYPE r;
     AGE := AGE r; SEX := SEX r; TRANSPORTED := TRANSPORTED r;
     RESTRAINT_HELMET := RESTRAINT_HELMET r |}.

Definition set_INJ_SEVERITY (v : cell) (r : person) : person :=
  {| CRN := CRN r; UNIT_NUM := UNIT_NUM r; PERSON_NUM := PERSON_NUM r;
     INJ_SEVERITY := v; PERSON_TYPE := PERSON_TYPE r; AGE := AGE r;
     SEX := SEX r; TRANSPORTED := TRANSPORTED r;
     RESTRAINT_HELMET := RESTRAINT_HELMET r |}.

Definition set_PERSON_TYPE (v : cell) (r : person) : person :=
  {| CRN := CRN r; UNIT_NUM := UNIT_NUM r; PERSON_NUM := PERSON_NUM r;
     INJ_SEVERITY := INJ_SEVERITY r; PERSON_TYPE := v; AGE := AGE r;
     SEX := SEX r; TRANSPORTED := TRANSPORTED r;
     RESTRAINT_HELMET := RESTRAINT_HELMET r |}.

Definition set_AGE (v : option Z) (r : person) : person :=
  {| CRN := CRN r; UNIT_NUM := UNIT_NUM r; PERSON_NUM := PERSON_NUM r;
     INJ_SEVERITY := INJ_SEVERITY r; PERSON_TYPE := PERSON_TYPE r; AGE := v;
     SEX := SEX r; TRANSPORTED := TRANSPORTED r;
     RESTRAINT_HELMET := RESTRAINT_HELMET r |}.

Definition set_SEX (v : cell) (r : person) : person :=
  {| CRN := CRN r; UNIT_NUM := UNIT_NUM r; PERSON_NUM := PERSON_NUM r;
     INJ_SEVERITY := INJ_SEVERITY r; PERSON_TYPE := PERSON_TYPE r;
     AGE := AGE r; SEX := v; TRANSPORTED := TRANSPORTED r;
     RESTRAINT_HELMET := RESTRAINT_HELMET r |}.

Definition set_TRANSPORTED (v : cell) (r : person) : person :=
  {| CRN := CRN r; UNIT_NUM := UNIT_NUM r; PERSON_NUM := PERSON_NUM r;
     INJ_SEVERITY := INJ_SEVERITY r; PERSON_TYPE := PERSON_TYPE r;
     AGE := AGE r; SEX := SEX r; TRANSPORTED := v;
     RESTRAINT_HELMET := RESTRAINT_HELMET r |}.

Definition set_RESTRAINT_HELMET (v : cell) (r : person) : person :=
  {| CRN := CRN r; UNIT_NUM := UNIT_NUM r; PERSON_NUM := PERSON_NUM r;
     INJ_SEVERITY := INJ_SEVERITY r; PERSON_TYPE := PERSON_TYPE r;
     AGE := AGE r; SEX := SEX r; TRANSPORTED := TRANSPORTED r;
     RESTRAINT_HELMET := v |}.

Definition nan_person : person :=
  {| CRN := NaN; UNIT_NUM := NaN; PERSON_NUM := NaN; INJ_SEVERITY := NaN;
     PERSON_TYPE := NaN; AGE := None; SEX := NaN; TRANSPORTED := NaN;
     RESTRAINT_HELMET := NaN |}.

Definition flag_codes : dict :=
  [(Str "Y", Num 1); (Str "N", Num 0); (Str "U", NaN); (Str "0", Num 0);
   (Str " ", NaN); (Str "R", NaN); (Str "9", NaN); (Num 97, NaN)].

Definition INJ_SEVERITY_codes : dict :=
  [(Num 0, Str "no_injury"); (Num 1, Str "killed");
   (Num 2, Str "susp_serious_injury"); (Num 3, Str "susp_minor_injury");
   (Num 4, Str "possible_injury"); (Num 8, Str "unknown_injury");
   (Num 9, NaN)].

Definition PERSON_TYPE_codes : dict :=
  [(Num 1, Str "driver"); (Num 2, Str "passenger"); (Num 7, Str "pedestrian");
   (Num 8, Str "other"); (Num 9, NaN)].

Definition RESTRAINT_HELMET_codes : dict :=
  [(Num 0, Str "no_restraint"); (Num 1, Str "shoulder_belt");
   (Num 2, Str "lap_belt"); (Num 3, Str "lap_shoulder_belt");
   (Num 4, Str "child_seat"); (Num 5, Str "motorcycle_helmet");
   (Num 6, Str "bicycle_helmet"); (Num 10, Str "belt_improper");
   (Num 11, Str "child_seat_improper"); (Num 12, Str "helmet_improper");
   (Num 21, Str "child_seat"); (Num 22, Str "child_seat");
   (Num 23, Str "booster_seat"); (Num 24, Str "child_restraint_unknown");
   (Num 90, Str "unknown_restraint"); (Num 98, Str "other"); (Num 99, NaN)].

(** The statements of the cell before the positional repair. *)
Definition relabel {pd : Parser} (t : list person) : list person :=
  let t := assign set_INJ_SEVERITY (fun p => to_numeric (INJ_SEVERITY p)) t in
  let t := assign set_AGE (fun p => replace_num [(99, None)] (AGE p)) t in
  let t := assign set_SEX (fun p => replace flag_codes (SEX p)) t in
  let t := assign set_TRANSPORTED
             (fun p => replace flag_codes (TRANSPORTED p)) t in
  let t := assign set_UNIT_NUM (fun p => replace flag_codes (UNIT_NUM p)) t in
  let t := assign set_INJ_SEVERITY
             (fun p => replace INJ_SEVERITY_codes (INJ_SEVERITY p)) t in
  let t := assign set_PERSON_TYPE
             (fun p => replace PERSON_TYPE_codes (PERSON_TYPE p)) t in
  let t := assign set_RESTRAINT_HELMET
             (fun p => replace RESTRAINT_HELMET_codes (RESTRAINT_HELMET p)) t in
  t.

(** [persons.at[35557,'UNIT_NUM']=2]: the one repaired record, addressed by
    its row label. *)
Definition repaired_label : Z := 35557.

Definition repair (t : list person) : list person :=
  values (at_set nan_person repaired_label (set_UNIT_NUM (Num 2))
            (range_index 0 t)).

(** The whole "Features in 'persons'" cell. *)
Definition recode {pd : Parser}
  (t : list person) : list person := repair (relabel t).

(** The composite key of a person record. *)
Definition same_key (p q : person) : bool :=
  key_eqb (CRN p) (CRN q) && key_eqb (UNIT_NUM p) (UNIT_NUM q)
  && key_eqb (PERSON_NUM p) (PERSON_NUM q).

(** Some two records of the table collide on the composite key. *)
Fixpoint key_collision (t : list person) : bool :=
  match t with
  | [] => false
  | p :: t' => existsb (same_key p) t' || key_collision t'
  end.

End Persons.

(* ------------------------------------------------------------------ *)
(** ** The [roadway] table                                              *)
(* ------------------------------------------------------------------ *)

Module Roadway.

Record segment : Type := {
  CRN : Z;
  RDWY_COUNTY : option Z;
  SPEED_LIMIT : option Z
}.

Definition set_SPEED_LIMIT (v : option Z) (r : segment) : segment :=
  {| CRN := CRN r; RDWY_COUNTY := RDWY_COUNTY r; SPEED_LIMIT := v |}.

(** The non-missing speed limits of the segments of county [c]. *)
Definition county_values (c : Z) (t : list segment) : list Z :=
  flat_map (fun s =>
              match RDWY_COUNTY s, SPEED_LIMIT s with
              | Some c', Some v => if c' =? c then [v] else []
              | _, _ => []
              end) t.

Definition count (v : Z) (vs : list Z) : nat :=
  List.length (filter (Z.eqb v) vs).

(** [x.mode()[0]]: [mode()] lists the most frequent non-missing values in
    increasing order, so its first entry is the smallest of them; on a group
    without any value the list is empty and the subscript raises. *)
Definition preferred (vs : list Z) (a b : Z) : bool :=
  (count b vs <? count a vs)%nat
  || ((count a vs =? count b vs)%nat && (a <? b)).

Definition mode0 (vs : list Z) : option Z :=
  match vs with
  | [] => None
  | v :: vs' =>
      Some (fold_left (fun best x => if preferred vs x best then x else best)
              vs' v)
  end.

(** One row of
    [groupby('RDWY_COUNTY')['SPEED_LIMIT'].apply(lambda x: x.fillna(x.mode()[0]))],
    realigned on the index of the table: a row whose county is missing
    belongs to no group and comes back missing.  The outer [None] is the
    exception of the subscript. *)
Definition fill_row (t : list segment) (s : segment) : option (option Z) :=
  match RDWY_COUNTY s with
  | None => Some None
  | Some c =>
      match mode0 (county_values c t) with
      | None => None
      | Some m => Some (Some (match SPEED_LIMIT s with Some v => v | None => m end))
      end
  end.

Fixpoint sequence {A : Type} (l : list (option A)) : option (list A) :=
  match l with
  | [] => Some []
  | None :: _ => None
  | Some x :: l' => option_map (cons x) (sequence l')
  end.

(** With no group at all the result of [apply] carries a flat index and
    [droplevel(0)] raises. *)
Definition has_group (t : list segment) : bool :=
  existsb (fun s => match RDWY_COUNTY s with Some _ => true | None => false end) t.

(** "Fill missing SPEED_LIMIT with mode by county." *)
Definition fill_speed_limit (t : list segment) : option (list segment) :=
  if has_group t then
    option_map (fun vs => map (fun sv => set_SPEED_LIMIT (snd sv) (fst sv))
                            (combine t vs))
      (sequence (map (fill_row t) t))
  else None.

(** [roadway.groupby('CRN').min().SPEED_LIMIT]: one row per CRN, in
    increasing order of CRN, holding the least non-missing speed limit of
    the group (missing when the group has none). *)
Fixpoint insert_key (k : Z) (ks : list Z) : list Z :=
  match ks with
  | [] => [k]
  | x :: xs =>
      if k <? x then k :: ks
      else if k =? x then ks
      else x :: insert_key k xs
  end.

Definition crn_keys (t : list segment) : list Z :=
  fold_right (fun s acc => insert_key (CRN s) acc) [] t.

Definition speed_limits_of (k : Z) (t : list segment) : list Z :=
  flat_map (fun s =>
              if CRN s =? k
              then match SPEED_LIMIT s with Some v => [v] | None => [] end
              else []) t.

Definition min_of (vs : list Z) : option Z :=
  match vs with
  | [] => None
  | v :: vs' => Some (fold_left Z.min vs' v)
  end.

Definition groupby_CRN_min (t : list segment) : list (Z * option Z) :=
  map (fun k => (k, min_of (speed_limits_of k t))) (crn_keys t).

(** The segments of a crash. *)
Definition segments_of (k : Z) (t : list segment) : list segment :=
  filter (fun s => CRN s =? k) t.

End Roadway.

(* ------------------------------------------------------------------ *)
(** ** The [crashes] table                                              *)
(* ------------------------------------------------------------------ *)

(** *** As read, up to the consolidation of the two weather columns *)

Module CrashesRaw.

(** One crash.  [HOUR_OF_DAY], [DISPATCH_TM] and [ARRIVAL_TM] are numeric
    columns; the coordinates are rationals. *)
Record crash : Type := {
  CRN : cell;
  COUNTY : cell;
  MUNICIPALITY : cell;
  HOUR_OF_DAY : option Z;
  TIME_OF_DAY : cell;
  DISPATCH_TM : option Z;
  ARRIVAL_TM : option Z;
  ILLUMINATION : cell;
  ROAD_CONDITION : cell;
  WEATHER1 : cell;
  WEATHER2 : cell;
  DEC_LAT : option Q;
  DEC_LONG : option Q
}.

Definition set_HOUR_OF_DAY (v : option Z) (r : crash) : crash :=
  {| CRN := CRN r; COUNTY := COUNTY r; MUNICIPALITY := MUNICIPALITY r;
     HOUR_OF_DAY := v; TIME_OF_DAY := TIME_OF_DAY r;
     DISPATCH_TM := DISPATCH_TM r; ARRIVAL_TM := ARRIVAL_TM r;
     ILLUMINATION := ILLUMINATION r; ROAD_CONDITION := ROAD_CONDITION r;
     WEATHER1 := WEATHER1 r; WEATHER2 := WEATHER2 r; DEC_LAT := DEC_LAT r;
     DEC_LONG := DEC_LONG r |}.

Definition set_TIME_OF_DAY (v : cell) (r : crash) : crash :=
  {| CRN := CRN r; COUNTY := COUNTY r; MUNICIPALITY := MUNICIPALITY r;
     HOUR_OF_DAY := HOUR_OF_DAY r; TIME_OF_DAY := v;
     DISPATCH_TM := DISPATCH_TM r; ARRIVAL_TM := ARRIVAL_TM r;
     ILLUMINATION := ILLUMINATION r; ROAD_CONDITION := ROAD_CONDITION r;
     WEATHER1 := WEATHER1 r; WEATHER2 := WEATHER2 r; DEC_LAT := DEC_LAT r;
     DEC_LONG := DEC_LONG r |}.

Definition set_DISPATCH_TM (v : option Z) (r : crash) : crash :=
  {| CRN := CRN r; COUNTY := COUNTY r; MUNICIPALITY := MUNICIPALITY r;
     HOUR_OF_DAY := HOUR_OF_DAY r; TIME_OF_DAY := TIME_OF_DAY r;
     DISPATCH_TM := v; ARRIVAL_TM := ARRIVAL_TM r;
     ILLUMINATION := ILLUMINATION r; ROAD_CONDITION := ROAD_CONDITION r;
     WEATHER1 := WEATHER1 r; WEATHER2 := WEATHER2 r; DEC_LAT := DEC_LAT r;
     DEC_LONG := DEC_LONG r |}.

Definition set_ARRIVAL_TM (v : option Z) (r : crash) : crash :=
  {| CRN := CRN r; COUNTY := COUNTY r; MUNICIPALITY := MUNICIPALITY r;
     HOUR_OF_DAY := HOUR_OF_DAY r; TIME_OF_DAY := TIME_OF_DAY r;
     DISPATCH_TM := DISPATCH_TM r; ARRIVAL_TM := v;
     ILLUMINATION := ILLUMINATION r; ROAD_CONDITION := ROAD_CONDITION r;
     WEATHER1 := WEATHER1 r; WEATHER2 := WEATHER2 r; DEC_LAT := DEC_LAT r;
     DEC_LONG := DEC_LONG r |}.

Definition set_ILLUMINATION (v : cell) (r : crash) : crash :=
  {| CRN := CRN r; COUNTY := COUNTY r; MUNICIPALITY := MUNICIPALITY r;
     HOUR_OF_DAY := HOUR_OF_DAY r; TIME_OF_DAY := TIME_OF_DAY r;
     DISPATCH_TM := DISPATCH_TM r; ARRIVAL_TM := ARRIVAL_TM r;
     ILLUMINATION := v; ROAD_CONDITION := ROAD_CONDITION r;
     WEATHER1 := WEATHER1 r; WEATHER2 := WEATHER2 r; DEC_LAT := DEC_LAT r;
     DEC_LONG := DEC_LONG r |}.

Definition set_ROAD_CONDITION (v : cell) (r : crash) : crash :=
  {| CRN := CRN r; COUNTY := COUNTY r; MUNICIPALITY := MUNICIPALITY r;
     HOUR_OF_DAY := HOUR_OF_DAY r; TIME_OF_DAY := TIME_OF_DAY r;
     DISPATCH_TM := DISPATCH_TM r; ARRIVAL_TM := ARRIVAL_TM r;
     ILLUMINATION := ILLUMINATION r; ROAD_CONDITION := v;
     WEATHER1 := WEATHER1 r; WEATHER2 := WEATHER2 r; DEC_LAT := DEC_LAT r;
     DEC_LONG := DEC_LONG r |}.

Definition set_WEATHER1 (v : cell) (r : crash) : crash :=
  {| CRN := CRN r; COUNTY := COUNTY r; MUNICIPALITY := MUNICIPALITY r;
     HOUR_OF_DAY := HOUR_OF_DAY r; TIME_OF_DAY := TIME_OF_DAY r;
     DISPATCH_TM := DISPATCH_TM r; ARRIVAL_TM := ARRIVAL_TM r;
     ILLUMINATION := ILLUMINATION r; ROAD_CONDITION := ROAD_CONDITION r;
     WEATHER1 := v; WEATHER2 := WEATHER2 r; DEC_LAT := DEC_LAT r;
     DEC_LONG := DEC_LONG r |}.

Definition set_WEATHER2 (v : cell) (r : crash) : crash :=
  {| CRN := CRN r; COUNTY := COUNTY r; MUNICIPALITY := MUNICIPALITY r;
     HOUR_OF_DAY := HOUR_OF_DAY r; TIME_OF_DAY := TIME_OF_DAY r;
     DISPATCH_TM := DISPATCH_TM r; ARRIVAL_TM := ARRIVAL_TM r;
     ILLUMINATION := ILLUMINATION r; ROAD_CONDITION := ROAD_CONDITION r;
     WEATHER1 := WEATHER1 r; WEATHER2 := v; DEC_LAT := DEC_LAT r;
     DEC_LONG := DEC_LONG r |}.

Definition ILLUMINATION_codes : dict :=
  [(Num 1, Str "daylight"); (Num 2, Str "dark_unlit"); (Num 3, Str "dark_lit");
   (Num 4, Str "dusk"); (Num 5, Str "dawn"); (Num 6, Str "dark_lit");
   (Num 8, Str "other"); (Num 9, NaN)].

Definition ROAD_CONDITION_codes : dict :=
  [(Num 1, Str "dry"); (Num 2, Str "ice_frost"); (Num 3, Str "mud_dirt_gravel");
   (Num 4, Str "oil"); (Num 5, Str "sand"); (Num 6, Str "slush");
   (Num 7, Str "snow"); (Num 8, Str "water"); (Num 9, Str "wet");
   (Num 98, Str "other"); (Num 0, NaN); (Num 99, NaN)].

(** Coercion, sentinel removal and recoding of the columns kept here. *)
Definition relabel {pd : Parser} (t : list crash) : list crash :=
  let t := assign set_WEATHER1 (fun r => to_numeric (WEATHER1 r)) t in
  let t := assign set_WEATHER2 (fun r => to_numeric (WEATHER2 r)) t in
  let t := assign set_TIME_OF_DAY (fun r => to_numeric (TIME_OF_DAY r)) t in
  let t := assign set_DISPATCH_TM
             (fun r => replace_num [(9999, None)] (DISPATCH_TM r)) t in
  let t := assign set_ARRIVAL_TM
             (fun r => replace_num [(9999, None)] (ARRIVAL_TM r)) t in
  let t := assign set_TIME_OF_DAY
             (fun r => replace [(Num 9999, NaN)] (TIME_OF_DAY r)) t in
  let t := assign set_HOUR_OF_DAY
             (fun r => replace_num [(99, None); (24, Some 0)] (HOUR_OF_DAY r)) t in
  let t := assign set_ILLUMINATION
             (fun r => replace ILLUMINATION_codes (ILLUMINATION r)) t in
  let t := assign set_ROAD_CONDITION
             (fun r => replace ROAD_CONDITION_codes (ROAD_CONDITION r)) t in
  let t := assign set_WEATHER1 (fun r => to_numeric (WEATHER1 r)) t in
  let t := assign set_WEATHER2 (fun r => to_numeric (WEATHER2 r)) t in
  let t := assign set_WEATHER1 (fun r => replace [(Num 99, NaN)] (WEATHER1 r)) t in
  let t := assign set_WEATHER2 (fun r => replace [(Num 99, NaN)] (WEATHER2 r)) t in
  t.

(** [Series.fillna(other)] with a second column. *)
Definition fillna_with (other : cell) (c : cell) : cell :=
  match c with NaN => other | _ => c end.

(** The three statements that consolidate [WEATHER1] and [WEATHER2]. *)
Definition consolidate (t : list crash) : list crash :=
  (* crashes['WEATHER1'] = crashes.WEATHER1.fillna(crashes.WEATHER2) *)
  let t := assign set_WEATHER1 (fun r => fillna_with (WEATHER2 r) (WEATHER1 r)) t in
  (* crashes.loc[crashes.WEATHER1==crashes.WEATHER2,'WEATHER2']=np.nan *)
  let t := assign set_WEATHER2
             (fun r => if cell_eqb (WEATHER1 r) (WEATHER2 r) then NaN
                       else WEATHER2 r) t in
  (* crashes['WEATHER1'].where((WEATHER1!=3)|(WEATHER2.isna()), WEATHER2) *)
  let t := assign set_WEATHER1
             (fun r => if negb (cell_eqb (WEATHER1 r) (Num 3)) || isna (WEATHER2 r)
                       then WEATHER1 r else WEATHER2 r) t in
  t.

End CrashesRaw.

(** *** After [rename(columns={'WEATHER1':'WEATHER'})] and
    [drop(columns='WEATHER2')] *)

Module CrashesMid.

Record crash : Type := {
  CRN : cell;
  COUNTY : cell;
  MUNICIPALITY : cell;
  HOUR_OF_DAY : option Z;
  TIME_OF_DAY : cell;
  DISPATCH_TM : option Z;
  ARRIVAL_TM : option Z;
  ILLUMINATION : cell;
  ROAD_CONDITION : cell;
  WEATHER : cell;
  DEC_LAT : option Q;
  DEC_LONG : option Q
}.

Definition set_HOUR_OF_DAY (v : option Z) (r : crash) : crash :=
  {| CRN := CRN r; COUNTY := COUNTY r; MUNICIPALITY := MUNICIPALITY r;
     HOUR_OF_DAY := v; TIME_OF_DAY := TIME_OF_DAY r;
     DISPATCH_TM := DISPATCH_TM r; ARRIVAL_TM := ARRIVAL_TM r;
     ILLUMINATION := ILLUMINATION r; ROAD_CONDITION := ROAD_CONDITION r;
     WEATHER := WEATHER r; DEC_LAT := DEC_LAT r; DEC_LONG := DEC_LONG r |}.

Definition set_ILLUMINATION (v : cell) (r : crash) : crash :=
  {| CRN := CRN r; COUNTY := COUNTY r; MUNICIPALITY := MUNICIPALITY r;
     HOUR_OF_DAY := HOUR_OF_DAY r; TIME_OF_DAY := TIME_OF_DAY r;
     DISPATCH_TM := DISPATCH_TM r; ARRIVAL_TM := ARRIVAL_TM r;
     ILLUMINATION := v; ROAD_CONDITION := ROAD_CONDITION r;
     WEATHER := WEATHER r; DEC_LAT := DEC_LAT r; DEC_LONG := DEC_LONG r |}.

Definition set_WEATHER (v : cell) (r : crash) : crash :=
  {| CRN := CRN r; COUNTY := COUNTY r; MUNICIPALITY := MUNICIPALITY r;
     HOUR_OF_DAY := HOUR_OF_DAY r; TIME_OF_DAY := TIME_OF_DAY r;
     DISPATCH_TM := DISPATCH_TM r; ARRIVAL_TM := ARRIVAL_TM r;
     ILLUMINATION := ILLUMINATION r; ROAD_CONDITION := ROAD_CONDITION r;
     WEATHER := v; DEC_LAT := DEC_LAT r; DEC_LONG := DEC_LONG r |}.

Definition set_DEC_LAT (v : option Q) (r : crash) : crash :=
  {| CRN := CRN r; COUNTY := COUNTY r; MUNICIPALITY := MUNICIPALITY r;
     HOUR_OF_DAY := HOUR_OF_DAY r; TIME_OF_DAY := TIME_OF_DAY r;
     DISPATCH_TM := DISPATCH_TM r; ARRIVAL_TM := ARRIVAL_TM r;
     ILLUMINATION := ILLUMINATION r; ROAD_CONDITION := ROAD_CONDITION r;
     WEATHER := WEATHER r; DEC_LAT := v; DEC_LONG := DEC_LONG r |}.

Definition set_DEC_LONG (v : option Q) (r : crash) : crash :=
  {| CRN := CRN r; COUNTY := COUNTY r; MUNICIPALITY := MUNICIPALITY r;
     HOUR_OF_DAY := HOUR_OF_DAY r; TIME_OF_DAY := TIME_OF_DAY r;
     DISPATCH_TM := DISPATCH_TM r; ARRIVAL_TM := ARRIVAL_TM r;
     ILLUMINATION := ILLUMINATION r; ROAD_CONDITION := ROAD_CONDITION r;
     WEATHER := WEATHER r; DEC_LAT := DEC_LAT r; DEC_LONG := v |}.

Definition rename_drop (r : CrashesRaw.crash) : crash :=
  {| CRN := CrashesRaw.CRN r; COUNTY := CrashesRaw.COUNTY r;
     MUNICIPALITY := CrashesRaw.MUNICIPALITY r;
     HOUR_OF_DAY := CrashesRaw.HOUR_OF_DAY r;
     TIME_OF_DAY := CrashesRaw.TIME_OF_DAY r;
     DISPATCH_TM := CrashesRaw.DISPATCH_TM r;
     ARRIVAL_TM := CrashesRaw.ARRIVAL_TM r;
     ILLUMINATION := CrashesRaw.ILLUMINATION r;
     ROAD_CONDITION := CrashesRaw.ROAD_CONDITION r;
     WEATHER := CrashesRaw.WEATHER1 r;
     DEC_LAT := CrashesRaw.DEC_LAT r; DEC_LONG := CrashesRaw.DEC_LONG r |}.

Definition nan_crash : crash :=
  {| CRN := NaN; COUNTY := NaN; MUNICIPALITY := NaN; HOUR_OF_DAY := None;
     TIME_OF_DAY := NaN; DISPATCH_TM := None; ARRIVAL_TM := None;
     ILLUMINATION := NaN; ROAD_CONDITION := NaN; WEATHER := NaN;
     DEC_LAT := None; DEC_LONG := None |}.

Definition WEATHER_codes : dict :=
  [(Num 1, Str "blowing_sand_soil_dirt"); (Num 2, Str "blowing_snow");
   (Num 3, Str "clear"); (Num 4, Str "cloudy"); (Num 5, Str "fog_smog_smoke");
   (Num 6, Str "freezing_rain"); (Num 7, Str "rain");
   (Num 8, Str "severe_crosswind"); (Num 9, Str "sleet_hail");
   (Num 10, Str "snow"); (Num 98, Str "other")].

(** "Adjust incorrect DEC_LAT, DEC_LONG": six assignments by row label. *)
Definition adjust_coordinates (t : list crash) : list crash :=
  let f := range_index 0 t in
  let f := at_set nan_crash 24770 (set_DEC_LAT None) f in
  let f := at_set nan_crash 24770 (set_DEC_LONG None) f in
  let f := at_set nan_crash 3087 (set_DEC_LAT (Some (400081 # 10000)%Q)) f in
  let f := at_set nan_crash 3087 (set_DEC_LONG (Some (-751923 # 10000)%Q)) f in
  let f := at_set nan_crash 24805 (set_DEC_LAT (Some (403322 # 10000)%Q)) f in
  let f := at_set nan_crash 24805 (set_DEC_LONG (Some (-759278 # 10000)%Q)) f in
  values f.

(** [x.mean()] over the non-missing values of a group; missing when there
    are none. *)
Definition mean (vs : list Q) : option Q :=
  match vs with
  | [] => None
  | _ => Some (fold_right Qplus 0%Q vs / inject_Z (Z.of_nat (List.length vs)))%Q
  end.

Definition group_values (area : crash -> cell) (coord : crash -> option Q)
  (k : cell) (t : list crash) : list Q :=
  flat_map (fun r =>
              if cell_eqb (area r) k
              then match coord r with Some q => [q] | None => [] end
              else []) t.

(** One row of [groupby(area)[coord].transform(lambda x: x.fillna(x.mean()))]:
    a row whose [area] is missing belongs to no group and comes back
    missing. *)
Definition fill_mean (area : crash -> cell) (coord : crash -> option Q)
  (t : list crash) (r : crash) : option Q :=
  match area r with
  | NaN => None
  | k => fillna_num (mean (group_values area coord k t)) (coord r)
  end.

Definition fill_coordinates (t : list crash) : list crash :=
  let t := assign set_DEC_LAT (fill_mean MUNICIPALITY DEC_LAT t) t in
  let t := assign set_DEC_LAT (fill_mean COUNTY DEC_LAT t) t in
  let t := assign set_DEC_LONG (fill_mean MUNICIPALITY DEC_LONG t) t in
  let t := assign set_DEC_LONG (fill_mean COUNTY DEC_LONG t) t in
  t.

(** [Series.floordiv(100)]; Python's floor division is [Z.div]. *)
Definition floordiv100 (x : option Z) : option Z :=
  option_map (fun z => z / 100) x.

(** The numeric value of a cell of a column that went through
    [to_numeric]. *)
Definition number (c : cell) : option Z :=
  match c with Num z => Some z | _ => None end.

(** "Fill some missing HOUR_OF_DAY using TIME_OF_DAY, or DISPATCH_TM, or
    ARRIVAL_TM when possible" *)
Definition fill_hour (t : list crash) : list crash :=
  let t := assign set_HOUR_OF_DAY
             (fun r => fillna_num (floordiv100 (number (TIME_OF_DAY r)))
                         (HOUR_OF_DAY r)) t in
  let t := assign set_HOUR_OF_DAY
             (fun r => fillna_num (floordiv100 (DISPATCH_TM r)) (HOUR_OF_DAY r)) t in
  let t := assign set_HOUR_OF_DAY
             (fun r => fillna_num (floordiv100 (ARRIVAL_TM r)) (HOUR_OF_DAY r)) t in
  t.

(** "Fill all five missing ILLUMINATION 'daylight'" *)
Definition fill_illumination (t : list crash) : list crash :=
  assign set_ILLUMINATION (fun r => fillna (Str "daylight") (ILLUMINATION r)) t.

(** The statements of the cell up to the weather labels. *)
Definition recode {pd : Parser} (t : list CrashesRaw.crash) : list crash :=
  let t := map rename_drop (CrashesRaw.consolidate (CrashesRaw.relabel t)) in
  let t := assign set_WEATHER (fun r => replace WEATHER_codes (WEATHER r)) t in
  t.

Definition clean {pd : Parser} (t : list CrashesRaw.crash) : list crash :=
  let t := recode t in
  let t := adjust_coordinates t in
  let t := fill_coordinates t in
  let t := fill_hour t in
  let t := fill_illumination t in
  t.

End CrashesMid.

(** *** After [drop(columns=['DISPATCH_TM','ARRIVAL_TM'])], and the exported
    table with the speed limit merged on *)

Module Crashes.

Record crash : Type := {
  CRN : cell;
  COUNTY : cell;
  MUNICIPALITY : cell;
  HOUR_OF_DAY : option Z;
  TIME_OF_DAY : cell;
  ILLUMINATION : cell;
  ROAD_CONDITION : cell;
  WEATHER : cell;
  DEC_LAT : option Q;
  DEC_LONG : option Q
}.

Definition drop_times (r : CrashesMid.crash) : crash :=
  {| CRN := CrashesMid.CRN r; COUNTY := CrashesMid.COUNTY r;
     MUNICIPALITY := CrashesMid.MUNICIPALITY r;
     HOUR_OF_DAY := CrashesMid.HOUR_OF_DAY r;
     TIME_OF_DAY := CrashesMid.TIME_OF_DAY r;
     ILLUMINATION := CrashesMid.ILLUMINATION r;
     ROAD_CONDITION := CrashesMid.ROAD_CONDITION r;
     WEATHER := CrashesMid.WEATHER r;
     DEC_LAT := CrashesMid.DEC_LAT r; DEC_LONG := CrashesMid.DEC_LONG r |}.

(** A row of the exported [crashes] table. *)
Record crash_sl : Type := {
  base : crash;
  SPEED_LIMIT : option Z
}.

(** [crashes.merge(pd.DataFrame(roadway.groupby('CRN').min().SPEED_LIMIT),
    how='left', on='CRN')] *)
Definition merge_speed_limit (t : list crash) (agg : list (Z * option Z))
  : list crash_sl :=
  merge_left (fun c kv => key_eqb (CRN c) (Num (fst kv)))
             (fun c m => {| base := c;
                            SPEED_LIMIT := match m with
                                           | Some kv => snd kv
                                           | None => None
                                           end |})
             t agg.

(** The "Features in 'crashes'" cell; [None] when the county-mode fill
    raises. *)
Definition prepare {pd : Parser} (crashes : list CrashesRaw.crash)
  (roadway : list Roadway.segment) : option (list crash_sl) :=
  let t := map drop_times (CrashesMid.clean crashes) in
  match Roadway.fill_speed_limit roadway with
  | None => None
  | Some roadway' => Some (merge_speed_limit t (Roadway.groupby_CRN_min roadway'))
  end.

End Crashes.

(* ------------------------------------------------------------------ *)
(** ** The merged [cyclists] table                                      *)
(* ------------------------------------------------------------------ *)

Module Cyclists.

(** [persons[cols]] *)
Record person_cols : Type := {
  CRN : cell;
  UNIT_NUM : cell;
  INJ_SEVERITY : cell;
  PERSON_TYPE : cell;
  AGE : option Z;
  SEX : cell;
  RESTRAINT_HELMET : cell
}.

Definition select_person (p : Persons.person) : person_cols :=
  {| CRN := Persons.CRN p; UNIT_NUM := Persons.UNIT_NUM p;
     INJ_SEVERITY := Persons.INJ_SEVERITY p;
     PERSON_TYPE := Persons.PERSON_TYPE p; AGE := Persons.AGE p;
     SEX := Persons.SEX p; RESTRAINT_HELMET := Persons.RESTRAINT_HELMET p |}.

(** The columns a bicycle brings besides the merge keys and [VEH_TYPE]. *)
Record bike_cols : Type := {
  GRADE : cell;
  IMPACT_POINT : cell;
  IMPACT_SIDE : cell;
  RDWY_ALIGNMENT : cell;
  VEH_MOVEMENT : cell;
  VEH_POSITION : cell;
  VEH_ROLE : cell;
  PC_HDLGHT_IND : cell;
  PC_HLMT_IND : cell;
  PC_REAR_RFLTR_IND : cell
}.

Definition bike_of (b : Bicycles.bicycle) : bike_cols :=
  {| GRADE := Bicycles.GRADE b; IMPACT_POINT := Bicycles.IMPACT_POINT b;
     IMPACT_SIDE := Bicycles.IMPACT_SIDE b;
     RDWY_ALIGNMENT := Bicycles.RDWY_ALIGNMENT b;
     VEH_MOVEMENT := Bicycles.VEH_MOVEMENT b;
     VEH_POSITION := Bicycles.VEH_POSITION b;
     VEH_ROLE := Bicycles.VEH_ROLE b;
     PC_HDLGHT_IND := Bicycles.PC_HDLGHT_IND b;
     PC_HLMT_IND := Bicycles.PC_HLMT_IND b;
     PC_REAR_RFLTR_IND := Bicycles.PC_REAR_RFLTR_IND b |}.

Definition nan_bike : bike_cols :=
  {| GRADE := NaN; IMPACT_POINT := NaN; IMPACT_SIDE := NaN;
     RDWY_ALIGNMENT := NaN; VEH_MOVEMENT := NaN; VEH_POSITION := NaN;
     VEH_ROLE := NaN; PC_HDLGHT_IND := NaN; PC_HLMT_IND := NaN;
     PC_REAR_RFLTR_IND := NaN |}.

(** A row of [persons[cols].merge(bicycles, on=['CRN','UNIT_NUM'], how='left')]. *)
Record person_bike : Type := {
  pb_person : person_cols;
  VEH_TYPE : cell;
  pb_bike : bike_cols
}.

Definition same_unit (p : person_cols) (b : Bicycles.bicycle) : bool :=
  key_eqb (CRN p) (Num (Bicycles.CRN b))
  && key_eqb (UNIT_NUM p) (Bicycles.UNIT_NUM b).

Definition join_bike (p : person_cols) (m : option Bicycles.bicycle)
  : person_bike :=
  match m with
  | Some b => {| pb_person := p; VEH_TYPE := Bicycles.VEH_TYPE b;
                 pb_bike := bike_of b |}
  | None => {| pb_person := p; VEH_TYPE := NaN; pb_bike := nan_bike |}
  end.

(** "Isolate cyclists by restricting to samples which inherit VEH_TYPE from
    bicycles" *)
Definition isolate (persons : list Persons.person)
  (bicycles : list Bicycles.bicycle) : list person_bike :=
  let cyclists := merge_left same_unit join_bike (map select_person persons)
                    bicycles in
  filter (fun c => notnull (VEH_TYPE c)) cyclists.

(** [crashes[cols]] without the key. *)
Record crash_cols : Type := {
  COUNTY : cell;
  MUNICIPALITY : cell;
  HOUR_OF_DAY : option Z;
  ILLUMINATION : cell;
  ROAD_CONDITION : cell;
  WEATHER : cell;
  SPEED_LIMIT : option Z
}.

Definition select_crash (k : Crashes.crash_sl) : crash_cols :=
  {| COUNTY := Crashes.COUNTY (Crashes.base k);
     MUNICIPALITY := Crashes.MUNICIPALITY (Crashes.base k);
     HOUR_OF_DAY := Crashes.HOUR_OF_DAY (Crashes.base k);
     ILLUMINATION := Crashes.ILLUMINATION (Crashes.base k);
     ROAD_CONDITION := Crashes.ROAD_CONDITION (Crashes.base k);
     WEATHER := Crashes.WEATHER (Crashes.base k);
     SPEED_LIMIT := Crashes.SPEED_LIMIT k |}.

Definition nan_crash : crash_cols :=
  {| COUNTY := NaN; MUNICIPALITY := NaN; HOUR_OF_DAY := None;
     ILLUMINATION := NaN; ROAD_CONDITION := NaN; WEATHER := NaN;
     SPEED_LIMIT := None |}.

(** A row of [cyclists.merge(crashes[cols], on=['CRN'], how='left')
    .drop('VEH_TYPE', axis=1)]. *)
Record cyclist : Type := {
  person : person_cols;
  bike : bike_cols;
  crash : crash_cols
}.

Definition same_crash (c : person_bike) (k : Crashes.crash_sl) : bool :=
  key_eqb (CRN (pb_person c)) (Crashes.CRN (Crashes.base k)).

Definition join_crash (c : person_bike) (m : option Crashes.crash_sl)
  : cyclist :=
  {| person := pb_person c; bike := pb_bike c;
     crash := match m with Some k => select_crash k | None => nan_crash end |}.

Definition merge_crashes (cyclists : list person_bike)
  (crashes : list Crashes.crash_sl) : list cyclist :=
  merge_left same_crash join_crash cyclists crashes.

Definition set_WEATHER (v : cell) (c : cyclist) : cyclist :=
  {| person := person c; bike := bike c;
     crash := {| COUNTY := COUNTY (crash c);
                 MUNICIPALITY := MUNICIPALITY (crash c);
                 HOUR_OF_DAY := HOUR_OF_DAY (crash c);
                 ILLUMINATION := ILLUMINATION (crash c);
                 ROAD_CONDITION := ROAD_CONDITION (crash c);
                 WEATHER := v; SPEED_LIMIT := SPEED_LIMIT (crash c) |} |}.

Definition set_ROAD_CONDITION (v : cell) (c : cyclist) : cyclist :=
  {| person := person c; bike := bike c;
     crash := {| COUNTY := COUNTY (crash c);
                 MUNICIPALITY := MUNICIPALITY (crash c);
                 HOUR_OF_DAY := HOUR_OF_DAY (crash c);
                 ILLUMINATION := ILLUMINATION (crash c);
                 ROAD_CONDITION := v;
                 WEATHER := WEATHER (crash c);
                 SPEED_LIMIT := SPEED_LIMIT (crash c) |} |}.

Definition set_RESTRAINT_HELMET (v : cell) (c : cyclist) : cyclist :=
  {| person := {| CRN := CRN (person c); UNIT_NUM := UNIT_NUM (person c);
                  INJ_SEVERITY := INJ_SEVERITY (person c);
                  PERSON_TYPE := PERSON_TYPE (person c);
                  AGE := AGE (person c); SEX := SEX (person c);
                  RESTRAINT_HELMET := v |};
     bike := bike c; crash := crash c |}.

Definition set_bike (v : bike_cols) (c : cyclist) : cyclist :=
  {| person := person c; bike := v; crash := crash c |}.

Definition set_IMPACT_SIDE (v : cell) (c : cyclist) : cyclist :=
  set_bike
    {| GRADE := GRADE (bike c); IMPACT_POINT := IMPACT_POINT (bike c);
       IMPACT_SIDE := v; RDWY_ALIGNMENT := RDWY_ALIGNMENT (bike c);
       VEH_MOVEMENT := VEH_MOVEMENT (bike c);
       VEH_POSITION := VEH_POSITION (bike c); VEH_ROLE := VEH_ROLE (bike c);
       PC_HDLGHT_IND := PC_HDLGHT_IND (bike c);
       PC_HLMT_IND := PC_HLMT_IND (bike c);
       PC_REAR_RFLTR_IND := PC_REAR_RFLTR_IND (bike c) |} c.

Definition set_GRADE (v : cell) (c : cyclist) : cyclist :=
  set_bike
    {| GRADE := v; IMPACT_POINT := IMPACT_POINT (bike c);
       IMPACT_SIDE := IMPACT_SIDE (bike c);
       RDWY_ALIGNMENT := RDWY_ALIGNMENT (bike c);
       VEH_MOVEMENT := VEH_MOVEMENT (bike c);
       VEH_POSITION := VEH_POSITION (bike c); VEH_ROLE := VEH_ROLE (bike c);
       PC_HDLGHT_IND := PC_HDLGHT_IND (bike c);
       PC_HLMT_IND := PC_HLMT_IND (bike c);
       PC_REAR_RFLTR_IND := PC_REAR_RFLTR_IND (bike c) |} c.

Definition set_VEH_POSITION (v : cell) (c : cyclist) : cyclist :=
  set_bike
    {| GRADE := GRADE (bike c); IMPACT_POINT := IMPACT_POINT (bike c);
       IMPACT_SIDE := IMPACT_SIDE (bike c);
       RDWY_ALIGNMENT := RDWY_ALIGNMENT (bike c);
       VEH_MOVEMENT := VEH_MOVEMENT (bike c);
       VEH_POSITION := v; VEH_ROLE := VEH_ROLE (bike c);
       PC_HDLGHT_IND := PC_HDLGHT_IND (bike c);
       PC_HLMT_IND := PC_HLMT_IND (bike c);
       PC_REAR_RFLTR_IND := PC_REAR_RFLTR_IND (bike c) |} c.

(** The fills of the "Missing data in 'cyclists'" cell. *)
Definition fill_now (t : list cyclist) : list cyclist :=
  (* cyclists.loc[(ROAD_CONDITION=='dry')&(WEATHER.isna()),'WEATHER'] = 'clear' *)
  let t := assign set_WEATHER
             (fun c => if cell_eqb (ROAD_CONDITION (crash c)) (Str "dry")
                          && isna (WEATHER (crash c))
                       then Str "clear" else WEATHER (crash c)) t in
  (* cyclists.loc[(WEATHER=='rain')&(ROAD_CONDITION.isna()),'ROAD_CONDITION'] = 'wet' *)
  let t := assign set_ROAD_CONDITION
             (fun c => if cell_eqb (WEATHER (crash c)) (Str "rain")
                          && isna (ROAD_CONDITION (crash c))
                       then Str "wet" else ROAD_CONDITION (crash c)) t in
  let t := assign set_RESTRAINT_HELMET
             (fun c => fillna (Str "unknown") (RESTRAINT_HELMET (person c))) t in
  let t := assign set_IMPACT_SIDE
             (fun c => fillna (Str "unknown") (IMPACT_SIDE (bike c))) t in
  let t := assign set_GRADE (fun c => fillna (Str "unknown") (GRADE (bike c))) t in
  let t := assign set_VEH_POSITION
             (fun c => fillna (Str "unknown") (VEH_POSITION (bike c))) t in
  t.

(** [lambda x: 1 if x in ['killed','susp_serious_injury'] else 0] *)
Definition serious_or_fatality (x : cell) : Z :=
  if existsb (cell_eqb x) [Str "killed"; Str "susp_serious_injury"]
  then 1 else 0.

(** [pd.cut(x, bins=range(0,101,10))]: the bin edges, the position of [x]
    among them ([searchsorted], left side), and the right-closed interval it
    falls in; missing when [x] is missing, not above the first edge or above
    the last. *)
Definition bin_edges : list Z := map (fun i => 10 * Z.of_nat i) (seq 0 11).

Definition searchsorted (edges : list Z) (x : Z) : nat :=
  List.length (filter (fun e => e <? x) edges).

Definition cut (edges : list Z) (x : option Z) : option (Z * Z) :=
  match x with
  | None => None
  | Some v =>
      let i := searchsorted edges v in
      if (i =? 0)%nat || (i =? List.length edges)%nat then None
      else Some (nth (i - 1) edges 0, nth i edges 0)
  end.

Definition decimal (z : Z) : string :=
  DecimalString.NilZero.string_of_int (Z.to_int z).

(** [.astype('str')] of the categorical: the text of the interval, and the
    text [nan] for a missing entry. *)
Definition astype_str (c : option (Z * Z)) : string :=
  match c with
  | Some (lo, hi) => "(" ++ decimal lo ++ ", " ++ decimal hi ++ "]"
  | None => "nan"
  end.

Definition age_bins (age : option Z) : cell :=
  Str (astype_str (cut bin_edges age)).

(** A row of the exported [cyclists] table. *)
Record cyclist_out : Type := {
  row : cyclist;
  SERIOUS_OR_FATALITY : Z;
  AGE_BINS : cell
}.

Definition derive (c : cyclist) : cyclist_out :=
  {| row := c;
     SERIOUS_OR_FATALITY := serious_or_fatality (INJ_SEVERITY (person c));
     AGE_BINS := age_bins (AGE (person c)) |}.

End Cyclists.

(* ------------------------------------------------------------------ *)
(** ** The notebook, from the four raw tables to the two exports        *)
(* ------------------------------------------------------------------ *)

Record exports : Type := {
  cyclists_csv : list Cyclists.cyclist_out;
  crashes_csv : list Crashes.crash_sl
}.

(** [None]: the run stopped on an exception. *)
Definition notebook {pd : Parser} (bicycles : list Bicycles.bicycle)
  (persons : list Persons.person) (crashes : list CrashesRaw.crash)
  (roadway : list Roadway.segment) : option exports :=
  let bicycles := Bicycles.recode bicycles in
  let persons := Persons.recode persons in
  match Crashes.prepare crashes roadway with
  | None => None
  | Some crashes =>
      let cyclists := Cyclists.isolate persons bicycles in
      let cyclists := Cyclists.merge_crashes cyclists crashes in
      let cyclists := Cyclists.fill_now cyclists in
      Some {| cyclists_csv := map Cyclists.derive cyclists;
              crashes_csv := crashes |}
  end.

(* ------------------------------------------------------------------ *)
(** ** Reference definitions and sample tables                          *)
(* ------------------------------------------------------------------ *)

(** What a table transformation makes of a single record: the first row of
    the transformed one-row table. *)
Definition on_row {A B : Type} (F : list A -> list B) (default : B) (r : A) : B :=
  hd default (F [r]).

(** A table transformation that treats every record on its own. *)
Definition row_map {A B : Type} (F : list A -> list B) : Prop :=
  exists f, forall t, F t = map f t.

(** The columns of [bicycles] that the numeric coercion does not touch. *)
Definition uncoerced (b : Bicycles.bicycle)
  : Z * cell * cell * cell * cell * cell * cell * cell :=
  (Bicycles.CRN b, Bicycles.UNIT_NUM b, Bicycles.GRADE b,
   Bicycles.IMPACT_POINT b, Bicycles.IMPACT_SIDE b,
   Bicycles.PC_HDLGHT_IND b, Bicycles.PC_HLMT_IND b,
   Bicycles.PC_REAR_RFLTR_IND b).

(** No key of the dictionary equals the cell. *)
Definition no_key (d : dict) (x : cell) : Prop :=
  existsb (fun kv => cell_eqb (fst kv) x) d = false.

(** A crash record with its coordinates blanked: two records that agree on
    it agree on every other column. *)
Definition without_coordinates (r : CrashesMid.crash) : CrashesMid.crash :=
  CrashesMid.set_DEC_LAT None (CrashesMid.set_DEC_LONG None r).

(** The statements of the crashes cell that work on a record alone: the
    recode, the hour chain and the illumination fill (the positional
    assignments and the coordinate fill are left out). *)
Definition record_fills (t : list CrashesMid.crash) : list CrashesMid.crash :=
  CrashesMid.fill_illumination (CrashesMid.fill_hour t).

Definition recode_and_fill {pd : Parser}
  (t : list CrashesRaw.crash) : list CrashesMid.crash :=
  record_fills (CrashesMid.recode t).

(** The speed limit a crash receives from the per-CRN aggregate. *)
Definition attached (agg : list (Z * option Z)) (c : Crashes.crash)
  : option Z :=
  match hd_error (filter (fun kv => key_eqb (Crashes.CRN c) (Num (fst kv))) agg) with
  | Some kv => snd kv
  | None => None
  end.

(** The weather rule in the words of the specification: (1) a missing
    primary takes the secondary; (2) a secondary equal to the primary is
    cleared; (3) a primary that is the "clear" code gives way to a secondary
    that is still there. *)
Definition clear_code : cell := Num 3.

Definition weather_rule (primary secondary : cell) : cell :=
  let primary := if isna primary then secondary else primary in
  let secondary := if cell_eqb primary secondary then NaN else secondary in
  if cell_eqb primary clear_code && notnull secondary then secondary
  else primary.

(** A weather cell after coercion and removal of the sentinel 99. *)
Definition weather_code {pd : Parser} (raw : cell) : cell :=
  replace [(Num 99, NaN)] (to_numeric raw).

(** The hour rule on one record: the recorded hour, else the hour of
    [TIME_OF_DAY], else of [DISPATCH_TM], else of [ARRIVAL_TM]. *)
Definition hour_rule {pd : Parser} (r : CrashesRaw.crash) : option Z :=
  let hour := replace_num [(99, None); (24, Some 0)] (CrashesRaw.HOUR_OF_DAY r) in
  let time := replace [(Num 9999, NaN)] (to_numeric (CrashesRaw.TIME_OF_DAY r)) in
  let dispatch := replace_num [(9999, None)] (CrashesRaw.DISPATCH_TM r) in
  let arrival := replace_num [(9999, None)] (CrashesRaw.ARRIVAL_TM r) in
  match hour with
  | Some h => Some h
  | None =>
      match CrashesMid.number time with
      | Some t => Some (t / 100)
      | None =>
          match dispatch with
          | Some d => Some (d / 100)
          | None => option_map (fun a => a / 100) arrival
          end
      end
  end.

(** [m] is the least element of [vs]. *)
Definition is_minimum (m : Z) (vs : list Z) : Prop :=
  In m vs /\ forall v, In v vs -> m <= v.

Module Sample.

(** The texts of the sample tables are plain decimal literals ([1745]) or
    no numbers at all ([U]); for these tables the parser reads digits with
    an optional minus sign. *)
Definition digit_of (c : ascii) : option Z :=
  let n := Z.of_nat (nat_of_ascii c) in
  if (48 <=? n) && (n <=? 57) then Some (n - 48) else None.

Fixpoint parse_digits (acc : Z) (s : string) : option Z :=
  match s with
  | EmptyString => Some acc
  | String c s' =>
      match digit_of c with
      | Some d => parse_digits (10 * acc + d) s'
      | None => None
      end
  end.

Definition decimal_literal (s : string) : option Z :=
  match s with
  | EmptyString => None
  | String "-"%char EmptyString => None
  | String "-"%char s' => option_map Z.opp (parse_digits 0 s')
  | _ => parse_digits 0 s
  end.

#[global] Instance parser : Parser := decimal_literal.

Definition bike (crn : Z) (unit type : cell) : Bicycles.bicycle :=
  {| Bicycles.CRN := crn; Bicycles.UNIT_NUM := unit;
     Bicycles.VEH_TYPE := type; Bicycles.GRADE := Num 1;
     Bicycles.IMPACT_POINT := Num 12; Bicycles.IMPACT_SIDE := NaN;
     Bicycles.RDWY_ALIGNMENT := Num 1; Bicycles.VEH_MOVEMENT := Num 1;
     Bicycles.VEH_POSITION := Num 99; Bicycles.VEH_ROLE := Num 2;
     Bicycles.PC_HDLGHT_IND := Str "N"; Bicycles.PC_HLMT_IND := Str "Y";
     Bicycles.PC_REAR_RFLTR_IND := Str "U" |}.

Definition rider (crn unit num injury : cell) (age : option Z)
  : Persons.person :=
  {| Persons.CRN := crn; Persons.UNIT_NUM := unit; Persons.PERSON_NUM := num;
     Persons.INJ_SEVERITY := injury; Persons.PERSON_TYPE := Num 1;
     Persons.AGE := age; Persons.SEX := Str "F";
     Persons.TRANSPORTED := Str "Y"; Persons.RESTRAINT_HELMET := Num 99 |}.

Definition collision (crn : Z) (illumination w1 w2 : cell) (hour : option Z)
  : CrashesRaw.crash :=
  {| CrashesRaw.CRN := Num crn; CrashesRaw.COUNTY := Num 67;
     CrashesRaw.MUNICIPALITY := Num 67301;
     CrashesRaw.HOUR_OF_DAY := hour; CrashesRaw.TIME_OF_DAY := Str "1745";
     CrashesRaw.DISPATCH_TM := Some 1750; CrashesRaw.ARRIVAL_TM := Some 9999;
     CrashesRaw.ILLUMINATION := illumination;
     CrashesRaw.ROAD_CONDITION := Num 1;
     CrashesRaw.WEATHER1 := w1; CrashesRaw.WEATHER2 := w2;
     CrashesRaw.DEC_LAT := Some (399526 # 10000)%Q;
     CrashesRaw.DEC_LONG := Some (-751652 # 10000)%Q |}.

Definition road (crn : Z) (county limit : option Z) : Roadway.segment :=
  {| Roadway.CRN := crn; Roadway.RDWY_COUNTY := county;
     Roadway.SPEED_LIMIT := limit |}.

(** Two crashes: in the first, a cyclist (killed, aged 34) and a motorist;
    in the second, a cyclist whose injury and age were not recorded. *)
Definition bicycles : list Bicycles.bicycle :=
  [bike 1 (Num 1) (Num 20); bike 2 (Str "U") (Str "21")].

Definition persons : list Persons.person :=
  [rider (Num 1) (Num 1) (Num 1) (Num 1) (Some 34);
   rider (Num 1) (Num 2) (Num 1) (Num 0) (Some 51);
   rider (Num 2) (Num 1) (Num 1) (Str "U") None].

Definition crashes : list CrashesRaw.crash :=
  [collision 1 (Num 9) (Num 3) (Num 7) (Some 99);
   collision 2 (Num 2) (Str "U") (Num 99) (Some 24)].

(** The first crash lies on two segments, with limits 25 and 35. *)
Definition roadway : list Roadway.segment :=
  [road 1 (Some 67) (Some 25); road 1 (Some 67) (Some 35)].

(** Two records with the same composite key, neither of them the record
    at label 35557. *)
Definition persons_colliding : list Persons.person :=
  [rider (Num 1) (Num 1) (Num 1) (Num 1) (Some 34);
   rider (Num 1) (Num 1) (Num 1) (Num 4) (Some 19)].



(** Two crash tables that agree on the first crash, whose coordinates are
    not recorded, and differ in the latitude of the second crash of the
    same municipality. *)
Definition located (crn : Z) (lat : option Q) : CrashesRaw.crash :=
  {| CrashesRaw.CRN := Num crn; CrashesRaw.COUNTY := Num 67;
     CrashesRaw.MUNICIPALITY := Num 67301;
     CrashesRaw.HOUR_OF_DAY := Some 8; CrashesRaw.TIME_OF_DAY := Num 800;
     CrashesRaw.DISPATCH_TM := None; CrashesRaw.ARRIVAL_TM := None;
     CrashesRaw.ILLUMINATION := Num 1; CrashesRaw.ROAD_CONDITION := Num 1;
     CrashesRaw.WEATHER1 := Num 3; CrashesRaw.WEATHER2 := NaN;
     CrashesRaw.DEC_LAT := lat; CrashesRaw.DEC_LONG := lat |}.

Definition crashes_a : list CrashesRaw.crash :=
  [located 1 None; located 2 (Some 40%Q)].

Definition crashes_b : list CrashesRaw.crash :=
  [located 1 None; located 2 (Some 41%Q)].

End Sample.

(** The raw vehicle type of a record is one of the pedal-cycle codes, as in
    a table extracted from the pedal cycles of the VEHICLE file. *)
Definition pedal_cycle {pd : Parser} (b : Bicycles.bicycle) : Prop :=
  to_numeric (Bicycles.VEH_TYPE b) = Num 20 \/
  to_numeric (Bicycles.VEH_TYPE b) = Num 21.

Definition pedal_cycle_labels : list cell :=
  [Str "bicycle"; Str "other_pedalcycle"].

(** The columns of a merged cyclist that the fills of the last cell leave
    alone. *)
Definition unfilled (c : Cyclists.cyclist) :=
  (Cyclists.CRN (Cyclists.person c), Cyclists.UNIT_NUM (Cyclists.person c),
   Cyclists.INJ_SEVERITY (Cyclists.person c), Cyclists.AGE (Cyclists.person c),
   Cyclists.HOUR_OF_DAY (Cyclists.crash c),
   Cyclists.ILLUMINATION (Cyclists.crash c),
   Cyclists.SPEED_LIMIT (Cyclists.crash c)).

(* ------------------------------------------------------------------ *)
(** ** The other columns of the crashes cell                            *)
(* ------------------------------------------------------------------ *)

Module CrashesMore.

(** The categorical columns the cell recodes by dictionary alone, and the
    vehicle counts with the presence columns made from them.  In a raw
    table the presence columns are not there yet (missing). *)
Record crash : Type := {
  COLLISION_TYPE : cell;
  URBAN_RURAL : cell;
  INTERSECT_TYPE : cell;
  LOCATION_TYPE : cell;
  RELATION_TO_ROAD : cell;
  TCD_TYPE : cell;
  TCD_FUNC_CD : cell;
  BUS_COUNT : option Z;
  HEAVY_TRUCK_COUNT : option Z;
  SMALL_TRUCK_COUNT : option Z;
  SUV_COUNT : option Z;
  VAN_COUNT : option Z;
  BUS : option Z;
  HEAVY_TRUCK : option Z;
  SMALL_TRUCK : option Z;
  SUV : option Z;
  VAN : option Z
}.

Definition set_COLLISION_TYPE (v : cell) (r : crash) : crash :=
  {| COLLISION_TYPE := v; URBAN_RURAL := URBAN_RURAL r;
     INTERSECT_TYPE := INTERSECT_TYPE r; LOCATION_TYPE := LOCATION_TYPE r;
     RELATION_TO_ROAD := RELATION_TO_ROAD r; TCD_TYPE := TCD_TYPE r;
     TCD_FUNC_CD := TCD_FUNC_CD r; BUS_COUNT := BUS_COUNT r;
     HEAVY_TRUCK_COUNT := HEAVY_TRUCK_COUNT r;
     SMALL_TRUCK_COUNT := SMALL_TRUCK_COUNT r; SUV_COUNT := SUV_COUNT r;
     VAN_COUNT := VAN_COUNT r; BUS := BUS r; HEAVY_TRUCK := HEAVY_TRUCK r;
     SMALL_TRUCK := SMALL_TRUCK r; SUV := SUV r; VAN := VAN r |}.

Definition set_URBAN_RURAL (v : cell) (r : crash) : crash :=
  {| COLLISION_TYPE := COLLISION_TYPE r; URBAN_RURAL := v;
     INTERSECT_TYPE := INTERSECT_TYPE r; LOCATION_TYPE := LOCATION_TYPE r;
     RELATION_TO_ROAD := RELATION_TO_ROAD r; TCD_TYPE := TCD_TYPE r;
     TCD_FUNC_CD := TCD_FUNC_CD r; BUS_COUNT := BUS_COUNT r;
     HEAVY_TRUCK_COUNT := HEAVY_TRUCK_COUNT r;
     SMALL_TRUCK_COUNT := SMALL_TRUCK_COUNT r; SUV_COUNT := SUV_COUNT r;
     VAN_COUNT := VAN_COUNT r; BUS := BUS r; HEAVY_TRUCK := HEAVY_TRUCK r;
     SMALL_TRUCK := SMALL_TRUCK r; SUV := SUV r; VAN := VAN r |}.

Definition set_INTERSECT_TYPE (v : cell) (r : crash) : crash :=
  {| COLLISION_TYPE := COLLISION_TYPE r; URBAN_RURAL := URBAN_RURAL r;
     INTERSECT_TYPE := v; LOCATION_TYPE := LOCATION_TYPE r;
     RELATION_TO_ROAD := RELATION_TO_ROAD r; TCD_TYPE := TCD_TYPE r;
     TCD_FUNC_CD := TCD_FUNC_CD r; BUS_COUNT := BUS_COUNT r;
     HEAVY_TRUCK_COUNT := HEAVY_TRUCK_COUNT r;
     SMALL_TRUCK_COUNT := SMALL_TRUCK_COUNT r; SUV_COUNT := SUV_COUNT r;
     VAN_COUNT := VAN_COUNT r; BUS := BUS r; HEAVY_TRUCK := HEAVY_TRUCK r;
     SMALL_TRUCK := SMALL_TRUCK r; SUV := SUV r; VAN := VAN r |}.

Definition set_LOCATION_TYPE (v : cell) (r : crash) : crash :=
  {| COLLISION_TYPE := COLLISION_TYPE r; URBAN_RURAL := URBAN_RURAL r;
     INTERSECT_TYPE := INTERSECT_TYPE r; LOCATION_TYPE := v;
     RELATION_TO_ROAD := RELATION_TO_ROAD r; TCD_TYPE := TCD_TYPE r;
     TCD_FUNC_CD := TCD_FUNC_CD r; BUS_COUNT := BUS_COUNT r;
     HEAVY_TRUCK_COUNT := HEAVY_TRUCK_COUNT r;
     SMALL_TRUCK_COUNT := SMALL_TRUCK_COUNT r; SUV_COUNT := SUV_COUNT r;
     VAN_COUNT := VAN_COUNT r; BUS := BUS r; HEAVY_TRUCK := HEAVY_TRUCK r;
     SMALL_TRUCK := SMALL_TRUCK r; SUV := SUV r; VAN := VAN r |}.

Definition set_RELATION_TO_ROAD (v : cell) (r : crash) : crash :=
  {| COLLISION_TYPE := COLLISION_TYPE r; URBAN_RURAL := URBAN_RURAL r;
     INTERSECT_TYPE := INTERSECT_TYPE r; LOCATION_TYPE := LOCATION_TYPE r;
     RELATION_TO_ROAD := v; TCD_TYPE := TCD_TYPE r;
     TCD_FUNC_CD := TCD_FUNC_CD r; BUS_COUNT := BUS_COUNT r;
     HEAVY_TRUCK_COUNT := HEAVY_TRUCK_COUNT r;
     SMALL_TRUCK_COUNT := SMALL_TRUCK_COUNT r; SUV_COUNT := SUV_COUNT r;
     VAN_COUNT := VAN_COUNT r; BUS := BUS r; HEAVY_TRUCK := HEAVY_TRUCK r;
     SMALL_TRUCK := SMALL_TRUCK r; SUV := SUV r; VAN := VAN r |}.

Definition set_TCD_TYPE (v : cell) (r : crash) : crash :=
  {| COLLISION_TYPE := COLLISION_TYPE r; URBAN_RURAL := URBAN_RURAL r;
     INTERSECT_TYPE := INTERSECT_TYPE r; LOCATION_TYPE := LOCATION_TYPE r;
     RELATION_TO_ROAD := RELATION_TO_ROAD r; TCD_TYPE := v;
     TCD_FUNC_CD := TCD_FUNC_CD r; BUS_COUNT := BUS_COUNT r;
     HEAVY_TRUCK_COUNT := HEAVY_TRUCK_COUNT r;
     SMALL_TRUCK_COUNT := SMALL_TRUCK_COUNT r; SUV_COUNT := SUV_COUNT r;
     VAN_COUNT := VAN_COUNT r; BUS := BUS r; HEAVY_TRUCK := HEAVY_TRUCK r;
     SMALL_TRUCK := SMALL_TRUCK r; SUV := SUV r; VAN := VAN r |}.

Definition set_TCD_FUNC_CD (v : cell) (r : crash) : crash :=
  {| COLLISION_TYPE := COLLISION_TYPE r; URBAN_RURAL := URBAN_RURAL r;
     INTERSECT_TYPE := INTERSECT_TYPE r; LOCATION_TYPE := LOCATION_TYPE r;
     RELATION_TO_ROAD := RELATION_TO_ROAD r; TCD_TYPE := TCD_TYPE r;
     TCD_FUNC_CD := v; BUS_COUNT := BUS_COUNT r;
     HEAVY_TRUCK_COUNT := HEAVY_TRUCK_COUNT r;
     SMALL_TRUCK_COUNT := SMALL_TRUCK_COUNT r; SUV_COUNT := SUV_COUNT r;
     VAN_COUNT := VAN_COUNT r; BUS := BUS r; HEAVY_TRUCK := HEAVY_TRUCK r;
     SMALL_TRUCK := SMALL_TRUCK r; SUV := SUV r; VAN := VAN r |}.

Definition set_BUS (v : option Z) (r : crash) : crash :=
  {| COLLISION_TYPE := COLLISION_TYPE r; URBAN_RURAL := URBAN_RURAL r;
     INTERSECT_TYPE := INTERSECT_TYPE r; LOCATION_TYPE := LOCATION_TYPE r;
     RELATION_TO_ROAD := RELATION_TO_ROAD r; TCD_TYPE := TCD_TYPE r;
     TCD_FUNC_CD := TCD_FUNC_CD r; BUS_COUNT := BUS_COUNT r;
     HEAVY_TRUCK_COUNT := HEAVY_TRUCK_COUNT r;
     SMALL_TRUCK_COUNT := SMALL_TRUCK_COUNT r; SUV_COUNT := SUV_COUNT r;
     VAN_COUNT := VAN_COUNT r; BUS := v; HEAVY_TRUCK := HEAVY_TRUCK r;
     SMALL_TRUCK := SMALL_TRUCK r; SUV := SUV r; VAN := VAN r |}.

Definition set_HEAVY_TRUCK (v : option Z) (r : crash) : crash :=
  {| COLLISION_TYPE := COLLISION_TYPE r; URBAN_RURAL := URBAN_RURAL r;
     INTERSECT_TYPE := INTERSECT_TYPE r; LOCATION_TYPE := LOCATION_TYPE r;
     RELATION_TO_ROAD := RELATION_TO_ROAD r; TCD_TYPE := TCD_TYPE r;
     TCD_FUNC_CD := TCD_FUNC_CD r; BUS_COUNT := BUS_COUNT r;
     HEAVY_TRUCK_COUNT := HEAVY_TRUCK_COUNT r;
     SMALL_TRUCK_COUNT := SMALL_TRUCK_COUNT r; SUV_COUNT := SUV_COUNT r;
     VAN_COUNT := VAN_COUNT r; BUS := BUS r; HEAVY_TRUCK := v;
     SMALL_TRUCK := SMALL_TRUCK r; SUV := SUV r; VAN := VAN r |}.

Definition set_SMALL_TRUCK (v : option Z) (r : crash) : crash :=
  {| COLLISION_TYPE := COLLISION_TYPE r; URBAN_RURAL := URBAN_RURAL r;
     INTERSECT_TYPE := INTERSECT_TYPE r; LOCATION_TYPE := LOCATION_TYPE r;
     RELATION_TO_ROAD := RELATION_TO_ROAD r; TCD_TYPE := TCD_TYPE r;
     TCD_FUNC_CD := TCD_FUNC_CD r; BUS_COUNT := BUS_COUNT r;
     HEAVY_TRUCK_COUNT := HEAVY_TRUCK_COUNT r;
     SMALL_TRUCK_COUNT := SMALL_TRUCK_COUNT r; SUV_COUNT := SUV_COUNT r;
     VAN_COUNT := VAN_COUNT r; BUS := BUS r; HEAVY_TRUCK := HEAVY_TRUCK r;
     SMALL_TRUCK := v; SUV := SUV r; VAN := VAN r |}.

Definition set_SUV (v : option Z) (r : crash) : crash :=
  {| COLLISION_TYPE := COLLISION_TYPE r; URBAN_RURAL := URBAN_RURAL r;
     INTERSECT_TYPE := INTERSECT_TYPE r; LOCATION_TYPE := LOCATION_TYPE r;
     RELATION_TO_ROAD := RELATION_TO_ROAD r; TCD_TYPE := TCD_TYPE r;
     TCD_FUNC_CD := TCD_FUNC_CD r; BUS_COUNT := BUS_COUNT r;
     HEAVY_TRUCK_COUNT := HEAVY_TRUCK_COUNT r;
     SMALL_TRUCK_COUNT := SMALL_TRUCK_COUNT r; SUV_COUNT := SUV_COUNT r;
     VAN_COUNT := VAN_COUNT r; BUS := BUS r; HEAVY_TRUCK := HEAVY_TRUCK r;
     SMALL_TRUCK := SMALL_TRUCK r; SUV := v; VAN := VAN r |}.

Definition set_VAN (v : option Z) (r : crash) : crash :=
  {| COLLISION_TYPE := COLLISION_TYPE r; URBAN_RURAL := URBAN_RURAL r;
     INTERSECT_TYPE := INTERSECT_TYPE r; LOCATION_TYPE := LOCATION_TYPE r;
     RELATION_TO_ROAD := RELATION_TO_ROAD r; TCD_TYPE := TCD_TYPE r;
     TCD_FUNC_CD := TCD_FUNC_CD r; BUS_COUNT := BUS_COUNT r;
     HEAVY_TRUCK_COUNT := HEAVY_TRUCK_COUNT r;
     SMALL_TRUCK_COUNT := SMALL_TRUCK_COUNT r; SUV_COUNT := SUV_COUNT r;
     VAN_COUNT := VAN_COUNT r; BUS := BUS r; HEAVY_TRUCK := HEAVY_TRUCK r;
     SMALL_TRUCK := SMALL_TRUCK r; SUV := SUV r; VAN := v |}.

Definition COLLISION_TYPE_codes : dict :=
  [(Num 0, Str "non_collision"); (Num 1, Str "rear_end");
   (Num 2, Str "head_on"); (Num 3, Str "backing"); (Num 4, Str "angle");
   (Num 5, Str "sideswipe_same_dir"); (Num 6, Str "sideswipe_opp_dir");
   (Num 7, Str "hit_fixed_obj"); (Num 8, Str "hit_ped");
   (Num 9, Str "other"); (Num 98, Str "other"); (Num 99, NaN)].

Definition URBAN_RURAL_codes : dict :=
  [(Num 1, Str "rural"); (Num 2, Str "urbanized"); (Num 3, Str "urban")].

Definition INTERSECT_TYPE_codes : dict :=
  [(Num 0, Str "midblock"); (Num 1, Str "four_way"); (Num 2, Str "T");
   (Num 3, Str "Y"); (Num 4, Str "circle"); (Num 5, Str "multi_leg");
   (Num 6, Str "ramp_end"); (Num 7, Str "ramp_begin");
   (Num 8, Str "crossover"); (Num 9, Str "rr_crossing");
   (Num 10, Str "other"); (Num 11, Str "L"); (Num 12, Str "circle");
   (Num 13, Str "circle"); (Num 99, NaN)].

Definition LOCATION_TYPE_codes : dict :=
  [(Num 0, Str "not_applicable"); (Num 99, NaN); (Num 1, Str "underpass");
   (Num 2, Str "ramp"); (Num 3, Str "bridge"); (Num 4, Str "tunnel");
   (Num 5, Str "toll_booth"); (Num 6, Str "cross_over_related");
   (Num 7, Str "driveway_parking_lot"); (Num 8, Str "ramp_bridge")].

Definition RELATION_TO_ROAD_codes : dict :=
  [(Num 1, Str "on_roadway"); (Num 2, Str "shoulder"); (Num 3, Str "median");
   (Num 4, Str "roadside"); (Num 5, Str "outside_trafficway");
   (Num 6, Str "parking_lane"); (Num 7, Str "int_ramp_hwy"); (Num 9, NaN)].

Definition TCD_TYPE_codes : dict :=
  [(Num 0, Str "not_applicable"); (Num 1, Str "flashing_traffic_signal");
   (Num 2, Str "traffic_signal"); (Num 3, Str "stop_sign");
   (Num 4, Str "yield_sign"); (Num 5, Str "active_RR_controls");
   (Num 6, Str "passive_RR_controls"); (Num 7, Str "officer_or_flagman");
   (Num 8, Str "other"); (Num 9, NaN)].

Definition TCD_FUNC_CD_codes : dict :=
  [(Num 0, Str "no_controls"); (Num 1, Str "not_functioning");
   (Num 2, Str "functioning_improperly"); (Num 3, Str "functioning_properly");
   (Num 4, Str "emergency_preemptive_signal"); (Num 9, NaN)].

Definition relabel (t : list crash) : list crash :=
  let t := assign set_COLLISION_TYPE
             (fun r => replace COLLISION_TYPE_codes (COLLISION_TYPE r)) t in
  let t := assign set_URBAN_RURAL
             (fun r => replace URBAN_RURAL_codes (URBAN_RURAL r)) t in
  let t := assign set_INTERSECT_TYPE
             (fun r => replace INTERSECT_TYPE_codes (INTERSECT_TYPE r)) t in
  let t := assign set_LOCATION_TYPE
             (fun r => replace LOCATION_TYPE_codes (LOCATION_TYPE r)) t in
  let t := assign set_RELATION_TO_ROAD
             (fun r => replace RELATION_TO_ROAD_codes (RELATION_TO_ROAD r)) t in
  let t := assign set_TCD_TYPE (fun r => replace TCD_TYPE_codes (TCD_TYPE r)) t in
  let t := assign set_TCD_FUNC_CD
             (fun r => replace TCD_FUNC_CD_codes (TCD_FUNC_CD r)) t in
  t.

(** [lambda x: 1 if x>0 else x]; a comparison with [np.nan] is false. *)
Definition presence (x : option Z) : option Z :=
  match x with
  | Some z => if z >? 0 then Some 1 else Some z
  | None => None
  end.

(** "Replace counts features for buses, trucks, SUVs with binary features
    indicating presence"; the count columns stay (their [drop] is commented
    out). *)
Definition presence_flags (t : list crash) : list crash :=
  let t := assign set_BUS (fun r => presence (BUS_COUNT r)) t in
  let t := assign set_HEAVY_TRUCK (fun r => presence (HEAVY_TRUCK_COUNT r)) t in
  let t := assign set_SMALL_TRUCK (fun r => presence (SMALL_TRUCK_COUNT r)) t in
  let t := assign set_SUV (fun r => presence (SUV_COUNT r)) t in
  let t := assign set_VAN (fun r => presence (VAN_COUNT r)) t in
  t.

Definition recode (t : list crash) : list crash := presence_flags (relabel t).

Definition counts (r : crash) : list (option Z) :=
  [BUS_COUNT r; HEAVY_TRUCK_COUNT r; SMALL_TRUCK_COUNT r; SUV_COUNT r;
   VAN_COUNT r].

Definition flags (r : crash) : list (option Z) :=
  [BUS r; HEAVY_TRUCK r; SMALL_TRUCK r; SUV r; VAN r].

Definition categories (r : crash) : list (dict * cell) :=
  [(COLLISION_TYPE_codes, COLLISION_TYPE r); (URBAN_RURAL_codes, URBAN_RURAL r);
   (INTERSECT_TYPE_codes, INTERSECT_TYPE r);
   (LOCATION_TYPE_codes, LOCATION_TYPE r);
   (RELATION_TO_ROAD_codes, RELATION_TO_ROAD r); (TCD_TYPE_codes, TCD_TYPE r);
   (TCD_FUNC_CD_codes, TCD_FUNC_CD r)].

End CrashesMore.

(** ** Further reference definitions *)

(** The dictionary columns of a bicycle record, each with its dictionary. *)
Definition bicycle_cells (b : Bicycles.bicycle) : list (dict * cell) :=
  [(Bicycles.indicator_codes, Bicycles.PC_HDLGHT_IND b);
   (Bicycles.indicator_codes, Bicycles.PC_HLMT_IND b);
   (Bicycles.indicator_codes, Bicycles.PC_REAR_RFLTR_IND b);
   (Bicycles.unknown_codes, Bicycles.UNIT_NUM b);
   (Bicycles.unknown_codes, Bicycles.IMPACT_POINT b);
   (Bicycles.GRADE_codes, Bicycles.GRADE b);
   (Bicycles.IMPACT_SIDE_codes, Bicycles.IMPACT_SIDE b);
   (Bicycles.RDWY_ALIGNMENT_codes, Bicycles.RDWY_ALIGNMENT b);
   (Bicycles.VEH_ROLE_codes, Bicycles.VEH_ROLE b);
   (Bicycles.VEH_TYPE_codes, Bicycles.VEH_TYPE b);
   (Bicycles.VEH_POSITION_codes, Bicycles.VEH_POSITION b);
   (Bicycles.VEH_MOVEMENT_codes, Bicycles.VEH_MOVEMENT b)].

(** The dictionary columns of a person record, each with its dictionary. *)
Definition person_cells (p : Persons.person) : list (dict * cell) :=
  [(Persons.flag_codes, Persons.SEX p);
   (Persons.flag_codes, Persons.TRANSPORTED p);
   (Persons.flag_codes, Persons.UNIT_NUM p);
   (Persons.INJ_SEVERITY_codes, Persons.INJ_SEVERITY p);
   (Persons.PERSON_TYPE_codes, Persons.PERSON_TYPE p);
   (Persons.RESTRAINT_HELMET_codes, Persons.RESTRAINT_HELMET p)].

(** No cell of the list equals a key of its dictionary. *)
Definition no_raw_code (cells : list (dict * cell)) : Prop :=
  Forall (fun dc => no_key (fst dc) (snd dc)) cells.

(** A time of the raw crashes table read as a clock time [hhmm] before
    2400, or the sentinel 9999. *)
Definition clock_time (z : Z) : bool :=
  ((0 <=? z) && (z <? 2400)) || (z =? 9999).

Definition clock_time_or_missing (x : option Z) : bool :=
  match x with Some z => clock_time z | None => true end.

(** The time columns of a raw crash record hold hours from 0 to 24, clock
    times and sentinels only. *)
Definition plausible_times {pd : Parser} (x : CrashesRaw.crash) : bool :=
  match CrashesRaw.HOUR_OF_DAY x with
  | Some h => ((0 <=? h) && (h <=? 24)) || (h =? 99)
  | None => true
  end
  && clock_time_or_missing (CrashesMid.number (to_numeric (CrashesRaw.TIME_OF_DAY x)))
  && clock_time_or_missing (CrashesRaw.DISPATCH_TM x)
  && clock_time_or_missing (CrashesRaw.ARRIVAL_TM x).

Module SampleMore.

(** A crash with a rear-end collision, an urban code the dictionary does not
    list, two buses and no van. *)
Definition crash : CrashesMore.crash :=
  {| CrashesMore.COLLISION_TYPE := Num 1; CrashesMore.URBAN_RURAL := Num 99;
     CrashesMore.INTERSECT_TYPE := Num 99; CrashesMore.LOCATION_TYPE := NaN;
     CrashesMore.RELATION_TO_ROAD := Num 9; CrashesMore.TCD_TYPE := Num 3;
     CrashesMore.TCD_FUNC_CD := Str "U";
     CrashesMore.BUS_COUNT := Some 2; CrashesMore.HEAVY_TRUCK_COUNT := Some 0;
     CrashesMore.SMALL_TRUCK_COUNT := None; CrashesMore.SUV_COUNT := Some 1;
     CrashesMore.VAN_COUNT := Some 0;
     CrashesMore.BUS := None; CrashesMore.HEAVY_TRUCK := None;
     CrashesMore.SMALL_TRUCK := None; CrashesMore.SUV := None;
     CrashesMore.VAN := None |}.

(** A merged cyclist whose crash was not found: a dry road is not known,
    and the bicycle columns are missing. *)
Definition cyclist : Cyclists.cyclist :=
  {| Cyclists.person
     := Cyclists.select_person
          (Sample.rider (Num 1) (Num 1) (Num 1) (Num 1) (Some 34));
     Cyclists.bike := Cyclists.nan_bike;
     Cyclists.crash := Cyclists.nan_crash |}.

End SampleMore.

Module SampleRoadway.



End SampleRoadway.


Module SampleCounty.


End SampleCounty.

(* ================================================================== *)
(** * Part II: properties                                              *)
(* ================================================================== *)

(** ** Cells, coercion and dictionaries *)

Lemma cell_eqb_eq (a b : cell) : cell_eqb a b = true -> a = b.
Proof.
  destruct a as [|x|s], b as [|y|t]; simpl; try discriminate.
  - intros H. apply Z.eqb_eq in H. now subst.
  - intros H. apply String.eqb_eq in H. now subst.
Qed.

Lemma cell_eqb_NaN_r (a : cell) : cell_eqb a NaN = false.
Proof. now destruct a. Qed.

Lemma key_eqb_Num (a : cell) (k : Z) : key_eqb a (Num k) = true <-> a = Num k.
Proof.
  destruct a as [|x|s]; simpl; split; intros H; try discriminate.
  - apply Z.eqb_eq in H. now subst.
  - injection H as ->. apply Z.eqb_refl.
Qed.

Lemma to_numeric_cases {pd : Parser} (c : cell) :
  to_numeric c = NaN \/ exists z, to_numeric c = Num z.
Proof.
  destruct c as [|z|s]; simpl; eauto.
  destruct (parse_number s); eauto.
Qed.

Lemma to_numeric_idem {pd : Parser}
  (c : cell) : to_numeric (to_numeric c) = to_numeric c.
Proof. destruct (to_numeric_cases c) as [-> | [z ->]]; reflexivity. Qed.

(** A coerced column holds no string, so [CrashesMid.number] loses nothing
    on [TIME_OF_DAY]. *)
Lemma coerced_time_of_day {pd : Parser} (c : cell) (s : string) :
  replace [(Num 9999, NaN)] (to_numeric c) <> Str s.
Proof.
  destruct (to_numeric_cases c) as [-> | [z ->]]; cbn [replace cell_eqb];
    [discriminate|].
  destruct (9999 =? z); discriminate.
Qed.

Lemma fillna_not_NaN (v c : cell) : v <> NaN -> fillna v c <> NaN.
Proof. destruct c; simpl; auto; discriminate. Qed.

Section Replace.
Variable d : dict.

Lemma replace_no_key (x : cell) : no_key d x -> replace d x = x.
Proof.
  unfold no_key. induction d as [|[k v] d' IH]; simpl; [reflexivity|].
  intros H. apply orb_false_iff in H as [-> H]. auto.
Qed.

Lemma replace_cases (x : cell) :
  (no_key d x /\ replace d x = x) \/
  (exists kv, In kv d /\ cell_eqb (fst kv) x = true /\ replace d x = snd kv).
Proof.
  unfold no_key. induction d as [|[k v] d' IH]; simpl; [now left|].
  destruct (cell_eqb k x) eqn:E; simpl.
  - right. exists (k, v). auto.
  - destruct IH as [IH | [kv [Hin [Hk Hr]]]]; [now left|].
    right. exists kv. auto.
Qed.

Lemma replace_NaN : replace d NaN = NaN.
Proof.
  induction d as [|[k v] d' IH]; simpl; [reflexivity|].
  now rewrite cell_eqb_NaN_r.
Qed.

Hypothesis closed : dict_closed d = true.

Lemma closed_value (kv : cell * cell) : In kv d -> no_key d (snd kv).
Proof.
  intros Hin. unfold dict_closed in closed.
  rewrite forallb_forall in closed. specialize (closed kv Hin).
  now apply negb_true_iff in closed.
Qed.

(** A replaced cell is not replaced again. *)
Lemma replace_idem (x : cell) : replace d (replace d x) = replace d x.
Proof.
  destruct (replace_cases x) as [[_ H] | [kv [Hin [_ H]]]]; rewrite H.
  - exact H.
  - apply replace_no_key, closed_value, Hin.
Qed.

Lemma fillna_replace_idem (v x : cell) :
  replace d v = v ->
  fillna v (replace d (fillna v (replace d x))) = fillna v (replace d x).
Proof.
  intros Hv. destruct (replace d x) eqn:E; simpl.
  - rewrite Hv. now destruct v.
  - rewrite <- E, replace_idem, E. reflexivity.
  - rewrite <- E, replace_idem, E. reflexivity.
Qed.
End Replace.

(** ** Column statements are row-wise *)

Lemma assign_In {A V : Type} (set : V -> A -> A) (f : A -> V) (t : list A)
  (r' : A) :
  In r' (assign set f t) <-> exists r, In r t /\ r' = set (f r) r.
Proof.
  unfold assign. rewrite in_map_iff. split; intros [r [H1 H2]]; exists r; auto.
Qed.

Lemma assign_column {A V W : Type} (set : V -> A -> A) (col : A -> W)
  (f : A -> V) (t : list A) :
  (forall v r, col (set v r) = col r) ->
  map col (assign set f t) = map col t.
Proof.
  intros H. unfold assign. rewrite map_map. apply map_ext. intros r. apply H.
Qed.

Section RowMap.
Context {A B C : Type}.

Lemma row_map_id : row_map (fun t : list A => t).
Proof. exists (fun r => r). intros t. symmetry. apply map_id. Qed.

Lemma row_map_map (g : A -> B) : row_map (map g).
Proof. exists g. reflexivity. Qed.

Lemma row_map_assign {V : Type} (set : V -> A -> A) (f : A -> V) :
  row_map (assign set f).
Proof. exists (fun r => set (f r) r). reflexivity. Qed.

Lemma row_map_compose (F : list A -> list B) (G : list B -> list C) :
  row_map F -> row_map G -> row_map (fun t => G (F t)).
Proof.
  intros [f Hf] [g Hg]. exists (fun r => g (f r)). intros t.
  rewrite Hf, Hg. apply map_map.
Qed.

(** A row-wise transformation is the [map] of what it does to one row. *)
Lemma row_map_rows (F : list A -> list B) (d : A -> B) (t : list A) :
  row_map F -> F t = map (fun r => on_row F (d r) r) t.
Proof.
  intros [f Hf]. rewrite Hf. apply map_ext. intros r.
  unfold on_row. now rewrite Hf.
Qed.
End RowMap.

(** Splits a chain of column statements into its statements. *)
Ltac row_map_chain :=
  lazymatch goal with
  | |- row_map (fun t => t) => apply row_map_id
  | |- row_map (fun t => assign ?s ?f (@?F t)) =>
      apply (row_map_compose F (assign s f));
      [row_map_chain | apply row_map_assign]
  | |- row_map (fun t => map ?g (@?F t)) =>
      apply (row_map_compose F (map g)); [row_map_chain | apply row_map_map]
  end.

Ltac bicycle_fields :=
  cbv beta iota zeta delta
    [on_row hd map assign
     Bicycles.recode Bicycles.relabel Bicycles.coerce
     Bicycles.set_UNIT_NUM Bicycles.set_VEH_TYPE Bicycles.set_GRADE
     Bicycles.set_IMPACT_POINT Bicycles.set_IMPACT_SIDE
     Bicycles.set_RDWY_ALIGNMENT Bicycles.set_VEH_MOVEMENT
     Bicycles.set_VEH_POSITION Bicycles.set_VEH_ROLE
     Bicycles.set_PC_HDLGHT_IND Bicycles.set_PC_HLMT_IND
     Bicycles.set_PC_REAR_RFLTR_IND
     Bicycles.CRN Bicycles.UNIT_NUM Bicycles.VEH_TYPE Bicycles.GRADE
     Bicycles.IMPACT_POINT Bicycles.IMPACT_SIDE Bicycles.RDWY_ALIGNMENT
     Bicycles.VEH_MOVEMENT Bicycles.VEH_POSITION Bicycles.VEH_ROLE
     Bicycles.PC_HDLGHT_IND Bicycles.PC_HLMT_IND Bicycles.PC_REAR_RFLTR_IND
     uncoerced].

Ltac by_closed_dict :=
  first
    [ reflexivity
    | apply replace_idem; reflexivity
    | apply fillna_replace_idem; reflexivity
    | rewrite replace_idem by reflexivity; reflexivity ].

(** ** The bicycles recode *)

Lemma bicycles_coerce_rows {pd : Parser} : row_map Bicycles.coerce.
Proof. unfold Bicycles.coerce. cbv beta zeta. row_map_chain. Qed.

Lemma bicycles_relabel_rows : row_map Bicycles.relabel.
Proof. unfold Bicycles.relabel. cbv beta zeta. row_map_chain. Qed.

Lemma bicycles_recode_rows {pd : Parser} : row_map Bicycles.recode.
Proof.
  apply (row_map_compose Bicycles.coerce Bicycles.relabel);
    [apply bicycles_coerce_rows | apply bicycles_relabel_rows].
Qed.

Lemma bicycles_recode_map {pd : Parser} (t : list Bicycles.bicycle) :
  Bicycles.recode t = map (fun b => on_row Bicycles.recode b b) t.
Proof. apply (row_map_rows Bicycles.recode (fun b => b)), bicycles_recode_rows. Qed.

Lemma bicycles_relabel_map (t : list Bicycles.bicycle) :
  Bicycles.relabel t = map (fun b => on_row Bicycles.relabel b b) t.
Proof.
  apply (row_map_rows Bicycles.relabel (fun b => b)), bicycles_relabel_rows.
Qed.

Lemma bicycles_impact_side {pd : Parser} (t : list Bicycles.bicycle) :
  map Bicycles.IMPACT_SIDE (Bicycles.recode t)
  = map (fun b => Bicycles.impact_side (Bicycles.IMPACT_POINT b)) t.
Proof.
  rewrite bicycles_recode_map, map_map. apply map_ext. intros b.
  destruct b. bicycle_fields. reflexivity.
Qed.

(** C8.  The impact-point recode is a fixed lookup from the clock positions
    to the eight relative sides: positions 11, 12 and 1 give "front", code 0
    gives "non_collision", 13 "top", 14 "undercarriage", and the sentinel 99
    gives a missing value; this is what the recoded table holds in
    [IMPACT_SIDE] for every record. *)
Theorem impact_side_lookup {pd : Parser} :
  Bicycles.impact_side (Num 11) = Str "front" /\
  Bicycles.impact_side (Num 12) = Str "front" /\
  Bicycles.impact_side (Num 1) = Str "front" /\
  Bicycles.impact_side (Num 0) = Str "non_collision" /\
  Bicycles.impact_side (Num 13) = Str "top" /\
  Bicycles.impact_side (Num 14) = Str "undercarriage" /\
  Bicycles.impact_side (Num 99) = NaN /\
  (forall z, 1 <= z <= 12 ->
     In (Bicycles.impact_side (Num z)) Bicycles.side_labels) /\
  (forall l, In l Bicycles.side_labels ->
     exists z, 1 <= z <= 12 /\ Bicycles.impact_side (Num z) = l) /\
  (forall t, map Bicycles.IMPACT_SIDE (Bicycles.recode t)
             = map (fun b => Bicycles.impact_side (Bicycles.IMPACT_POINT b)) t).
Proof.
  repeat (split; [reflexivity|]). split; [|split].
  - intros z Hz.
    assert (H : In z [1;2;3;4;5;6;7;8;9;10;11;12]) by (simpl; lia).
    simpl in H.
    repeat (destruct H as [<- | H]; [vm_compute; tauto|]). contradiction.
  - intros l Hl. simpl in Hl.
    repeat (destruct Hl as [<- | Hl];
            [first [ exists 12; split; [lia|reflexivity]
                   | exists 10; split; [lia|reflexivity]
                   | exists 2; split; [lia|reflexivity]
                   | exists 9; split; [lia|reflexivity]
                   | exists 3; split; [lia|reflexivity]
                   | exists 6; split; [lia|reflexivity]
                   | exists 8; split; [lia|reflexivity]
                   | exists 4; split; [lia|reflexivity] ]|]).
    contradiction.
  - apply bicycles_impact_side.
Qed.

Lemma impact_side_lookup_witness :
  1 <= 3 <= 12 /\ In (Bicycles.impact_side (Num 3)) Bicycles.side_labels.
Proof.
  split; [lia|].
  apply (proj1 (proj2 (proj2 (proj2 (proj2 (proj2 (proj2 (proj2
           impact_side_lookup)))))))).
  lia.
Defined.

Lemma key_eqb_refl (a : cell) : key_eqb a a = true.
Proof.
  destruct a; simpl; [reflexivity | apply Z.eqb_refl | apply String.eqb_refl].
Qed.

(** ** Tables compared row by row *)

Lemma Some_inj {A : Type} (a b : A) : Some a = Some b -> a = b.
Proof. intros H. now injection H. Qed.

Lemma Forall2_map_same {A B : Type} (R : A -> B -> Prop) (f : A -> B)
  (t : list A) :
  (forall x, In x t -> R x (f x)) -> Forall2 R t (map f t).
Proof.
  induction t as [|a t IH]; intros H; simpl; constructor.
  - apply H. now left.
  - apply IH. intros x Hx. apply H. now right.
Qed.

Lemma Forall2_map_both {A B C : Type} (R : B -> C -> Prop) (f : A -> B)
  (g : A -> C) (t : list A) :
  (forall x, In x t -> R (f x) (g x)) -> Forall2 R (map f t) (map g t).
Proof.
  induction t as [|a t IH]; intros H; simpl; constructor.
  - apply H. now left.
  - apply IH. intros x Hx. apply H. now right.
Qed.

Lemma Str_inj (a b : string) : Str a = Str b -> a = b.
Proof. intros H. now injection H. Qed.





Lemma Forall2_nth_error {A B : Type} (R : A -> B -> Prop) (l : list A)
  (m : list B) (i : nat) (a : A) (b : B) :
  Forall2 R l m -> nth_error l i = Some a -> nth_error m i = Some b -> R a b.
Proof.
  intros H. revert i. induction H as [|x y l m Hxy _ IH]; intros i Ha Hb.
  - destruct i; discriminate.
  - destruct i as [|i]; cbn [nth_error] in Ha, Hb.
    + apply Some_inj in Ha, Hb. subst. exact Hxy.
    + exact (IH i Ha Hb).
Qed.

(** ** Indexed frames and positional assignment *)

Lemma values_range_index {A : Type} (t : list A) (i : Z) :
  values (range_index i t) = t.
Proof.
  revert i. induction t as [|a t IH]; intros i; simpl; [reflexivity|].
  f_equal. apply IH.
Qed.

Section AtSet.
Context {A : Type}.
Variables (nan_row : A) (label : Z) (upd : A -> A).

(** On a frame with the labels of [read_csv], the assignment changes the row
    at the position of the label and no other. *)
Lemma at_set_range_nth (t : list A) (i : Z) (n : nat) (r : A) :
  nth_error t n = Some r ->
  nth_error (values (at_set nan_row label upd (range_index i t))) n
  = Some (if i + Z.of_nat n =? label then upd r else r).
Proof.
  revert i n. induction t as [|a t IH]; intros i n Hn.
  - destruct n; discriminate.
  - simpl. destruct (i =? label) eqn:E.
    + apply Z.eqb_eq in E. destruct n as [|n]; simpl in *.
      * injection Hn as ->. rewrite Z.add_0_r.
        rewrite (proj2 (Z.eqb_eq i label) E). reflexivity.
      * fold (values (range_index (i + 1) t)). rewrite values_range_index, Hn.
        destruct (i + Z.pos (Pos.of_succ_nat n) =? label) eqn:E'; [|reflexivity].
        apply Z.eqb_eq in E'. lia.
    + destruct n as [|n]; simpl in *.
      * injection Hn as ->. rewrite Z.add_0_r, E. reflexivity.
      * fold (values (at_set nan_row label upd (range_index (i + 1) t))).
        rewrite (IH (i + 1) n Hn).
        replace (i + 1 + Z.of_nat n) with (i + Z.pos (Pos.of_succ_nat n)) by lia.
        reflexivity.
Qed.

(** Whatever the labels, the rows of the frame are kept in place, each one
    possibly updated, and at most one new row is appended. *)
Lemma at_set_rows (f : frame A) :
  exists (rows : list A) (extra : list A),
    values (at_set nan_row label upd f) = (rows ++ extra)%list /\
    Forall2 (fun r r' => r' = r \/ r' = upd r) (values f) rows /\
    (extra = [] \/ extra = [upd nan_row]).
Proof.
  induction f as [|[l r] f IH]; simpl.
  - exists [], [upd nan_row]. auto.
  - destruct (l =? label).
    + exists (upd r :: values f), []. simpl. rewrite app_nil_r.
      repeat split; auto. constructor; auto.
      clear. induction (values f); constructor; auto.
    + destruct IH as (rows & extra & H1 & H2 & H3).
      exists (r :: rows), extra. simpl.
      fold (values (at_set nan_row label upd f)). rewrite H1.
      repeat split; auto.
Qed.

(** A projection that the update does not change sees the old rows followed
    by at most one missing row. *)
Lemma at_set_proj {B : Type} (proj : A -> B) (f : frame A) :
  (forall r, proj (upd r) = proj r) ->
  exists n, map proj (values (at_set nan_row label upd f))
            = map proj (values f ++ repeat nan_row n)%list.
Proof.
  intros Hp. destruct (at_set_rows f) as (rows & extra & H1 & H2 & H3).
  exists (List.length extra). rewrite H1, !map_app. f_equal.
  - clear H1 H3. induction H2 as [|r r' ? ? [-> | ->] _ IH]; simpl;
      rewrite ?Hp; congruence.
  - destruct H3 as [-> | ->]; simpl; rewrite ?Hp; reflexivity.
Qed.

Lemma at_set_In (f : frame A) (r' : A) :
  In r' (values (at_set nan_row label upd f)) ->
  (exists r, In r (values f) /\ (r' = r \/ r' = upd r)) \/ r' = upd nan_row.
Proof.
  destruct (at_set_rows f) as (rows & extra & H1 & H2 & H3).
  rewrite H1, in_app_iff. intros [H | H].
  - left. clear H1 H3. induction H2 as [|r r1 ? ? Hr _ IH]; [contradiction|].
    destruct H as [<- | H].
    + exists r. split; [now left | exact Hr].
    + destruct (IH H) as [r0 [Hin Hr0]]. exists r0. split; [now right | exact Hr0].
  - destruct H3 as [-> | ->]; [contradiction|].
    destruct H as [<- | []]. now right.
Qed.
End AtSet.

(** ** Left merge *)

Section MergeFacts.
Context {L R O : Type}.
Variable matches : L -> R -> bool.
Variable join : L -> option R -> O.

Lemma merge_row_In (l : L) (right : list R) (o : O) :
  In o (merge_row matches join l right) <->
  (exists r, In r right /\ matches l r = true /\ o = join l (Some r)) \/
  ((forall r, In r right -> matches l r = false) /\ o = join l None).
Proof.
  unfold merge_row. destruct (filter (matches l) right) as [|m ms] eqn:E.
  - split.
    + intros [<- | []]. right. split; [|reflexivity].
      intros r Hr. destruct (matches l r) eqn:Em; [|reflexivity].
      assert (H : In r (filter (matches l) right)) by (apply filter_In; auto).
      rewrite E in H. contradiction.
    + intros [[r [Hr [Hm _]]] | [_ ->]]; [|now left].
      assert (H : In r (filter (matches l) right)) by (apply filter_In; auto).
      rewrite E in H. contradiction.
  - rewrite <- E, in_map_iff. split.
    + intros [r [<- Hr]]. apply filter_In in Hr as [Hr Hm]. left. eauto.
    + intros [[r [Hr [Hm ->]]] | [Hno _]].
      * exists r. split; [reflexivity|]. apply filter_In. auto.
      * assert (H : In m (filter (matches l) right)) by (rewrite E; now left).
        apply filter_In in H as [Hin Hm]. rewrite (Hno m Hin) in Hm. discriminate.
Qed.

Lemma merge_left_In (left : list L) (right : list R) (o : O) :
  In o (merge_left matches join left right) <->
  exists l, In l left /\ In o (merge_row matches join l right).
Proof.
  unfold merge_left. rewrite in_flat_map. reflexivity.
Qed.

(** When no two right rows match the same left row, the merge keeps the left
    table row for row. *)
Lemma merge_left_unique (left : list L) (right : list R) :
  (forall l, In l left -> (List.length (filter (matches l) right) <= 1)%nat) ->
  merge_left matches join left right
  = map (fun l => join l (hd_error (filter (matches l) right))) left.
Proof.
  intros H. unfold merge_left. induction left as [|l left IH]; simpl; [reflexivity|].
  rewrite IH by (intros; apply H; now right). f_equal.
  specialize (H l (or_introl eq_refl)). unfold merge_row.
  destruct (filter (matches l) right) as [|m [|m' ms]]; simpl in *;
    [reflexivity | reflexivity | lia].
Qed.
End MergeFacts.

(** ** The cyclists table *)

Lemma key_eqb_eq (a b : cell) : key_eqb a b = true -> a = b.
Proof.
  destruct a as [|x|s], b as [|y|u]; try discriminate; try reflexivity;
    apply cell_eqb_eq.
Qed.

Lemma notnull_true (c : cell) : notnull c = true <-> c <> NaN.
Proof.
  destruct c; simpl; split; intros H; try discriminate; try reflexivity.
  now contradiction H.
Qed.

Lemma notebook_inv {pd : Parser} b p c r out :
  notebook b p c r = Some out ->
  exists k, Crashes.prepare c r = Some k /\
    crashes_csv out = k /\
    cyclists_csv out
    = map Cyclists.derive
        (Cyclists.fill_now
           (Cyclists.merge_crashes
              (Cyclists.isolate (Persons.recode p) (Bicycles.recode b)) k)).
Proof.
  unfold notebook. cbv zeta.
  destruct (Crashes.prepare c r) as [k|]; [|discriminate].
  intros H. apply Some_inj in H. subst out. exists k.
  split; [reflexivity|]. split; reflexivity.
Qed.

(** The only exception of a run is the one of the county-mode fill. *)
Lemma notebook_runs {pd : Parser} b p c r :
  notebook b p c r = None <-> Roadway.fill_speed_limit r = None.
Proof.
  unfold notebook, Crashes.prepare. cbv zeta.
  destruct (Roadway.fill_speed_limit r); split; intros H; try discriminate;
    reflexivity.
Qed.

(** Who survives the isolation of the cyclists. *)
Lemma isolate_In (persons : list Persons.person)
  (bicycles : list Bicycles.bicycle) (c : Cyclists.person_bike) :
  In c (Cyclists.isolate persons bicycles) <->
  exists p b, In p persons /\ In b bicycles /\
    Cyclists.same_unit (Cyclists.select_person p) b = true /\
    Bicycles.VEH_TYPE b <> NaN /\
    c = Cyclists.join_bike (Cyclists.select_person p) (Some b).
Proof.
  unfold Cyclists.isolate. rewrite filter_In, merge_left_In. split.
  - intros [[l [Hl Hc]] Hn]. apply in_map_iff in Hl as [p [<- Hp]].
    apply merge_row_In in Hc as [[b [Hb [Hm ->]]] | [_ ->]].
    + exists p, b. split; [exact Hp|]. split; [exact Hb|].
      split; [exact Hm|]. split; [|reflexivity].
      apply notnull_true. exact Hn.
    + discriminate.
  - intros (p & b & Hp & Hb & Hm & Hv & ->). split.
    + exists (Cyclists.select_person p). split; [now apply in_map|].
      apply merge_row_In. left. eauto.
    + now apply notnull_true.
Qed.

Lemma merge_crashes_In (cyclists : list Cyclists.person_bike)
  (crashes : list Crashes.crash_sl) (c : Cyclists.cyclist) :
  In c (Cyclists.merge_crashes cyclists crashes) ->
  exists c0, In c0 cyclists /\
    Cyclists.person c = Cyclists.pb_person c0 /\
    Cyclists.bike c = Cyclists.pb_bike c0 /\
    ((exists k, In k crashes /\ Cyclists.same_crash c0 k = true /\
                Cyclists.crash c = Cyclists.select_crash k) \/
     ((forall k, In k crashes -> Cyclists.same_crash c0 k = false) /\
      Cyclists.crash c = Cyclists.nan_crash)).
Proof.
  unfold Cyclists.merge_crashes. rewrite merge_left_In.
  intros [c0 [H0 Hc]]. exists c0. split; [exact H0|].
  apply merge_row_In in Hc as [[k [Hk [Hm ->]]] | [Hno ->]]; simpl; eauto 10.
Qed.

Lemma fill_now_unfilled (t : list Cyclists.cyclist) :
  map unfilled (Cyclists.fill_now t) = map unfilled t.
Proof.
  unfold Cyclists.fill_now.
  repeat (rewrite assign_column; [|intros v [? ? ?]; reflexivity]).
  reflexivity.
Qed.

Lemma fill_now_In (t : list Cyclists.cyclist) (c : Cyclists.cyclist) :
  In c (Cyclists.fill_now t) -> exists c0, In c0 t /\ unfilled c = unfilled c0.
Proof.
  intros H. apply (in_map unfilled) in H. rewrite fill_now_unfilled in H.
  apply in_map_iff in H as [c0 [H1 H2]]. eauto.
Qed.

Ltac person_fields :=
  cbv beta iota zeta delta
    [on_row hd map assign Persons.relabel
     Persons.set_UNIT_NUM Persons.set_INJ_SEVERITY Persons.set_PERSON_TYPE
     Persons.set_AGE Persons.set_SEX Persons.set_TRANSPORTED
     Persons.set_RESTRAINT_HELMET
     Persons.CRN Persons.UNIT_NUM Persons.PERSON_NUM Persons.INJ_SEVERITY
     Persons.PERSON_TYPE Persons.AGE Persons.SEX Persons.TRANSPORTED
     Persons.RESTRAINT_HELMET].

Lemma persons_relabel_rows {pd : Parser} : row_map Persons.relabel.
Proof. unfold Persons.relabel. cbv beta zeta. row_map_chain. Qed.

(** What the persons cell makes of the table: every record is recoded on
    its own, the repair may set its unit number to 2, and one record that
    is missing throughout may be appended. *)
Lemma persons_recode_In {pd : Parser}
  (t : list Persons.person) (p : Persons.person) :
  In p (Persons.recode t) ->
  (exists p0, In p0 t /\
     Persons.CRN p = Persons.CRN p0 /\
     Persons.PERSON_NUM p = Persons.PERSON_NUM p0 /\
     Persons.INJ_SEVERITY p
     = replace Persons.INJ_SEVERITY_codes (to_numeric (Persons.INJ_SEVERITY p0)) /\
     Persons.AGE p = replace_num [(99, None)] (Persons.AGE p0)) \/
  p = Persons.set_UNIT_NUM (Num 2) Persons.nan_person.
Proof.
  unfold Persons.recode, Persons.repair. intros H.
  apply at_set_In in H as [[p1 [H1 Hp]] | ->]; [left | now right].
  rewrite values_range_index in H1.
  rewrite (row_map_rows Persons.relabel (fun x => x)) in H1 by apply persons_relabel_rows.
  apply in_map_iff in H1 as [p0 [<- H0]]. exists p0. split; [exact H0|].
  destruct p0. destruct Hp as [-> | ->]; person_fields; auto.
Qed.

(** The resolution of a cyclist's row: the person it comes from, the
    bicycle it matched, and the crash columns it received. *)
Lemma cyclists_csv_In {pd : Parser} b p c r out (f : Cyclists.cyclist_out) :
  notebook b p c r = Some out -> In f (cyclists_csv out) ->
  f = Cyclists.derive (Cyclists.row f) /\
  exists c0 pr bk,
    unfilled (Cyclists.row f) = unfilled c0 /\
    In c0 (Cyclists.merge_crashes
             (Cyclists.isolate (Persons.recode p) (Bicycles.recode b))
             (crashes_csv out)) /\
    In pr (Persons.recode p) /\ In bk (Bicycles.recode b) /\
    Cyclists.same_unit (Cyclists.select_person pr) bk = true /\
    Bicycles.VEH_TYPE bk <> NaN /\
    Cyclists.person c0 = Cyclists.select_person pr /\
    Cyclists.bike c0 = Cyclists.bike_of bk.
Proof.
  intros Hrun Hf. destruct (notebook_inv _ _ _ _ _ Hrun) as (k & _ & Hk & Hc).
  rewrite Hc in Hf. apply in_map_iff in Hf as [c1 [<- H1]].
  split; [reflexivity|]. cbn [Cyclists.derive Cyclists.row].
  apply fill_now_In in H1 as [c0 [H0 Hu]].
  destruct (merge_crashes_In _ _ _ H0) as (pb & Hpb & Hp & Hb & _).
  apply isolate_In in Hpb as (pr & bk & Hpr & Hbk & Hm & Hv & ->).
  exists c0, pr, bk. rewrite Hk.
  split; [exact Hu|]. split; [exact H0|]. split; [exact Hpr|].
  split; [exact Hbk|]. split; [exact Hm|]. split; [exact Hv|].
  split; [exact Hp | exact Hb].
Qed.

(** The fills of the last cell work on each row on its own. *)
Lemma row_map_flat {A B : Type} (F : list A -> list B) (t : list A) :
  row_map F -> F t = flat_map (fun x => F [x]) t.
Proof.
  intros [f Hf]. rewrite Hf.
  induction t as [|x t IH]; [reflexivity|].
  cbn [map flat_map]. rewrite IH, (Hf [x]). reflexivity.
Qed.

Lemma fill_now_rows : row_map Cyclists.fill_now.
Proof. unfold Cyclists.fill_now. cbv beta zeta. row_map_chain. Qed.

Lemma fill_now_rowwise (t : list Cyclists.cyclist) :
  Cyclists.fill_now t = flat_map (fun x => Cyclists.fill_now [x]) t.
Proof. apply row_map_flat, fill_now_rows. Qed.

Lemma fill_now_map (t : list Cyclists.cyclist) :
  Cyclists.fill_now t = map (fun c => on_row Cyclists.fill_now c c) t.
Proof. apply (row_map_rows _ (fun c => c)), fill_now_rows. Qed.

(** The vehicle type of a recoded bicycles record: it is the recode of the
    coerced raw type of a record of the table, and a pedal-cycle label
    exactly when that raw type is the code 20 or 21. *)
Lemma recode_vehicle_type {pd : Parser} (t : list Bicycles.bicycle)
  (bk : Bicycles.bicycle) :
  In bk (Bicycles.recode t) ->
  exists b0, In b0 t /\
    Bicycles.CRN bk = Bicycles.CRN b0 /\
    Bicycles.VEH_TYPE bk
    = replace Bicycles.VEH_TYPE_codes (to_numeric (Bicycles.VEH_TYPE b0)) /\
    (In (Bicycles.VEH_TYPE bk) pedal_cycle_labels <-> pedal_cycle b0).
Proof.
  intros Hb. rewrite bicycles_recode_map in Hb.
  apply in_map_iff in Hb as [b0 [<- H0]]. exists b0. split; [exact H0|].
  unfold pedal_cycle, pedal_cycle_labels. destruct b0. bicycle_fields.
  split; [reflexivity|]. split; [reflexivity|].
  destruct (to_numeric_cases VEH_TYPE) as [-> | [z ->]];
    unfold Bicycles.VEH_TYPE_codes; cbn [replace cell_eqb In].
  - split; [intros [H | [H | []]]; discriminate | intros [H | H]; discriminate].
  - destruct (Z.eqb_spec 20 z) as [<- | H20]; [split; auto|].
    destruct (Z.eqb_spec 21 z) as [<- | H21]; [split; auto|].
    split; [intros [H | [H | []]]; discriminate|].
    intros [H | H]; apply (f_equal CrashesMid.number) in H;
      cbn [CrashesMid.number] in H; apply Some_inj in H; congruence.
Qed.

Lemma merge_left_kept {L R O : Type} (matches : L -> R -> bool)
  (join : L -> option R -> O) (left : list L) (right : list R) (l : L) :
  In l left ->
  exists m, In (join l m) (merge_left matches join left right).
Proof.
  intros Hl. unfold merge_left, merge_row.
  destruct (filter (matches l) right) as [|x xs] eqn:E.
  - exists None. apply in_flat_map. exists l. split; [exact Hl|].
    rewrite E. now left.
  - exists (Some x). apply in_flat_map. exists l. split; [exact Hl|].
    rewrite E. now left.
Qed.

Lemma fill_now_kept (t : list Cyclists.cyclist) (c : Cyclists.cyclist) :
  In c t -> exists c', In c' (Cyclists.fill_now t) /\ unfilled c' = unfilled c.
Proof.
  intros H. apply (in_map unfilled) in H. rewrite <- fill_now_unfilled in H.
  apply in_map_iff in H as [c' [H1 H2]]. exists c'. now split.
Qed.

(** C7, as the notebook has it.  Every row of the exported cyclists table
    comes from a person record whose (CRN, UNIT_NUM) equals that of a
    record of the bicycles table whose vehicle type is not missing, and
    every such person is exported: the rows are selected by
    [VEH_TYPE.notnull()] alone.  The type of the matched record is a
    pedal-cycle label exactly when its raw type is the code 20 or 21; a
    record of another type that is in the bicycles table is matched like
    any other. *)
Theorem cyclists_ride_pedal_cycles {pd : Parser} b p c r out :
  notebook b p c r = Some out ->
  (forall f, In f (cyclists_csv out) ->
   exists pr bk b0,
     In pr (Persons.recode p) /\ In bk (Bicycles.recode b) /\ In b0 b /\
     Cyclists.CRN (Cyclists.person (Cyclists.row f)) = Persons.CRN pr /\
     Cyclists.UNIT_NUM (Cyclists.person (Cyclists.row f)) = Persons.UNIT_NUM pr /\
     Persons.CRN pr = Num (Bicycles.CRN b0) /\
     Bicycles.CRN bk = Bicycles.CRN b0 /\
     Persons.UNIT_NUM pr = Bicycles.UNIT_NUM bk /\
     Bicycles.VEH_TYPE bk
     = replace Bicycles.VEH_TYPE_codes (to_numeric (Bicycles.VEH_TYPE b0)) /\
     Bicycles.VEH_TYPE bk <> NaN /\
     (In (Bicycles.VEH_TYPE bk) pedal_cycle_labels <-> pedal_cycle b0)) /\
  (forall pr bk,
     In pr (Persons.recode p) -> In bk (Bicycles.recode b) ->
     Persons.CRN pr = Num (Bicycles.CRN bk) ->
     Persons.UNIT_NUM pr = Bicycles.UNIT_NUM bk ->
     Bicycles.VEH_TYPE bk <> NaN ->
     exists f, In f (cyclists_csv out) /\
       Cyclists.CRN (Cyclists.person (Cyclists.row f)) = Persons.CRN pr /\
       Cyclists.UNIT_NUM (Cyclists.person (Cyclists.row f))
       = Persons.UNIT_NUM pr /\
       Cyclists.INJ_SEVERITY (Cyclists.person (Cyclists.row f))
       = Persons.INJ_SEVERITY pr /\
       Cyclists.AGE (Cyclists.person (Cyclists.row f)) = Persons.AGE pr).
Proof.
  intros Hrun. split.
  - intros f Hf.
    destruct (cyclists_csv_In _ _ _ _ _ _ Hrun Hf)
      as (_ & c0 & pr & bk & Hu & _ & Hpr & Hbk & Hm & Hv & Hp & _).
    destruct (recode_vehicle_type b bk Hbk) as (b0 & H0 & Hc & Ht & Hl).
    exists pr, bk, b0. unfold unfilled in Hu. rewrite Hp in Hu.
    injection Hu as H1 H2 _ _ _ _ _.
    unfold Cyclists.same_unit in Hm. apply andb_true_iff in Hm as [Hm1 Hm2].
    apply key_eqb_eq in Hm1, Hm2.
    cbn [Cyclists.select_person Cyclists.CRN Cyclists.UNIT_NUM] in *.
    split; [exact Hpr|]. split; [exact Hbk|]. split; [exact H0|].
    split; [exact H1|]. split; [exact H2|].
    split; [rewrite Hm1, Hc; reflexivity|]. split; [exact Hc|].
    split; [exact Hm2|]. split; [exact Ht|]. split; [exact Hv | exact Hl].
  - intros pr bk Hpr Hbk Hc Hn Hv.
    destruct (notebook_inv _ _ _ _ _ Hrun) as (k & _ & Hk & Hcsv).
    assert (Hiso : In (Cyclists.join_bike (Cyclists.select_person pr) (Some bk))
                     (Cyclists.isolate (Persons.recode p) (Bicycles.recode b))).
    { apply isolate_In. exists pr, bk. split; [exact Hpr|]. split; [exact Hbk|].
      split; [|split; [exact Hv | reflexivity]].
      unfold Cyclists.same_unit.
      cbn [Cyclists.select_person Cyclists.CRN Cyclists.UNIT_NUM].
      rewrite Hc, Hn, !key_eqb_refl. reflexivity. }
    destruct (merge_left_kept Cyclists.same_crash Cyclists.join_crash _
                (crashes_csv out) _ Hiso) as [m Hm].
    fold (Cyclists.merge_crashes
            (Cyclists.isolate (Persons.recode p) (Bicycles.recode b))
            (crashes_csv out)) in Hm.
    destruct (fill_now_kept _ _ Hm) as (c' & Hc' & Hu).
    exists (Cyclists.derive c'). split.
    + rewrite Hcsv. rewrite Hk in Hc'. apply in_map. exact Hc'.
    + cbn [Cyclists.derive Cyclists.row]. unfold unfilled in Hu.
      injection Hu as H1 H2 H3 H4 _ _ _.
      cbn [Cyclists.join_crash Cyclists.join_bike Cyclists.person
           Cyclists.pb_person Cyclists.select_person Cyclists.CRN
           Cyclists.UNIT_NUM Cyclists.INJ_SEVERITY Cyclists.AGE] in *.
      split; [exact H1|]. split; [exact H2|]. split; [exact H3 | exact H4].
Qed.

Lemma cyclists_ride_pedal_cycles_witness :
  exists out f,
    notebook Sample.bicycles Sample.persons Sample.crashes Sample.roadway
    = Some out /\
    In f (cyclists_csv out) /\
    exists pr bk b0,
      In pr (Persons.recode Sample.persons) /\
      In bk (Bicycles.recode Sample.bicycles) /\ In b0 Sample.bicycles /\
      Cyclists.CRN (Cyclists.person (Cyclists.row f)) = Persons.CRN pr /\
      Cyclists.UNIT_NUM (Cyclists.person (Cyclists.row f)) = Persons.UNIT_NUM pr /\
      Persons.CRN pr = Num (Bicycles.CRN b0) /\
      Bicycles.CRN bk = Bicycles.CRN b0 /\
      Persons.UNIT_NUM pr = Bicycles.UNIT_NUM bk /\
      Bicycles.VEH_TYPE bk
      = replace Bicycles.VEH_TYPE_codes (to_numeric (Bicycles.VEH_TYPE b0)) /\
      Bicycles.VEH_TYPE bk <> NaN /\
      (In (Bicycles.VEH_TYPE bk) pedal_cycle_labels <-> pedal_cycle b0).
Proof.
  eexists. eexists. split; [vm_compute; reflexivity|].
  split; [left; reflexivity|].
  refine (proj1 (cyclists_ride_pedal_cycles Sample.bicycles Sample.persons
                   Sample.crashes Sample.roadway _ _) _ _);
    [vm_compute; reflexivity | left; reflexivity].
Defined.

(** The claim as worded fails: the rows are not selected by the category of
    the vehicle.  With a bicycles table whose only record is a vehicle of
    type 5, the person of that unit is exported as a cyclist, although no
    record of the table has a pedal-cycle type. *)
Lemma other_vehicle_is_exported :
  exists out f,
    notebook [Sample.bike 1 (Num 1) (Num 5)] Sample.persons Sample.crashes
      Sample.roadway = Some out /\
    In f (cyclists_csv out) /\
    Cyclists.CRN (Cyclists.person (Cyclists.row f)) = Num 1 /\
    Forall (fun bk => Bicycles.VEH_TYPE bk = Num 5 /\
                      ~ In (Bicycles.VEH_TYPE bk) pedal_cycle_labels)
      (Bicycles.recode [Sample.bike 1 (Num 1) (Num 5)]).
Proof.
  eexists. eexists. split; [vm_compute; reflexivity|].
  split; [left; reflexivity|]. split; [reflexivity|].
  vm_compute. constructor; [|constructor]. split; [reflexivity|].
  intros [H | [H | []]]; discriminate.
Qed.

Lemma serious_or_fatality_value (x : cell) :
  (Cyclists.serious_or_fatality x = 1 <->
   x = Str "killed" \/ x = Str "susp_serious_injury") /\
  (Cyclists.serious_or_fatality x = 0 <->
   ~ (x = Str "killed" \/ x = Str "susp_serious_injury")).
Proof.
  unfold Cyclists.serious_or_fatality. simpl.
  destruct (cell_eqb x (Str "killed")) eqn:E1;
    [apply cell_eqb_eq in E1; subst; simpl; split; split; intros; auto;
     try discriminate; tauto|].
  destruct (cell_eqb x (Str "susp_serious_injury")) eqn:E2;
    [apply cell_eqb_eq in E2; subst; simpl; split; split; intros; auto;
     try discriminate; tauto|].
  simpl. split; split; intros H; try discriminate; auto.
  - destruct H as [-> | ->]; simpl in *; discriminate.
  - intros [-> | ->]; simpl in *; discriminate.
Qed.

(** C1.  In every row of the exported cyclists table,
    [SERIOUS_OR_FATALITY] is 1 exactly when the row's injury-severity label
    is "killed" or "susp_serious_injury", and 0 for every other value, a
    missing label included.  The label is the recoded severity of the raw
    person record the row comes from, so raw code 1 gives 1, raw code 4
    ("possible_injury") gives 0, and the raw tokens for unknown give 0. *)
Theorem serious_or_fatality_flag {pd : Parser} b p c r out :
  notebook b p c r = Some out ->
  forall f, In f (cyclists_csv out) ->
  let label := Cyclists.INJ_SEVERITY (Cyclists.person (Cyclists.row f)) in
  (Cyclists.SERIOUS_OR_FATALITY f = 1 <->
   label = Str "killed" \/ label = Str "susp_serious_injury") /\
  (Cyclists.SERIOUS_OR_FATALITY f = 0 <->
   ~ (label = Str "killed" \/ label = Str "susp_serious_injury")) /\
  (label = NaN -> Cyclists.SERIOUS_OR_FATALITY f = 0) /\
  (exists p0, In p0 p /\
     label = replace Persons.INJ_SEVERITY_codes
               (to_numeric (Persons.INJ_SEVERITY p0))).
Proof.
  intros Hrun f Hf label.
  destruct (cyclists_csv_In _ _ _ _ _ _ Hrun Hf)
    as (Hd & c0 & pr & bk & Hu & _ & Hpr & Hbk & Hm & Hv & Hp & _).
  assert (Hs : Cyclists.SERIOUS_OR_FATALITY f = Cyclists.serious_or_fatality label)
    by (rewrite Hd; reflexivity).
  rewrite Hs. destruct (serious_or_fatality_value label) as [H1 H0].
  split; [exact H1|]. split; [exact H0|]. split.
  - intros E. apply H0. rewrite E. intros [H | H]; discriminate.
  - unfold unfilled in Hu. rewrite Hp in Hu. injection Hu as Hcrn _ Hinj _ _ _ _.
    cbn [Cyclists.select_person Cyclists.CRN Cyclists.INJ_SEVERITY] in Hcrn, Hinj.
    destruct (persons_recode_In _ _ Hpr) as [(p0 & H0' & _ & _ & Hi & _) | ->].
    + exists p0. split; [exact H0'|]. subst label. rewrite Hinj. exact Hi.
    + unfold Cyclists.same_unit in Hm. discriminate Hm.
Qed.

Lemma serious_or_fatality_flag_witness :
  exists out f,
    notebook Sample.bicycles Sample.persons Sample.crashes Sample.roadway
    = Some out /\
    In f (cyclists_csv out) /\
    let label := Cyclists.INJ_SEVERITY (Cyclists.person (Cyclists.row f)) in
    (Cyclists.SERIOUS_OR_FATALITY f = 1 <->
     label = Str "killed" \/ label = Str "susp_serious_injury") /\
    (Cyclists.SERIOUS_OR_FATALITY f = 0 <->
     ~ (label = Str "killed" \/ label = Str "susp_serious_injury")) /\
    (label = NaN -> Cyclists.SERIOUS_OR_FATALITY f = 0) /\
    (exists p0, In p0 Sample.persons /\
       label = replace Persons.INJ_SEVERITY_codes
                 (to_numeric (Persons.INJ_SEVERITY p0))).
Proof.
  eexists. eexists. split; [vm_compute; reflexivity|].
  split; [right; left; reflexivity|].
  eapply (serious_or_fatality_flag Sample.bicycles Sample.persons
            Sample.crashes Sample.roadway);
    [vm_compute; reflexivity | right; left; reflexivity].
Defined.

(** ** Age bins *)

Lemma cut_in_range (v : Z) :
  0 < v <= 100 ->
  Cyclists.cut Cyclists.bin_edges (Some v)
  = Some (10 * ((v - 1) / 10), 10 * ((v - 1) / 10) + 10).
Proof.
  intros Hv. remember (10 * ((v - 1) / 10)) as lo eqn:Hlo.
  let e := eval vm_compute in Cyclists.bin_edges in
    change Cyclists.bin_edges with e.
  unfold Cyclists.cut, Cyclists.searchsorted. cbn [filter].
  repeat match goal with
         | |- context [ ?a <? v ] => destruct (Z.ltb_spec a v); try lia
         end;
    cbn; f_equal; f_equal; Z.to_euclidean_division_equations; lia.
Qed.

Lemma cut_out_of_range (v : Z) :
  v <= 0 \/ 100 < v -> Cyclists.cut Cyclists.bin_edges (Some v) = None.
Proof.
  intros Hv.
  let e := eval vm_compute in Cyclists.bin_edges in
    change Cyclists.bin_edges with e.
  unfold Cyclists.cut, Cyclists.searchsorted. cbn [filter].
  repeat match goal with
         | |- context [ ?a <? v ] => destruct (Z.ltb_spec a v); try lia
         end;
    reflexivity.
Qed.

(** C5, as the notebook has it.  Ages are put into the ten right-closed
    decade intervals (0, 10], ..., (90, 100]; an age of 34 gives the text
    "(30, 40]".  A missing age, or an age outside (0, 100], raises no error
    and gives the text "nan": the conversion to strings turns the missing
    category into a string, so the bin is not a null value.  Every row of
    the exported cyclists table holds the bin of its own age. *)
Theorem age_bins_decades {pd : Parser} :
  (forall v, 0 < v <= 100 ->
     Cyclists.age_bins (Some v)
     = Str (Cyclists.astype_str
              (Some (10 * ((v - 1) / 10), 10 * ((v - 1) / 10) + 10)))) /\
  Cyclists.age_bins (Some 34) = Str "(30, 40]" /\
  (forall v, v <= 0 \/ 100 < v -> Cyclists.age_bins (Some v) = Str "nan") /\
  Cyclists.age_bins None = Str "nan" /\
  (forall b p c r out, notebook b p c r = Some out ->
     forall f, In f (cyclists_csv out) ->
       Cyclists.AGE_BINS f
       = Cyclists.age_bins (Cyclists.AGE (Cyclists.person (Cyclists.row f)))).
Proof.
  split; [|split; [|split; [|split]]].
  - intros v Hv. unfold Cyclists.age_bins. now rewrite cut_in_range.
  - reflexivity.
  - intros v Hv. unfold Cyclists.age_bins. now rewrite cut_out_of_range.
  - reflexivity.
  - intros b p c r out Hrun f Hf.
    destruct (cyclists_csv_In _ _ _ _ _ _ Hrun Hf) as [Hd _].
    rewrite Hd at 1. reflexivity.
Qed.

Lemma age_bins_decades_witness :
  0 < 100 <= 100 /\ Cyclists.age_bins (Some 100) = Str "(90, 100]" /\
  (0 <= 0 \/ 100 < 0) /\ Cyclists.age_bins (Some 0) = Str "nan".
Proof.
  split; [lia|]. split; [|split; [left; lia|]].
  - apply (proj1 age_bins_decades 100). lia.
  - apply (proj1 (proj2 (proj2 age_bins_decades)) 0). left. lia.
Defined.

(** The claim as worded fails on a missing age: in the run on the sample
    tables the second cyclist has no age, and the bin is the string "nan",
    which is not a missing value.  Nor is the range [0, 100): age 0 gets no
    interval and age 100 gets one. *)
Lemma age_bin_of_missing_age :
  Cyclists.age_bins (Some 0) = Str "nan" /\
  Cyclists.age_bins (Some 100) = Str "(90, 100]" /\
  option_map
    (fun out => map (fun f => (Cyclists.AGE (Cyclists.person (Cyclists.row f)),
                               Cyclists.AGE_BINS f,
                               isna (Cyclists.AGE_BINS f)))
                  (cyclists_csv out))
    (notebook Sample.bicycles Sample.persons Sample.crashes Sample.roadway)
  = Some [(Some 34, Str "(30, 40]", false); (None, Str "nan", false)].
Proof. vm_compute. repeat split; reflexivity. Qed.

(** ** A second pass of the recoding cells *)

(** A coerced and recoded cell holds a number that is no code, a label of
    the dictionary, or nothing.  On a second pass a number or a missing
    entry stays; a label that is not read as a number is coerced to a
    missing entry. *)
Lemma coerced_second_pass {pd : Parser} (d : dict) (x : cell) :
  dict_closed d = true ->
  let y := replace d (to_numeric x) in
  (forall s, y = Str s -> In (Str s) (map snd d)) /\
  (forall s, y = Str s -> parse_number s = None ->
             replace d (to_numeric y) = NaN) /\
  ((forall s, y <> Str s) -> replace d (to_numeric y) = y).
Proof.
  intros Hd. cbv zeta.
  assert (N : forall s, parse_number s = None ->
                        replace d (to_numeric (Str s)) = NaN).
  { intros s E. cbn [to_numeric]. rewrite E. apply replace_NaN. }
  destruct (replace_cases d (to_numeric x)) as [[Hn E] | [kv [Hin [_ E]]]];
    rewrite E.
  - destruct (to_numeric_cases x) as [Ex | [z Ex]]; rewrite Ex in *.
    + split; [discriminate|]. split; [discriminate|]. intros _.
      apply replace_NaN.
    + split; [discriminate|]. split; [discriminate|]. intros _.
      cbn [to_numeric]. now apply replace_no_key.
  - pose proof (closed_value d Hd kv Hin) as Hv.
    split; [intros s Es; rewrite <- Es; now apply in_map|].
    split; [intros s -> Ep; now apply N|].
    intros Hs. destruct (snd kv) as [|z|s].
    + apply replace_NaN.
    + cbn [to_numeric]. now apply replace_no_key.
    + now contradiction (Hs s).
Qed.

Lemma replace_sentinel_idem (s : Z) (x : option Z) :
  replace_num [(s, None)] (replace_num [(s, None)] x) = replace_num [(s, None)] x.
Proof.
  destruct x as [z|]; [|reflexivity]. cbn [replace_num].
  destruct (s =? z) eqn:E; [reflexivity|]. cbn [replace_num]. now rewrite E.
Qed.

Lemma persons_relabel_rowwise {pd : Parser} (t : list Persons.person) :
  Persons.relabel t = map (fun p => on_row Persons.relabel p p) t.
Proof. apply (row_map_rows _ (fun p => p)), persons_relabel_rows. Qed.

(** C9, as the notebook has it, for the bicycles cell and the recoding
    statements of the persons cell.  The dictionary replacements and the
    constant fills of the bicycles cell are idempotent.  A second pass of a
    whole cell, which starts with the numeric coercion, leaves alone every
    column that is not coerced, and every coerced cell that holds a number
    or is missing.  A text in a coerced column of a recoded table is a label
    of the column's dictionary (or the fill of [VEH_ROLE]); when it is not
    read as a number, the second pass makes it missing, and [VEH_ROLE]
    becomes "non_collision" through its fill. *)
Theorem recode_second_pass {pd : Parser} :
  (forall t, Bicycles.relabel (Bicycles.relabel t) = Bicycles.relabel t) /\
  (forall t,
     Forall2
       (fun b b' =>
          uncoerced b' = uncoerced b /\
          (forall col d,
             In (col, d)
               [(Bicycles.RDWY_ALIGNMENT, Bicycles.RDWY_ALIGNMENT_codes);
                (Bicycles.VEH_MOVEMENT, Bicycles.VEH_MOVEMENT_codes);
                (Bicycles.VEH_TYPE, Bicycles.VEH_TYPE_codes);
                (Bicycles.VEH_POSITION, Bicycles.VEH_POSITION_codes)] ->
             (forall s, col b = Str s -> In (Str s) (map snd d)) /\
             (forall s, col b = Str s -> parse_number s = None ->
                        col b' = NaN) /\
             ((forall s, col b <> Str s) -> col b' = col b)) /\
          (forall s, Bicycles.VEH_ROLE b = Str s ->
                     In (Str s) (map snd Bicycles.VEH_ROLE_codes)) /\
          (forall s, Bicycles.VEH_ROLE b = Str s -> parse_number s = None ->
                     Bicycles.VEH_ROLE b' = Str "non_collision") /\
          ((forall s, Bicycles.VEH_ROLE b <> Str s) ->
           Bicycles.VEH_ROLE b' = Bicycles.VEH_ROLE b))
       (Bicycles.recode t) (Bicycles.recode (Bicycles.recode t))) /\
  (forall t,
     Forall2
       (fun p p' =>
          (Persons.CRN p', Persons.UNIT_NUM p', Persons.PERSON_NUM p',
           Persons.PERSON_TYPE p', Persons.AGE p', Persons.SEX p',
           Persons.TRANSPORTED p', Persons.RESTRAINT_HELMET p')
          = (Persons.CRN p, Persons.UNIT_NUM p, Persons.PERSON_NUM p,
             Persons.PERSON_TYPE p, Persons.AGE p, Persons.SEX p,
             Persons.TRANSPORTED p, Persons.RESTRAINT_HELMET p) /\
          (forall s, Persons.INJ_SEVERITY p = Str s ->
                     In (Str s) (map snd Persons.INJ_SEVERITY_codes)) /\
          (forall s, Persons.INJ_SEVERITY p = Str s -> parse_number s = None ->
                     Persons.INJ_SEVERITY p' = NaN) /\
          ((forall s, Persons.INJ_SEVERITY p <> Str s) ->
           Persons.INJ_SEVERITY p' = Persons.INJ_SEVERITY p))
       (Persons.relabel t) (Persons.relabel (Persons.relabel t))).
Proof.
  split; [|split].
  - intros t. rewrite !bicycles_relabel_map, map_map.
    apply map_ext. intros b. destruct b. bicycle_fields.
    f_equal; by_closed_dict.
  - intros t. rewrite (bicycles_recode_map (Bicycles.recode t)).
    rewrite (bicycles_recode_map t). rewrite map_map.
    apply Forall2_map_both. intros b _. destruct b. unfold uncoerced.
    bicycle_fields.
    split; [repeat (f_equal; try by_closed_dict)|]. split; [|].
    + intros col d H.
      repeat (destruct H as [H | H];
              [apply (f_equal fst) in H as Hc; apply (f_equal snd) in H as Hd;
               cbn [fst snd] in Hc, Hd; subst col d; cbv beta iota;
               apply coerced_second_pass; reflexivity|]).
      destruct H.
    + destruct (coerced_second_pass Bicycles.VEH_ROLE_codes VEH_ROLE eq_refl)
        as (L & M & K). cbv zeta in L, M, K. revert L M K.
      generalize (replace Bicycles.VEH_ROLE_codes (to_numeric VEH_ROLE)).
      intros y L M K. destruct y as [|z|s]; cbn [fillna].
      * split; [intros s E; apply Str_inj in E; subst s; now left|].
        split; [|intros Hs; now contradiction (Hs "non_collision")].
        intros s E Ep. apply Str_inj in E. subst s.
        cbn [to_numeric]. rewrite Ep. reflexivity.
      * split; [discriminate|]. split; [discriminate|]. intros _.
        rewrite K by discriminate. reflexivity.
      * split; [exact L|]. split.
        -- intros s' E Ep. rewrite (M s' E Ep). reflexivity.
        -- intros Hs. now contradiction (Hs s).
  - intros t. rewrite (persons_relabel_rowwise (Persons.relabel t)).
    rewrite (persons_relabel_rowwise t). rewrite map_map.
    apply Forall2_map_both. intros p _. destruct p. person_fields.
    split.
    + rewrite replace_sentinel_idem.
      rewrite !replace_idem by reflexivity. reflexivity.
    + apply coerced_second_pass. reflexivity.
Qed.

Lemma recode_second_pass_witness :
  exists b b',
    nth_error (Bicycles.recode Sample.bicycles) 0 = Some b /\
    nth_error (Bicycles.recode (Bicycles.recode Sample.bicycles)) 0 = Some b' /\
    Bicycles.VEH_TYPE b = Str "bicycle" /\
    parse_number "bicycle" = None /\
    Bicycles.VEH_TYPE b' = NaN.
Proof.
  eexists. eexists. split; [vm_compute; reflexivity|].
  split; [vm_compute; reflexivity|].
  assert (A : Bicycles.VEH_TYPE
                (hd (Sample.bike 0 NaN NaN) (Bicycles.recode Sample.bicycles))
              = Str "bicycle") by (vm_compute; reflexivity).
  assert (B : parse_number "bicycle" = None) by reflexivity.
  split; [exact A|]. split; [exact B|].
  pose proof (Forall2_nth_error _ _ _ 0%nat _ _
                (proj1 (proj2 recode_second_pass) Sample.bicycles)
                ltac:(vm_compute; reflexivity) ltac:(vm_compute; reflexivity))
    as (_ & H & _).
  exact (proj1 (proj2 (H Bicycles.VEH_TYPE Bicycles.VEH_TYPE_codes
                         (or_intror (or_intror (or_introl eq_refl)))))
           "bicycle" A B).
Defined.

(** The claim as worded fails: a bicycle with raw vehicle type 20 is
    recoded to "bicycle", and recoding the result once more coerces that
    label to a missing value. *)
Lemma recode_not_idempotent :
  Bicycles.recode (Bicycles.recode [Sample.bike 1 (Num 1) (Num 20)])
  <> Bicycles.recode [Sample.bike 1 (Num 1) (Num 20)].
Proof. vm_compute. discriminate. Qed.

(** ** The roadway table: county mode, minimum per crash *)

Lemma fold_min_spec (vs : list Z) (v : Z) :
  let m := fold_left Z.min vs v in
  (m = v \/ In m vs) /\ m <= v /\ (forall x, In x vs -> m <= x).
Proof.
  revert v. induction vs as [|a vs IH]; intros v; simpl.
  - split; [now left|]. split; [lia|]. intros x [].
  - destruct (IH (Z.min v a)) as (H1 & H2 & H3).
    split; [|split].
    + destruct H1 as [H1 | H1]; [|now right; right].
      destruct (Z.min_spec v a) as [[_ E] | [_ E]];
        [left | right; left]; congruence.
    + lia.
    + intros x [<- | Hx]; [lia | auto].
Qed.

Lemma min_of_spec (vs : list Z) (m : Z) :
  Roadway.min_of vs = Some m <-> is_minimum m vs.
Proof.
  unfold Roadway.min_of, is_minimum. destruct vs as [|v vs].
  - split; [discriminate | intros [[] _]].
  - destruct (fold_min_spec vs v) as (H1 & H2 & H3). split.
    + intros H. injection H as <-. split.
      * simpl. destruct H1 as [-> | H1]; auto.
      * intros x [<- | Hx]; auto.
    + intros [Hin Hle]. f_equal.
      assert (fold_left Z.min vs v <= m).
      { destruct Hin as [<- | Hin]; auto. }
      assert (m <= fold_left Z.min vs v).
      { apply Hle. simpl. destruct H1 as [-> | H1]; auto. }
      lia.
Qed.

Lemma min_of_None (vs : list Z) : Roadway.min_of vs = None <-> vs = [].
Proof. destruct vs; simpl; split; intros; congruence. Qed.

Lemma insert_key_In (k x : Z) (ks : list Z) :
  In x (Roadway.insert_key k ks) <-> x = k \/ In x ks.
Proof.
  induction ks as [|a ks IH]; simpl; [intuition|].
  destruct (Z.ltb_spec k a); [simpl; intuition|].
  destruct (Z.eqb_spec k a); [subst; simpl; intuition|].
  simpl. rewrite IH. intuition.
Qed.

Lemma insert_key_sorted (k : Z) (ks : list Z) :
  StronglySorted Z.lt ks -> StronglySorted Z.lt (Roadway.insert_key k ks).
Proof.
  induction 1 as [|a ks Hs IH Ha]; simpl; [repeat constructor|].
  destruct (Z.ltb_spec k a).
  - constructor; [constructor; auto|]. constructor; [exact H|].
    rewrite Forall_forall in *. intros x Hx. specialize (Ha x Hx). lia.
  - destruct (Z.eqb_spec k a); [constructor; auto|].
    constructor; [exact IH|]. rewrite Forall_forall in *.
    intros x Hx. apply insert_key_In in Hx as [-> | Hx]; [lia | auto].
Qed.

Lemma sorted_NoDup (ks : list Z) : StronglySorted Z.lt ks -> NoDup ks.
Proof.
  induction 1 as [|a ks Hs IH Ha]; constructor; [|exact IH].
  intros Hin. rewrite Forall_forall in Ha. specialize (Ha a Hin). lia.
Qed.

Lemma crn_keys_sorted (t : list Roadway.segment) :
  StronglySorted Z.lt (Roadway.crn_keys t).
Proof.
  induction t as [|s t IH]; simpl; [constructor | now apply insert_key_sorted].
Qed.

Lemma crn_keys_In (t : list Roadway.segment) (k : Z) :
  In k (Roadway.crn_keys t) <-> exists s, In s t /\ Roadway.CRN s = k.
Proof.
  induction t as [|s t IH]; simpl.
  - split; [intros [] | intros [s [[] _]]].
  - rewrite insert_key_In, IH. split.
    + intros [-> | [s' [H1 H2]]]; eauto.
    + intros [s' [[<- | H1] H2]]; eauto.
Qed.

(** The aggregate has one row per CRN. *)
Lemma groupby_keys (t : list Roadway.segment) :
  map fst (Roadway.groupby_CRN_min t) = Roadway.crn_keys t.
Proof.
  unfold Roadway.groupby_CRN_min. rewrite map_map. simpl. apply map_id.
Qed.

Lemma groupby_NoDup (t : list Roadway.segment) :
  NoDup (map fst (Roadway.groupby_CRN_min t)).
Proof. rewrite groupby_keys. apply sorted_NoDup, crn_keys_sorted. Qed.


Lemma segments_no_key (t : list Roadway.segment) (k : Z) :
  Roadway.segments_of k t = [] <-> ~ In k (Roadway.crn_keys t).
Proof.
  rewrite crn_keys_In. unfold Roadway.segments_of. split.
  - intros H [s [H1 H2]].
    assert (Hf : In s (filter (fun s => Roadway.CRN s =? k) t))
      by (apply filter_In; split; [exact H1 | now apply Z.eqb_eq]).
    rewrite H in Hf. contradiction.
  - intros H. destruct (filter _ t) as [|s l] eqn:E; [reflexivity|].
    exfalso. apply H. exists s.
    assert (Hf : In s (filter (fun s => Roadway.CRN s =? k) t))
      by (rewrite E; now left).
    apply filter_In in Hf as [H1 H2]. split; [exact H1 | now apply Z.eqb_eq].
Qed.

Section UniqueKey.
Context {V : Type}.

Lemma filter_key_absent (l : list (Z * V)) (k : Z) :
  ~ In k (map fst l) -> filter (fun kv => k =? fst kv) l = [].
Proof.
  induction l as [|[a v] l IH]; simpl; [reflexivity|]. intros H.
  destruct (Z.eqb_spec k a); [exfalso; auto|]. apply IH. auto.
Qed.

Lemma filter_key_unique (l : list (Z * V)) (k : Z) :
  NoDup (map fst l) ->
  filter (fun kv => k =? fst kv) l
  = match find (fun kv => k =? fst kv) l with Some kv => [kv] | None => [] end.
Proof.
  induction l as [|[a v] l IH]; simpl; [reflexivity|]. intros H.
  apply NoDup_cons_iff in H as [Ha Hl].
  destruct (Z.eqb_spec k a) as [-> | E]; [|now apply IH].
  now rewrite filter_key_absent.
Qed.
End UniqueKey.


Lemma merge_speed_limit_rows (t : list Crashes.crash)
  (agg : list (Z * option Z)) :
  NoDup (map fst agg) ->
  Crashes.merge_speed_limit t agg
  = map (fun c => {| Crashes.base := c; Crashes.SPEED_LIMIT := attached agg c |}) t.
Proof.
  intros Hn. unfold Crashes.merge_speed_limit.
  rewrite merge_left_unique; [reflexivity|].
  intros c _. destruct (Crashes.CRN c) as [|k|s] eqn:E.
  - simpl. clear Hn. induction agg; simpl; auto.
  - change (fun kv : Z * option Z => key_eqb (Num k) (Num (fst kv)))
      with (fun kv : Z * option Z => k =? fst kv).
    rewrite filter_key_unique by exact Hn.
    destruct (find _ agg); simpl; lia.
  - simpl. clear Hn. induction agg; simpl; auto.
Qed.


Lemma attached_not_number (agg : list (Z * option Z)) (c : Crashes.crash) :
  (forall k, Crashes.CRN c <> Num k) -> attached agg c = None.
Proof.
  intros H. unfold attached.
  replace (filter _ agg) with (@nil (Z * option Z)); [reflexivity|].
  induction agg as [|kv agg IH]; simpl; [reflexivity|].
  destruct (key_eqb (Crashes.CRN c) (Num (fst kv))) eqn:E; [|exact IH].
  apply key_eqb_Num in E. now apply H in E.
Qed.






(** ** The mode of a county and the limits of a crash, segment by segment *)

Lemma preferred_spec (vs : list Z) (a b : Z) :
  Roadway.preferred vs a b = true <->
  (Roadway.count b vs < Roadway.count a vs)%nat \/
  (Roadway.count a vs = Roadway.count b vs /\ a < b).
Proof.
  unfold Roadway.preferred.
  rewrite orb_true_iff, andb_true_iff, Nat.ltb_lt, Nat.eqb_eq, Z.ltb_lt.
  reflexivity.
Qed.

Section Best.
Variable c : Z -> nat.
Variable pref : Z -> Z -> bool.
Hypothesis pref_spec :
  forall a b, pref a b = true <-> (c b < c a)%nat \/ (c a = c b /\ a < b).

Lemma fold_best (l : list Z) (v : Z) :
  let m := fold_left (fun best x => if pref x best then x else best) l v in
  In m (v :: l) /\
  forall u, In u (v :: l) -> (c u <= c m)%nat /\ (c u = c m -> m <= u).
Proof.
  cbv zeta. revert v. induction l as [|x l IH]; intros v; cbn [fold_left].
  - split; [now left|]. intros u [<- | []]. split; lia.
  - destruct (IH (if pref x v then x else v)) as [I M]. split.
    + destruct I as [I | I]; [|right; now right].
      rewrite <- I. destruct (pref x v); [right; now left | now left].
    + intros u Hu.
      assert (B : (c u <= c (if pref x v then x else v))%nat /\
                  (c u = c (if pref x v then x else v) ->
                   (if pref x v then x else v) <= u) \/ In u l).
      { destruct Hu as [<- | [<- | Hu]]; [| |now right]; left.
        - destruct (pref x v) eqn:E.
          + apply pref_spec in E. lia.
          + split; lia.
        - destruct (pref x v) eqn:E.
          + split; lia.
          + assert (N : ~ ((c v < c x)%nat \/ (c x = c v /\ x < v)))
              by (rewrite <- pref_spec, E; discriminate).
            lia. }
      destruct (M _ (or_introl eq_refl)) as [M1 M2].
      destruct B as [[B1 B2] | B]; [|exact (M u (or_intror B))].
      split; [lia|]. intros E. lia.
Qed.
End Best.







Lemma speed_limits_of_In (t : list Roadway.segment) (k v : Z) :
  In v (Roadway.speed_limits_of k t) <->
  exists s, In s t /\ Roadway.CRN s = k /\ Roadway.SPEED_LIMIT s = Some v.
Proof.
  unfold Roadway.speed_limits_of. rewrite in_flat_map. split.
  - intros [s [Hs Hv]]. exists s. split; [exact Hs|].
    destruct (Z.eqb_spec (Roadway.CRN s) k) as [E | E]; [|destruct Hv].
    destruct (Roadway.SPEED_LIMIT s) as [x|]; [|destruct Hv].
    destruct Hv as [<- | []]. now split.
  - intros (s & Hs & <- & E). exists s. split; [exact Hs|].
    rewrite Z.eqb_refl, E. now left.
Qed.

(** ** The crashes table *)

Ltac crash_fields :=
  cbv beta iota zeta delta
    [on_row hd map assign
     record_fills recode_and_fill
     CrashesMid.fill_illumination CrashesMid.fill_hour CrashesMid.recode
     CrashesRaw.consolidate CrashesRaw.relabel
     CrashesRaw.set_HOUR_OF_DAY CrashesRaw.set_TIME_OF_DAY
     CrashesRaw.set_DISPATCH_TM CrashesRaw.set_ARRIVAL_TM
     CrashesRaw.set_ILLUMINATION CrashesRaw.set_ROAD_CONDITION
     CrashesRaw.set_WEATHER1 CrashesRaw.set_WEATHER2
     CrashesRaw.CRN CrashesRaw.COUNTY CrashesRaw.MUNICIPALITY
     CrashesRaw.HOUR_OF_DAY CrashesRaw.TIME_OF_DAY CrashesRaw.DISPATCH_TM
     CrashesRaw.ARRIVAL_TM CrashesRaw.ILLUMINATION CrashesRaw.ROAD_CONDITION
     CrashesRaw.WEATHER1 CrashesRaw.WEATHER2 CrashesRaw.DEC_LAT
     CrashesRaw.DEC_LONG
     CrashesMid.rename_drop
     CrashesMid.set_HOUR_OF_DAY CrashesMid.set_ILLUMINATION
     CrashesMid.set_WEATHER CrashesMid.set_DEC_LAT CrashesMid.set_DEC_LONG
     CrashesMid.CRN CrashesMid.COUNTY CrashesMid.MUNICIPALITY
     CrashesMid.HOUR_OF_DAY CrashesMid.TIME_OF_DAY CrashesMid.DISPATCH_TM
     CrashesMid.ARRIVAL_TM CrashesMid.ILLUMINATION CrashesMid.ROAD_CONDITION
     CrashesMid.WEATHER CrashesMid.DEC_LAT CrashesMid.DEC_LONG
     CrashesMid.nan_crash without_coordinates].

Lemma map_factor {A B C : Type} (p : A -> B) (q : A -> C) (l l' : list A) :
  (forall r r', p r = p r' -> q r = q r') ->
  map p l = map p l' -> map q l = map q l'.
Proof.
  intros H. revert l'. induction l as [|a l IH]; intros [|a' l'] E;
    try discriminate; [reflexivity|].
  simpl in *. injection E as E1 E2. f_equal; auto.
Qed.

Lemma crashes_relabel_rows {pd : Parser} : row_map CrashesRaw.relabel.
Proof. unfold CrashesRaw.relabel. cbv beta zeta. row_map_chain. Qed.

Lemma crashes_consolidate_rows : row_map CrashesRaw.consolidate.
Proof. unfold CrashesRaw.consolidate. cbv beta zeta. row_map_chain. Qed.

Lemma crashes_recode_rows {pd : Parser} : row_map CrashesMid.recode.
Proof.
  unfold CrashesMid.recode. cbv beta zeta.
  apply (row_map_compose
           (fun t => map CrashesMid.rename_drop
                       (CrashesRaw.consolidate (CrashesRaw.relabel t)))
           (assign CrashesMid.set_WEATHER
              (fun r => replace CrashesMid.WEATHER_codes (CrashesMid.WEATHER r))));
    [|apply row_map_assign].
  apply (row_map_compose
           (fun t => CrashesRaw.consolidate (CrashesRaw.relabel t))
           (map CrashesMid.rename_drop)); [|apply row_map_map].
  apply (row_map_compose CrashesRaw.relabel CrashesRaw.consolidate);
    [apply crashes_relabel_rows | apply crashes_consolidate_rows].
Qed.

Lemma record_fills_rows : row_map record_fills.
Proof.
  unfold record_fills, CrashesMid.fill_illumination, CrashesMid.fill_hour.
  cbv beta zeta. row_map_chain.
Qed.

Lemma recode_and_fill_rows {pd : Parser} : row_map recode_and_fill.
Proof.
  apply (row_map_compose CrashesMid.recode record_fills);
    [apply crashes_recode_rows | apply record_fills_rows].
Qed.

Lemma record_fills_map (t : list CrashesMid.crash) :
  record_fills t = map (fun r => on_row record_fills r r) t.
Proof. apply (row_map_rows record_fills (fun r => r)), record_fills_rows. Qed.

Lemma recode_and_fill_map {pd : Parser} (t : list CrashesRaw.crash) :
  recode_and_fill t
  = map (fun r => on_row recode_and_fill CrashesMid.nan_crash r) t.
Proof.
  apply (row_map_rows recode_and_fill (fun _ => CrashesMid.nan_crash)),
    recode_and_fill_rows.
Qed.

(** The positional assignments touch coordinates only; the rows they
    append are missing throughout. *)
Lemma adjust_coordinates_rows (t : list CrashesMid.crash) :
  exists n, map without_coordinates (CrashesMid.adjust_coordinates t)
            = map without_coordinates (t ++ repeat CrashesMid.nan_crash n)%list.
Proof.
  unfold CrashesMid.adjust_coordinates. cbv zeta.
  cut (forall f0 : frame CrashesMid.crash,
         exists n,
           map without_coordinates
             (values
                (at_set CrashesMid.nan_crash 24805
                   (CrashesMid.set_DEC_LONG (Some (-759278 # 10000)%Q))
                   (at_set CrashesMid.nan_crash 24805
                      (CrashesMid.set_DEC_LAT (Some (403322 # 10000)%Q))
                      (at_set CrashesMid.nan_crash 3087
                         (CrashesMid.set_DEC_LONG (Some (-751923 # 10000)%Q))
                         (at_set CrashesMid.nan_crash 3087
                            (CrashesMid.set_DEC_LAT (Some (400081 # 10000)%Q))
                            (at_set CrashesMid.nan_crash 24770
                               (CrashesMid.set_DEC_LONG None)
                               (at_set CrashesMid.nan_crash 24770
                                  (CrashesMid.set_DEC_LAT None) f0)))))))
           = map without_coordinates
               (values f0 ++ repeat CrashesMid.nan_crash n)%list).
  { intros H. destruct (H (range_index 0 t)) as [n E]. exists n.
    rewrite E, values_range_index. reflexivity. }
  intros f0.
  destruct (at_set_proj CrashesMid.nan_crash 24770
              (CrashesMid.set_DEC_LAT None) without_coordinates f0)
    as [n1 E1]; [intros []; reflexivity|].
  revert E1. generalize (at_set CrashesMid.nan_crash 24770
                           (CrashesMid.set_DEC_LAT None) f0).
  intros f1 E1.
  destruct (at_set_proj CrashesMid.nan_crash 24770
              (CrashesMid.set_DEC_LONG None) without_coordinates f1)
    as [n2 E2]; [intros []; reflexivity|].
  revert E2. generalize (at_set CrashesMid.nan_crash 24770
                           (CrashesMid.set_DEC_LONG None) f1).
  intros f2 E2.
  destruct (at_set_proj CrashesMid.nan_crash 3087
              (CrashesMid.set_DEC_LAT (Some (400081 # 10000)%Q))
              without_coordinates f2)
    as [n3 E3]; [intros []; reflexivity|].
  revert E3. generalize (at_set CrashesMid.nan_crash 3087
                           (CrashesMid.set_DEC_LAT (Some (400081 # 10000)%Q)) f2).
  intros f3 E3.
  destruct (at_set_proj CrashesMid.nan_crash 3087
              (CrashesMid.set_DEC_LONG (Some (-751923 # 10000)%Q))
              without_coordinates f3)
    as [n4 E4]; [intros []; reflexivity|].
  revert E4. generalize (at_set CrashesMid.nan_crash 3087
                           (CrashesMid.set_DEC_LONG (Some (-751923 # 10000)%Q)) f3).
  intros f4 E4.
  destruct (at_set_proj CrashesMid.nan_crash 24805
              (CrashesMid.set_DEC_LAT (Some (403322 # 10000)%Q))
              without_coordinates f4)
    as [n5 E5]; [intros []; reflexivity|].
  revert E5. generalize (at_set CrashesMid.nan_crash 24805
                           (CrashesMid.set_DEC_LAT (Some (403322 # 10000)%Q)) f4).
  intros f5 E5.
  destruct (at_set_proj CrashesMid.nan_crash 24805
              (CrashesMid.set_DEC_LONG (Some (-759278 # 10000)%Q))
              without_coordinates f5)
    as [n6 E6]; [intros []; reflexivity|].
  exists (n1 + n2 + n3 + n4 + n5 + n6)%nat.
  rewrite E6, map_app, E5, map_app, E4, map_app, E3, map_app, E2, map_app, E1.
  rewrite !repeat_app, !map_app, <- !app_assoc. reflexivity.
Qed.

Lemma fill_coordinates_rows (t : list CrashesMid.crash) :
  map without_coordinates (CrashesMid.fill_coordinates t)
  = map without_coordinates t.
Proof.
  unfold CrashesMid.fill_coordinates. cbv zeta.
  repeat (rewrite assign_column; [|intros v []; reflexivity]).
  reflexivity.
Qed.

(** Apart from the coordinates, the cleaned table is what the record-wise
    statements make of the raw table, followed by the rows appended by the
    positional assignments. *)
Lemma clean_rows {pd : Parser} (t : list CrashesRaw.crash) :
  exists n,
    map without_coordinates (CrashesMid.clean t)
    = map without_coordinates
        (recode_and_fill t
         ++ repeat (on_row record_fills CrashesMid.nan_crash CrashesMid.nan_crash) n)%list.
Proof.
  destruct (adjust_coordinates_rows (CrashesMid.recode t)) as [n E].
  exists n. rewrite <- fill_coordinates_rows in E.
  change (CrashesMid.clean t)
    with (record_fills (CrashesMid.fill_coordinates
                          (CrashesMid.adjust_coordinates (CrashesMid.recode t)))).
  revert E. generalize (CrashesMid.fill_coordinates
                          (CrashesMid.adjust_coordinates (CrashesMid.recode t))).
  intros l E. unfold recode_and_fill.
  replace (repeat (on_row record_fills CrashesMid.nan_crash CrashesMid.nan_crash) n)
    with (map (fun r => on_row record_fills r r) (repeat CrashesMid.nan_crash n))
    by apply map_repeat.
  rewrite !record_fills_map, <- map_app, !map_map.
  revert E. apply map_factor.
  intros [] [] E. revert E. crash_fields. intros E.
  injection E as -> -> -> -> -> -> -> -> -> ->. reflexivity.
Qed.

Lemma clean_column {pd : Parser} {B : Type} (col : CrashesMid.crash -> B)
  (t : list CrashesRaw.crash) :
  (forall r, col (without_coordinates r) = col r) ->
  exists n,
    map col (CrashesMid.clean t)
    = (map (fun r => col (on_row recode_and_fill CrashesMid.nan_crash r)) t
       ++ repeat (col (on_row record_fills CrashesMid.nan_crash
                         CrashesMid.nan_crash)) n)%list.
Proof.
  intros H. destruct (clean_rows t) as [n E]. exists n.
  replace (repeat (col (on_row record_fills CrashesMid.nan_crash
                          CrashesMid.nan_crash)) n)
    with (map col (repeat (on_row record_fills CrashesMid.nan_crash
                             CrashesMid.nan_crash) n))
    by apply map_repeat.
  rewrite <- (map_map (fun r => on_row recode_and_fill CrashesMid.nan_crash r) col).
  rewrite <- recode_and_fill_map, <- map_app.
  revert E. apply map_factor. intros r r' E.
  rewrite <- (H r), <- (H r'). now rewrite E.
Qed.

(** The consolidated weather of one record is the rule of the
    specification applied to its two coerced weather codes. *)
Lemma consolidate_rule (w1 w2 : cell) :
  let p := CrashesRaw.fillna_with w2 w1 in
  let s := if cell_eqb p w2 then NaN else w2 in
  (if negb (cell_eqb p (Num 3)) || isna s then p else s) = weather_rule w1 w2.
Proof.
  assert (Hp : CrashesRaw.fillna_with w2 w1 = if isna w1 then w2 else w1)
    by (destruct w1; reflexivity).
  unfold weather_rule, clear_code, notnull. cbv zeta. rewrite <- Hp.
  generalize (CrashesRaw.fillna_with w2 w1). intros p.
  destruct (cell_eqb p (Num 3));
    destruct (isna (if cell_eqb p w2 then NaN else w2)); reflexivity.
Qed.

Example weather_rule_steps :
  weather_rule NaN (Num 7) = Num 7 /\
  weather_rule (Num 4) (Num 4) = Num 4 /\
  weather_rule (Num 3) (Num 7) = Num 7 /\
  weather_rule (Num 3) NaN = Num 3 /\
  weather_rule (Num 4) (Num 7) = Num 4 /\
  weather_rule NaN NaN = NaN.
Proof. repeat split; reflexivity. Qed.

Lemma weather_code_idem {pd : Parser} (raw : cell) :
  replace [(Num 99, NaN)] (to_numeric (to_numeric raw)) = weather_code raw.
Proof. unfold weather_code. now rewrite to_numeric_idem. Qed.

Lemma clean_WEATHER {pd : Parser} (t : list CrashesRaw.crash) :
  exists n,
    map CrashesMid.WEATHER (CrashesMid.clean t)
    = (map (fun r => replace CrashesMid.WEATHER_codes
                       (weather_rule (weather_code (CrashesRaw.WEATHER1 r))
                                     (weather_code (CrashesRaw.WEATHER2 r)))) t
       ++ repeat NaN n)%list.
Proof.
  destruct (clean_column CrashesMid.WEATHER t) as [n E]; [intros []; reflexivity|].
  exists n. rewrite E. f_equal. apply map_ext. intros r. destruct r.
  crash_fields. rewrite !weather_code_idem. f_equal. apply consolidate_rule.
Qed.

Lemma clean_ILLUMINATION {pd : Parser} (t : list CrashesRaw.crash) :
  exists n,
    map CrashesMid.ILLUMINATION (CrashesMid.clean t)
    = (map (fun r => fillna (Str "daylight")
                       (replace CrashesRaw.ILLUMINATION_codes
                          (CrashesRaw.ILLUMINATION r))) t
       ++ repeat (Str "daylight") n)%list.
Proof.
  destruct (clean_column CrashesMid.ILLUMINATION t) as [n E];
    [intros []; reflexivity|].
  exists n. rewrite E. reflexivity.
Qed.

Lemma clean_HOUR_OF_DAY {pd : Parser} (t : list CrashesRaw.crash) :
  exists n,
    map CrashesMid.HOUR_OF_DAY (CrashesMid.clean t)
    = (map hour_rule t ++ repeat None n)%list.
Proof.
  destruct (clean_column CrashesMid.HOUR_OF_DAY t) as [n E];
    [intros []; reflexivity|].
  exists n. rewrite E. f_equal. apply map_ext. intros r. destruct r.
  crash_fields. unfold hour_rule. crash_fields.
  destruct (replace_num _ HOUR_OF_DAY); [reflexivity|]. cbn [fillna_num].
  destruct (CrashesMid.number _); [reflexivity|].
  cbn [fillna_num CrashesMid.floordiv100 option_map].
  destruct (replace_num _ DISPATCH_TM); reflexivity.
Qed.

(** No row of the cleaned table lacks an illumination. *)
Lemma clean_illumination_filled {pd : Parser} (t : list CrashesRaw.crash)
  (r : CrashesMid.crash) :
  In r (CrashesMid.clean t) -> CrashesMid.ILLUMINATION r <> NaN.
Proof.
  unfold CrashesMid.clean, CrashesMid.fill_illumination. cbv zeta. intros H.
  apply assign_In in H as [r0 [_ ->]]. destruct r0. crash_fields.
  apply fillna_not_NaN. discriminate.
Qed.

Lemma prepare_inv {pd : Parser}
  (c : list CrashesRaw.crash) (r : list Roadway.segment)
  (out : list Crashes.crash_sl) :
  Crashes.prepare c r = Some out ->
  exists r', Roadway.fill_speed_limit r = Some r' /\
    out = map (fun k => {| Crashes.base := k;
                           Crashes.SPEED_LIMIT
                           := attached (Roadway.groupby_CRN_min r') k |})
            (map Crashes.drop_times (CrashesMid.clean c)).
Proof.
  unfold Crashes.prepare. cbv zeta.
  destruct (Roadway.fill_speed_limit r) as [r'|]; [|discriminate].
  intros H. apply Some_inj in H. subst out. exists r'. split; [reflexivity|].
  apply merge_speed_limit_rows, groupby_NoDup.
Qed.

(** ** The coordinate fill *)

Lemma Forall2_In_l {A B : Type} (R : A -> B -> Prop) (l : list A) (m : list B)
  (a : A) :
  Forall2 R l m -> In a l -> exists b, In b m /\ R a b.
Proof.
  intros H. induction H as [|x y l m Hxy _ IH]; [intros []|].
  intros [<- | Ha].
  - exists y. split; [now left | exact Hxy].
  - destruct (IH Ha) as [b [Hb Hr]]. exists b. split; [now right | exact Hr].
Qed.

Lemma Forall2_compose {A B C : Type} (R : A -> B -> Prop) (S : B -> C -> Prop)
  (l : list A) (m : list B) (n : list C) :
  Forall2 R l m -> Forall2 S m n ->
  Forall2 (fun a c => exists b, R a b /\ S b c) l n.
Proof.
  intros H. revert n. induction H as [|x y l m Hxy _ IH]; intros n Hn.
  - inversion Hn. constructor.
  - inversion Hn as [|y' z m' n' Hyz Hmn]; subst. constructor.
    + exists y. split; [exact Hxy | exact Hyz].
    + apply IH. exact Hmn.
Qed.

Section TwoFills.
Variable set : option Q -> CrashesMid.crash -> CrashesMid.crash.
Variable coord : CrashesMid.crash -> option Q.
Hypothesis coord_set : forall v r, coord (set v r) = v.
Hypothesis county_set :
  forall v r, CrashesMid.COUNTY (set v r) = CrashesMid.COUNTY r.

Lemma fill_mean_kept (area : CrashesMid.crash -> cell)
  (t : list CrashesMid.crash) (r : CrashesMid.crash) (q : Q) :
  area r <> NaN -> coord r = Some q ->
  CrashesMid.fill_mean area coord t r = Some q.
Proof.
  unfold CrashesMid.fill_mean. intros Ha ->.
  destruct (area r); [congruence | reflexivity | reflexivity].
Qed.

Lemma fill_mean_lost (area : CrashesMid.crash -> cell)
  (t : list CrashesMid.crash) (r : CrashesMid.crash) :
  area r = NaN -> CrashesMid.fill_mean area coord t r = None.
Proof. unfold CrashesMid.fill_mean. now intros ->. Qed.

Lemma group_values_In (area : CrashesMid.crash -> cell) (k : cell)
  (t : list CrashesMid.crash) (x : CrashesMid.crash) :
  In x t -> cell_eqb (area x) k = true -> coord x <> None ->
  CrashesMid.group_values area coord k t <> [].
Proof.
  intros Hx Hk Hc E. destruct (coord x) as [q|] eqn:Eq; [|congruence].
  assert (H : In q (CrashesMid.group_values area coord k t)).
  { unfold CrashesMid.group_values. apply in_flat_map. exists x.
    split; [exact Hx|]. rewrite Hk, Eq. now left. }
  rewrite E in H. destruct H.
Qed.

Lemma fill_mean_found (area : CrashesMid.crash -> cell)
  (t : list CrashesMid.crash) (r x : CrashesMid.crash) :
  area r <> NaN -> In x t -> cell_eqb (area x) (area r) = true ->
  coord x <> None ->
  CrashesMid.fill_mean area coord t r <> None.
Proof.
  intros Ha Hx Hk Hc. unfold CrashesMid.fill_mean.
  pose proof (group_values_In area (area r) t x Hx Hk Hc) as G.
  assert (M : CrashesMid.mean (CrashesMid.group_values area coord (area r) t)
              <> None).
  { destruct (CrashesMid.group_values area coord (area r) t);
      [congruence | discriminate]. }
  destruct (area r) eqn:E; [congruence| |];
    (destruct (coord r); cbn [fillna_num]; [discriminate | exact M]).
Qed.

(** The two fills of one coordinate, by municipality and then by county. *)
Lemma two_fills (t : list CrashesMid.crash) :
  Forall2
    (fun r r' =>
       (exists v1 v2, r' = set v2 (set v1 r)) /\
       (CrashesMid.MUNICIPALITY r <> NaN -> CrashesMid.COUNTY r <> NaN ->
        forall q, coord r = Some q -> coord r' = Some q) /\
       (CrashesMid.COUNTY r = NaN -> coord r' = None) /\
       (CrashesMid.COUNTY r <> NaN ->
        (exists x, In x t /\
           cell_eqb (CrashesMid.COUNTY x) (CrashesMid.COUNTY r) = true /\
           CrashesMid.MUNICIPALITY x <> NaN /\ coord x <> None) ->
        coord r' <> None))
    t
    (assign set
       (CrashesMid.fill_mean CrashesMid.COUNTY coord
          (assign set (CrashesMid.fill_mean CrashesMid.MUNICIPALITY coord t) t))
       (assign set (CrashesMid.fill_mean CrashesMid.MUNICIPALITY coord t) t)).
Proof.
  remember (assign set (CrashesMid.fill_mean CrashesMid.MUNICIPALITY coord t) t)
    as t1 eqn:E1.
  change (assign set (CrashesMid.fill_mean CrashesMid.COUNTY coord t1) t1)
    with (map (fun r => set (CrashesMid.fill_mean CrashesMid.COUNTY coord t1 r) r)
            t1).
  rewrite E1 at 1. unfold assign at 1.
  rewrite map_map. apply Forall2_map_same. intros r Hr.
  split; [eexists; eexists; reflexivity|]. rewrite coord_set.
  split; [|split].
  - intros Hm Hc q Hq. apply fill_mean_kept.
    + now rewrite county_set.
    + rewrite coord_set. now apply fill_mean_kept.
  - intros Hc. apply fill_mean_lost. now rewrite county_set.
  - intros Hc (x & Hx & Hk & Hm & Hq).
    destruct (coord x) as [q|] eqn:Eq; [|congruence].
    apply (fill_mean_found _ _ _
             (set (CrashesMid.fill_mean CrashesMid.MUNICIPALITY coord t x) x)).
    + now rewrite county_set.
    + rewrite E1. apply assign_In. exists x. split; [exact Hx | reflexivity].
    + now rewrite !county_set.
    + rewrite coord_set, (fill_mean_kept _ t x q Hm Eq). discriminate.
Qed.
End TwoFills.


Lemma Forall2_map_r {A B C : Type} (R : A -> C -> Prop) (g : B -> C)
  (l : list A) (m : list B) :
  Forall2 R l (map g m) <-> Forall2 (fun a b => R a (g b)) l m.
Proof.
  split.
  - revert l. induction m as [|b m IH]; intros l H; inversion H; subst;
      constructor; auto.
  - intros H. induction H; cbn [map]; constructor; auto.
Qed.



Section TwoFillsValue.
Variable set : option Q -> CrashesMid.crash -> CrashesMid.crash.
Variable coord : CrashesMid.crash -> option Q.
Hypothesis coord_set : forall v r, coord (set v r) = v.
Hypothesis county_set :
  forall v r, CrashesMid.COUNTY (set v r) = CrashesMid.COUNTY r.


End TwoFillsValue.


Lemma crashes_csv_inv {pd : Parser} b p c r out :
  notebook b p c r = Some out ->
  exists r', Roadway.fill_speed_limit r = Some r' /\
    crashes_csv out
    = map (fun k => {| Crashes.base := k;
                       Crashes.SPEED_LIMIT
                       := attached (Roadway.groupby_CRN_min r') k |})
        (map Crashes.drop_times (CrashesMid.clean c)).
Proof.
  intros Hrun. destruct (notebook_inv _ _ _ _ _ Hrun) as (k & Hk & -> & _).
  now apply prepare_inv.
Qed.

Lemma crashes_csv_column {pd : Parser} {B : Type} (col : CrashesMid.crash -> B)
  (col' : Crashes.crash -> B) b p c r out :
  (forall k, col' (Crashes.drop_times k) = col k) ->
  notebook b p c r = Some out ->
  map (fun k => col' (Crashes.base k)) (crashes_csv out)
  = map col (CrashesMid.clean c).
Proof.
  intros H Hrun. destruct (crashes_csv_inv _ _ _ _ _ Hrun) as (r' & _ & ->).
  rewrite !map_map. apply map_ext. intros k. apply H.
Qed.

Lemma crashes_csv_WEATHER {pd : Parser} b p c r out :
  notebook b p c r = Some out ->
  exists n,
    map (fun k => Crashes.WEATHER (Crashes.base k)) (crashes_csv out)
    = (map (fun x => replace CrashesMid.WEATHER_codes
                       (weather_rule (weather_code (CrashesRaw.WEATHER1 x))
                                     (weather_code (CrashesRaw.WEATHER2 x)))) c
       ++ repeat NaN n)%list.
Proof.
  intros Hrun. destruct (clean_WEATHER c) as [n E]. exists n. rewrite <- E.
  apply (crashes_csv_column CrashesMid.WEATHER Crashes.WEATHER b p c r out);
    [intros []; reflexivity | exact Hrun].
Qed.

Lemma crashes_csv_ILLUMINATION {pd : Parser} b p c r out :
  notebook b p c r = Some out ->
  exists n,
    map (fun k => Crashes.ILLUMINATION (Crashes.base k)) (crashes_csv out)
    = (map (fun x => fillna (Str "daylight")
                       (replace CrashesRaw.ILLUMINATION_codes
                          (CrashesRaw.ILLUMINATION x))) c
       ++ repeat (Str "daylight") n)%list.
Proof.
  intros Hrun. destruct (clean_ILLUMINATION c) as [n E]. exists n. rewrite <- E.
  apply (crashes_csv_column CrashesMid.ILLUMINATION Crashes.ILLUMINATION
           b p c r out); [intros []; reflexivity | exact Hrun].
Qed.

Lemma crashes_csv_HOUR_OF_DAY {pd : Parser} b p c r out :
  notebook b p c r = Some out ->
  exists n,
    map (fun k => Crashes.HOUR_OF_DAY (Crashes.base k)) (crashes_csv out)
    = (map hour_rule c ++ repeat None n)%list.
Proof.
  intros Hrun. destruct (clean_HOUR_OF_DAY c) as [n E]. exists n. rewrite <- E.
  apply (crashes_csv_column CrashesMid.HOUR_OF_DAY Crashes.HOUR_OF_DAY
           b p c r out); [intros []; reflexivity | exact Hrun].
Qed.

(** C6.  The two weather columns are consolidated record by record by
    three statements in this order: a missing primary takes the secondary;
    a secondary equal to the primary is cleared; a primary that is the
    "clear" code 3 is replaced by a secondary that is still there.  The
    result, recoded to labels, is the single [WEATHER] column of the
    exported table (whose record type has no secondary column: the renamed
    table does not depend on it). *)
Theorem weather_consolidation {pd : Parser} (t : list CrashesRaw.crash) :
  map CrashesRaw.WEATHER1 (CrashesRaw.consolidate (CrashesRaw.relabel t))
  = map (fun r => weather_rule (weather_code (CrashesRaw.WEATHER1 r))
                               (weather_code (CrashesRaw.WEATHER2 r))) t /\
  (forall v r, CrashesMid.rename_drop (CrashesRaw.set_WEATHER2 v r)
               = CrashesMid.rename_drop r) /\
  (forall b p r out, notebook b p t r = Some out ->
     exists n,
       map (fun k => Crashes.WEATHER (Crashes.base k)) (crashes_csv out)
       = (map (fun r => replace CrashesMid.WEATHER_codes
                          (weather_rule (weather_code (CrashesRaw.WEATHER1 r))
                                        (weather_code (CrashesRaw.WEATHER2 r)))) t
          ++ repeat NaN n)%list).
Proof.
  split; [|split].
  - rewrite (row_map_rows (fun t => CrashesRaw.consolidate (CrashesRaw.relabel t))
               (fun r => r))
      by (apply (row_map_compose CrashesRaw.relabel CrashesRaw.consolidate);
          [apply crashes_relabel_rows | apply crashes_consolidate_rows]).
    rewrite map_map. apply map_ext. intros r. destruct r. crash_fields.
    rewrite !weather_code_idem. apply consolidate_rule.
  - intros v []. reflexivity.
  - intros b p r out Hrun. exact (crashes_csv_WEATHER b p t r out Hrun).
Qed.

Lemma weather_consolidation_witness :
  exists out n,
    notebook Sample.bicycles Sample.persons Sample.crashes Sample.roadway
    = Some out /\
    map (fun k => Crashes.WEATHER (Crashes.base k)) (crashes_csv out)
    = (map (fun r => replace CrashesMid.WEATHER_codes
                       (weather_rule (weather_code (CrashesRaw.WEATHER1 r))
                                     (weather_code (CrashesRaw.WEATHER2 r))))
         Sample.crashes
       ++ repeat NaN n)%list.
Proof.
  assert (Hrun : exists out,
             notebook Sample.bicycles Sample.persons Sample.crashes
               Sample.roadway = Some out)
    by (eexists; vm_compute; reflexivity).
  destruct Hrun as [out Hrun]. exists out.
  destruct (proj2 (proj2 (weather_consolidation Sample.crashes))
              Sample.bicycles Sample.persons Sample.roadway out Hrun)
    as [n E].
  exists n. split; [exact Hrun | exact E].
Defined.

(** C10.  In the exported crashes table [ILLUMINATION] is never missing:
    after the recode a missing illumination is filled with the constant
    "daylight".  The same holds in every cyclist row that the merge joined
    to a crash. *)
Theorem illumination_never_missing {pd : Parser} b p c r out :
  notebook b p c r = Some out ->
  (forall k, In k (crashes_csv out) ->
     Crashes.ILLUMINATION (Crashes.base k) <> NaN) /\
  (exists n,
     map (fun k => Crashes.ILLUMINATION (Crashes.base k)) (crashes_csv out)
     = (map (fun r => fillna (Str "daylight")
                        (replace CrashesRaw.ILLUMINATION_codes
                           (CrashesRaw.ILLUMINATION r))) c
        ++ repeat (Str "daylight") n)%list) /\
  (forall f, In f (cyclists_csv out) ->
     (exists k, In k (crashes_csv out) /\
                Crashes.CRN (Crashes.base k)
                = Cyclists.CRN (Cyclists.person (Cyclists.row f))) ->
     Cyclists.ILLUMINATION (Cyclists.crash (Cyclists.row f)) <> NaN).
Proof.
  intros Hrun.
  assert (Hall : forall k, In k (crashes_csv out) ->
                           Crashes.ILLUMINATION (Crashes.base k) <> NaN).
  { intros k Hk. destruct (crashes_csv_inv _ _ _ _ _ Hrun) as (r' & _ & E).
    rewrite E, map_map in Hk. apply in_map_iff in Hk as [k1 [<- H1]].
    apply clean_illumination_filled in H1. destruct k1. exact H1. }
  split; [exact Hall|]. split.
  - exact (crashes_csv_ILLUMINATION b p c r out Hrun).
  - intros f Hf [k [Hk Hcrn]].
    destruct (cyclists_csv_In _ _ _ _ _ _ Hrun Hf)
      as (_ & c0 & pr & bk & Hu & Hc0 & _).
    unfold unfilled in Hu. injection Hu as Hu1 _ _ _ _ Hu2 _.
    rewrite Hu2.
    destruct (merge_crashes_In _ _ _ Hc0)
      as (pb & _ & Hp & _ & [(k' & Hk' & _ & ->) | (Hno & _)]).
    + cbn [Cyclists.select_crash Cyclists.ILLUMINATION]. exact (Hall k' Hk').
    + specialize (Hno k Hk). unfold Cyclists.same_crash in Hno.
      rewrite <- Hp, <- Hu1, <- Hcrn, key_eqb_refl in Hno. discriminate.
Qed.

Lemma illumination_never_missing_witness :
  exists out k,
    notebook Sample.bicycles Sample.persons Sample.crashes Sample.roadway
    = Some out /\
    In k (crashes_csv out) /\
    Crashes.ILLUMINATION (Crashes.base k) = Str "daylight" /\
    Crashes.ILLUMINATION (Crashes.base k) <> NaN.
Proof.
  eexists. eexists. split; [vm_compute; reflexivity|].
  split; [left; reflexivity|]. split; [reflexivity|].
  refine (proj1 (illumination_never_missing Sample.bicycles Sample.persons
                   Sample.crashes Sample.roadway _ _) _ _).
  - vm_compute. reflexivity.
  - left. reflexivity.
Defined.



(** Segments with limits 25 and 35 on one crash: the crash and its cyclist
    get 25. *)
Lemma speed_limit_25_and_35 :
  map Roadway.SPEED_LIMIT (Roadway.segments_of 1 Sample.roadway)
  = [Some 25; Some 35] /\
  option_map
    (fun out =>
       (map (fun k => (Crashes.CRN (Crashes.base k), Crashes.SPEED_LIMIT k))
            (firstn 2 (crashes_csv out)),
        map (fun f => (Cyclists.CRN (Cyclists.person (Cyclists.row f)),
                       Cyclists.SPEED_LIMIT (Cyclists.crash (Cyclists.row f))))
            (cyclists_csv out)))
    (notebook Sample.bicycles Sample.persons Sample.crashes Sample.roadway)
  = Some ([(Num 1, Some 25); (Num 2, None)],
          [(Num 1, Some 25); (Num 2, None)]).
Proof. vm_compute. split; reflexivity. Qed.



(** ** Fills before export *)




(** The coordinates behave alike: the first crash of the two sample crash
    tables is the same record, without coordinates, and its exported
    latitude is the mean of its municipality, 40 with the one table and 41
    with the other. *)
Lemma latitude_from_municipality_mean :
  nth_error Sample.crashes_a 0 = nth_error Sample.crashes_b 0 /\
  map CrashesMid.DEC_LAT (firstn 2 (CrashesMid.clean Sample.crashes_a))
  = [Some (40 # 1)%Q; Some (40 # 1)%Q] /\
  map CrashesMid.DEC_LAT (firstn 2 (CrashesMid.clean Sample.crashes_b))
  = [Some (41 # 1)%Q; Some (41 # 1)%Q].
Proof. vm_compute. repeat split; reflexivity. Qed.

(** ** Composite keys *)

(** C4, as the notebook has it.  The repair sets [UNIT_NUM] to 2 in the one
    record at row label 35557 and leaves every other record as it is,
    whether or not its key collides with another.  Key collisions are not
    checked anywhere: a run stops on an exception only when the county-mode
    fill of the roadway table raises. *)
Theorem repair_is_positional {pd : Parser} :
  (forall t i p, nth_error t i = Some p ->
     Z.of_nat i <> Persons.repaired_label ->
     nth_error (Persons.repair t) i = Some p) /\
  (forall t i p, nth_error t i = Some p ->
     Z.of_nat i = Persons.repaired_label ->
     nth_error (Persons.repair t) i = Some (Persons.set_UNIT_NUM (Num 2) p)) /\
  (forall b p c r,
     notebook b p c r = None <-> Roadway.fill_speed_limit r = None).
Proof.
  split; [|split].
  - intros t i p Hi Hne. unfold Persons.repair.
    rewrite (at_set_range_nth _ _ _ t 0 i p Hi).
    destruct (Z.eqb_spec (0 + Z.of_nat i) Persons.repaired_label);
      [lia | reflexivity].
  - intros t i p Hi He. unfold Persons.repair.
    rewrite (at_set_range_nth _ _ _ t 0 i p Hi).
    destruct (Z.eqb_spec (0 + Z.of_nat i) Persons.repaired_label);
      [reflexivity | lia].
  - apply notebook_runs.
Qed.

Lemma repair_is_positional_witness :
  nth_error Sample.persons_colliding 1
  = Some (Sample.rider (Num 1) (Num 1) (Num 1) (Num 4) (Some 19)) /\
  Z.of_nat 1 <> Persons.repaired_label /\
  nth_error (Persons.repair Sample.persons_colliding) 1
  = Some (Sample.rider (Num 1) (Num 1) (Num 1) (Num 4) (Some 19)).
Proof.
  split; [reflexivity|]. split; [discriminate|].
  apply (proj1 repair_is_positional Sample.persons_colliding 1%nat);
    [reflexivity | discriminate].
Defined.

(** The claim as worded fails: the two sample records collide on
    (CRN, UNIT_NUM, PERSON_NUM), neither is the record at label 35557, and
    the run completes with both of them in the exported cyclists table. *)
Lemma key_collision_goes_through :
  Persons.key_collision Sample.persons_colliding = true /\
  option_map
    (fun out =>
       map (fun f => (Cyclists.CRN (Cyclists.person (Cyclists.row f)),
                      Cyclists.UNIT_NUM (Cyclists.person (Cyclists.row f)),
                      Cyclists.INJ_SEVERITY (Cyclists.person (Cyclists.row f))))
           (cyclists_csv out))
    (notebook Sample.bicycles Sample.persons_colliding Sample.crashes
       Sample.roadway)
  = Some [(Num 1, Num 1, Str "killed"); (Num 1, Num 1, Str "possible_injury")].
Proof. vm_compute. split; reflexivity. Qed.

(* ================================================================== *)
(** * Part III: further properties of the notebook's cells             *)
(* ================================================================== *)

(** ** What a recode leaves behind *)

Lemma no_key_NaN (d : dict) : no_key d NaN.
Proof.
  unfold no_key. induction d as [|[k v] d IH]; [reflexivity|].
  cbn [existsb fst]. now rewrite cell_eqb_NaN_r.
Qed.

(** The result of a replacement by a closed dictionary is no key of it. *)
Lemma replace_no_raw_code (d : dict) (x : cell) :
  dict_closed d = true -> no_key d (replace d x).
Proof.
  intros Hd. destruct (replace_cases d x) as [[Hn ->] | [kv [Hin [_ ->]]]].
  - exact Hn.
  - now apply closed_value.
Qed.

Lemma fillna_no_raw_code (d : dict) (v x : cell) :
  no_key d v -> no_key d x -> no_key d (fillna v x).
Proof. intros Hv Hx. now destruct x. Qed.

Ltac no_raw_code_cell :=
  first
    [ apply replace_no_raw_code; reflexivity
    | apply fillna_no_raw_code;
      [reflexivity | apply replace_no_raw_code; reflexivity]
    | apply no_key_NaN
    | reflexivity ].

Lemma bicycles_recode_filled {pd : Parser}
  (t : list Bicycles.bicycle) (b : Bicycles.bicycle) :
  In b (Bicycles.recode t) ->
  Bicycles.UNIT_NUM b <> NaN /\ Bicycles.VEH_ROLE b <> NaN.
Proof.
  intros Hb. rewrite bicycles_recode_map in Hb.
  apply in_map_iff in Hb as [b0 [<- _]]. destruct b0. bicycle_fields.
  split; apply fillna_not_NaN; discriminate.
Qed.

(** X1.  After the bicycles cell no cell equals a raw key of the dictionary of
    its column: neither a sentinel nor a code that has a label is left.
    [UNIT_NUM] and [VEH_ROLE] are never missing. *)
Theorem bicycles_recode_leaves_no_raw_code {pd : Parser}
  (t : list Bicycles.bicycle)
  (b : Bicycles.bicycle) :
  In b (Bicycles.recode t) ->
  no_raw_code (bicycle_cells b) /\
  Bicycles.UNIT_NUM b <> NaN /\ Bicycles.VEH_ROLE b <> NaN.
Proof.
  intros Hb. split; [|exact (bicycles_recode_filled t b Hb)].
  rewrite bicycles_recode_map in Hb.
  apply in_map_iff in Hb as [b0 [<- _]]. destruct b0.
  unfold no_raw_code, bicycle_cells. bicycle_fields.
  repeat (constructor; [cbn [fst snd]; no_raw_code_cell|]). constructor.
Qed.

Lemma bicycles_recode_leaves_no_raw_code_witness :
  exists b,
    In b (Bicycles.recode Sample.bicycles) /\
    no_raw_code (bicycle_cells b) /\
    Bicycles.UNIT_NUM b <> NaN /\ Bicycles.VEH_ROLE b <> NaN.
Proof.
  exists (hd (Sample.bike 0 NaN NaN) (Bicycles.recode Sample.bicycles)).
  split; [vm_compute; left; reflexivity|].
  apply (bicycles_recode_leaves_no_raw_code Sample.bicycles).
  vm_compute. left. reflexivity.
Defined.

(** X2.  What the bicycles cell does with values outside its dictionaries: in a
    column that is only replaced, such a value is kept as it is; in a
    coerced column an unlabelled number is kept and a text that the
    coercion does not read as a number becomes missing, which for
    [VEH_ROLE] then means "non_collision"; a missing or unknown unit number
    becomes 1. *)
Theorem bicycles_recode_outside_dictionary {pd : Parser}
  (t : list Bicycles.bicycle) :
  Forall2
    (fun b b' =>
       Bicycles.CRN b' = Bicycles.CRN b /\
       (no_key Bicycles.GRADE_codes (Bicycles.GRADE b) ->
        Bicycles.GRADE b' = Bicycles.GRADE b) /\
       (forall z, Bicycles.VEH_TYPE b = Num z -> z <> 20 -> z <> 21 ->
                  Bicycles.VEH_TYPE b' = Num z) /\
       (forall s, Bicycles.VEH_TYPE b = Str s -> parse_number s = None ->
                  Bicycles.VEH_TYPE b' = NaN) /\
       (forall s z, Bicycles.VEH_TYPE b = Str s -> parse_number s = Some z ->
                    Bicycles.VEH_TYPE b'
                    = replace Bicycles.VEH_TYPE_codes (Num z)) /\
       (forall s, Bicycles.VEH_ROLE b = Str s -> parse_number s = None ->
                  Bicycles.VEH_ROLE b' = Str "non_collision") /\
       (Bicycles.UNIT_NUM b = NaN \/ Bicycles.UNIT_NUM b = Str "U" \/
        Bicycles.UNIT_NUM b = Num 99 -> Bicycles.UNIT_NUM b' = Num 1))
    t (Bicycles.recode t).
Proof.
  rewrite bicycles_recode_map. apply Forall2_map_same. intros b _.
  destruct b as [crn un vt gr ip isd ra vm vp vr hd hl rr]. bicycle_fields.
  split; [reflexivity|]. split; [|split; [|split; [|split; [|split]]]].
  - intros Hn. now apply replace_no_key.
  - intros z -> H20 H21. cbn [to_numeric]. unfold Bicycles.VEH_TYPE_codes.
    cbn [replace cell_eqb].
    destruct (Z.eqb_spec 20 z); [congruence|].
    destruct (Z.eqb_spec 21 z); [congruence | reflexivity].
  - intros s -> Hs. cbn [to_numeric]. rewrite Hs. reflexivity.
  - intros s z -> Hs. cbn [to_numeric]. rewrite Hs. reflexivity.
  - intros s -> Hs. cbn [to_numeric]. rewrite Hs. reflexivity.
  - intros [-> | [-> | ->]]; reflexivity.
Qed.

Lemma bicycles_recode_outside_dictionary_witness :
  exists b b' c c',
    nth_error [Sample.bike 1 (Num 1) (Str "x"); Sample.bike 2 (Num 1) (Str "20")]
      0 = Some b /\
    nth_error [Sample.bike 1 (Num 1) (Str "x"); Sample.bike 2 (Num 1) (Str "20")]
      1 = Some c /\
    nth_error
      (Bicycles.recode
         [Sample.bike 1 (Num 1) (Str "x"); Sample.bike 2 (Num 1) (Str "20")])
      0 = Some b' /\
    nth_error
      (Bicycles.recode
         [Sample.bike 1 (Num 1) (Str "x"); Sample.bike 2 (Num 1) (Str "20")])
      1 = Some c' /\
    Bicycles.VEH_TYPE b = Str "x" /\ parse_number "x" = None /\
    Bicycles.VEH_TYPE b' = NaN /\
    Bicycles.VEH_TYPE c = Str "20" /\ parse_number "20" = Some 20 /\
    Bicycles.VEH_TYPE c' = Str "bicycle".
Proof.
  do 4 eexists.
  split; [reflexivity|]. split; [reflexivity|].
  split; [vm_compute; reflexivity|]. split; [vm_compute; reflexivity|].
  pose proof (bicycles_recode_outside_dictionary
                [Sample.bike 1 (Num 1) (Str "x");
                 Sample.bike 2 (Num 1) (Str "20")]) as H.
  pose proof (Forall2_nth_error _ _ _ 0%nat _ _ H eq_refl
                ltac:(vm_compute; reflexivity)) as (_ & _ & _ & H0 & _).
  pose proof (Forall2_nth_error _ _ _ 1%nat _ _ H eq_refl
                ltac:(vm_compute; reflexivity)) as (_ & _ & _ & _ & H1 & _).
  split; [reflexivity|]. split; [reflexivity|].
  split; [exact (H0 "x" eq_refl eq_refl)|].
  split; [reflexivity|]. split; [reflexivity|].
  exact (H1 "20" 20 eq_refl eq_refl).
Defined.

(** ** The persons cell *)

Lemma persons_relabel_map {pd : Parser} (t : list Persons.person) :
  Persons.relabel t = map (fun p => on_row Persons.relabel p p) t.
Proof. apply (row_map_rows Persons.relabel (fun p => p)), persons_relabel_rows. Qed.

Lemma replace_age_not_99 (a : option Z) : replace_num [(99, None)] a <> Some 99.
Proof.
  destruct a as [z|]; cbn [replace_num]; [|discriminate].
  destruct (Z.eqb_spec 99 z); [discriminate | congruence].
Qed.

(** X3.  After the persons cell no cell of a dictionary column equals a raw key
    of its dictionary (no 'U', 'R', blank, 9, 97 or 99 is left, in the
    appended row neither), the age is never the sentinel 99, and the injury
    severity is missing, a number without a label, or one of the labels:
    never a raw string. *)
Theorem persons_recode_leaves_no_raw_code {pd : Parser}
  (t : list Persons.person)
  (p : Persons.person) :
  In p (Persons.recode t) ->
  no_raw_code (person_cells p) /\
  Persons.AGE p <> Some 99 /\
  (forall s, Persons.INJ_SEVERITY p = Str s ->
             In (Str s) (map snd Persons.INJ_SEVERITY_codes)).
Proof.
  unfold Persons.recode, Persons.repair. intros H.
  apply at_set_In in H as [[p1 [H1 Hp]] | ->].
  - rewrite values_range_index, persons_relabel_map in H1.
    apply in_map_iff in H1 as [p0 [<- _]].
    destruct p0 as [crn un pn inj pt age sex tr rh].
    unfold no_raw_code, person_cells.
    destruct Hp as [-> | ->]; person_fields;
      (split; [repeat (constructor; [cbn [fst snd]; no_raw_code_cell|]);
               constructor|]);
      (split; [apply replace_age_not_99|]);
      intros s Hs;
      (destruct (replace_cases Persons.INJ_SEVERITY_codes (to_numeric inj))
        as [[_ E] | [kv [Hin [_ E]]]];
       [rewrite E in Hs; destruct (to_numeric_cases inj) as [E' | [z E']];
        rewrite E' in Hs; discriminate
       | rewrite <- Hs, E; now apply in_map]).
  - split; [|split].
    + unfold no_raw_code, person_cells. person_fields.
      repeat (constructor; [cbn [fst snd]; no_raw_code_cell|]). constructor.
    + discriminate.
    + intros s Hs. discriminate Hs.
Qed.

Lemma persons_recode_leaves_no_raw_code_witness :
  exists p,
    In p (Persons.recode Sample.persons) /\
    no_raw_code (person_cells p) /\
    Persons.AGE p <> Some 99 /\
    (forall s, Persons.INJ_SEVERITY p = Str s ->
               In (Str s) (map snd Persons.INJ_SEVERITY_codes)).
Proof.
  exists (hd Persons.nan_person (Persons.recode Sample.persons)).
  split; [vm_compute; left; reflexivity|].
  apply (persons_recode_leaves_no_raw_code Sample.persons).
  vm_compute. left. reflexivity.
Defined.

(** ** Positional assignments on short and long tables *)

Section AtSetLabels.
Context {A : Type}.
Variables (nan_row : A) (label : Z) (upd : A -> A).

Lemma at_set_present (f : frame A) :
  In label (map fst f) ->
  map fst (at_set nan_row label upd f) = map fst f.
Proof.
  induction f as [|[l r] f IH]; [intros []|]. intros H. cbn [at_set].
  destruct (Z.eqb_spec l label) as [E | E]; [reflexivity|].
  cbn [map fst] in *. f_equal. apply IH. destruct H as [H | H]; [congruence | exact H].
Qed.

Lemma at_set_absent (f : frame A) :
  ~ In label (map fst f) ->
  at_set nan_row label upd f = (f ++ [(label, upd nan_row)])%list.
Proof.
  induction f as [|[l r] f IH]; [reflexivity|]. intros H. cbn [at_set].
  cbn [map fst In] in H.
  destruct (Z.eqb_spec l label) as [E | E]; [exfalso; auto|].
  cbn [app]. f_equal. apply IH. auto.
Qed.

(** The label is there afterwards; at most one label is added, and none
    when it was there before. *)
Lemma at_set_labels (f : frame A) :
  In label (map fst (at_set nan_row label upd f)) /\
  exists e, map fst (at_set nan_row label upd f) = (map fst f ++ e)%list /\
            (List.length e <= 1)%nat /\
            (In label (map fst f) -> e = []).
Proof.
  assert (D : In label (map fst f) \/ ~ In label (map fst f)).
  { destruct (in_dec Z.eq_dec label (map fst f)); auto. }
  destruct D as [H | H].
  - rewrite at_set_present by exact H. split; [exact H|].
    exists []. rewrite app_nil_r. auto.
  - rewrite at_set_absent by exact H. rewrite map_app. cbn [map fst]. split.
    + apply in_or_app. right. now left.
    + exists [label]. split; [reflexivity|]. split; [reflexivity|].
      intros H'. contradiction.
Qed.
End AtSetLabels.

Lemma range_index_labels {A : Type} (t : list A) (i l : Z) :
  In l (map fst (range_index i t)) <-> i <= l < i + Z.of_nat (List.length t).
Proof.
  revert i. induction t as [|a t IH]; intros i.
  - cbn. lia.
  - cbn [range_index map fst In List.length]. rewrite IH. lia.
Qed.

(** X4.  The repair of the persons table when the label 35557 is absent: the
    table is not changed and one record is appended, all of whose columns
    are missing except [UNIT_NUM], which is 2.  When the label is there, the
    table keeps its length. *)
Theorem repair_on_short_table (t : list Persons.person) :
  (Z.of_nat (List.length t) <= Persons.repaired_label ->
   Persons.repair t
   = (t ++ [Persons.set_UNIT_NUM (Num 2) Persons.nan_person])%list) /\
  (Persons.repaired_label < Z.of_nat (List.length t) ->
   List.length (Persons.repair t) = List.length t).
Proof.
  unfold Persons.repair, Persons.repaired_label. split; intros H.
  - rewrite at_set_absent by (rewrite range_index_labels; lia).
    unfold values. rewrite map_app. cbn [map snd].
    fold (values (range_index 0 t)). now rewrite values_range_index.
  - unfold values. rewrite length_map.
    rewrite <- (length_map fst), at_set_present
      by (rewrite range_index_labels; lia).
    rewrite length_map. rewrite <- (length_map snd).
    fold (values (range_index 0 t)). now rewrite values_range_index.
Qed.

Lemma repair_on_short_table_witness :
  Z.of_nat (List.length Sample.persons) <= Persons.repaired_label /\
  Persons.repair Sample.persons
  = (Sample.persons ++ [Persons.set_UNIT_NUM (Num 2) Persons.nan_person])%list /\
  Persons.repaired_label
  < Z.of_nat (List.length (repeat Persons.nan_person (Z.to_nat 35558))) /\
  List.length (Persons.repair (repeat Persons.nan_person (Z.to_nat 35558)))
  = List.length (repeat Persons.nan_person (Z.to_nat 35558)).
Proof.
  assert (H1 : Z.of_nat (List.length Sample.persons) <= Persons.repaired_label)
    by (vm_compute; discriminate).
  assert (H2 : Persons.repaired_label
               < Z.of_nat (List.length (repeat Persons.nan_person (Z.to_nat 35558))))
    by (vm_compute; reflexivity).
  split; [exact H1|].
  split; [exact (proj1 (repair_on_short_table Sample.persons) H1)|].
  split; [exact H2|].
  exact (proj2 (repair_on_short_table _) H2).
Defined.

Lemma adjust_coordinates_length (t : list CrashesMid.crash) :
  exists n, (n <= 3)%nat /\
    List.length (CrashesMid.adjust_coordinates t) = (List.length t + n)%nat /\
    (24805 < Z.of_nat (List.length t) -> n = 0%nat).
Proof.
  unfold CrashesMid.adjust_coordinates. cbv zeta.
  assert (H0 : forall l, 0 <= l < Z.of_nat (List.length t) ->
                         In l (map fst (range_index 0 t)))
    by (intros l Hl; apply range_index_labels; lia).
  assert (L0 : List.length (map fst (range_index 0 t)) = List.length t).
  { rewrite length_map, <- (length_map snd).
    fold (values (range_index 0 t)). now rewrite values_range_index. }
  revert H0 L0. generalize (range_index 0 t). intros f0 H0 L0.
  destruct (at_set_labels CrashesMid.nan_crash 24770
              (CrashesMid.set_DEC_LAT None) f0) as (I1 & e1 & E1 & B1 & P1).
  revert I1 E1. generalize (at_set CrashesMid.nan_crash 24770
                              (CrashesMid.set_DEC_LAT None) f0).
  intros f1 I1 E1.
  destruct (at_set_labels CrashesMid.nan_crash 24770
              (CrashesMid.set_DEC_LONG None) f1) as (_ & e2 & E2 & _ & P2).
  revert E2. generalize (at_set CrashesMid.nan_crash 24770
                           (CrashesMid.set_DEC_LONG None) f1).
  intros f2 E2.
  destruct (at_set_labels CrashesMid.nan_crash 3087
              (CrashesMid.set_DEC_LAT (Some (400081 # 10000)%Q)) f2)
    as (I3 & e3 & E3 & B3 & P3).
  revert I3 E3. generalize (at_set CrashesMid.nan_crash 3087
                              (CrashesMid.set_DEC_LAT (Some (400081 # 10000)%Q)) f2).
  intros f3 I3 E3.
  destruct (at_set_labels CrashesMid.nan_crash 3087
              (CrashesMid.set_DEC_LONG (Some (-751923 # 10000)%Q)) f3)
    as (_ & e4 & E4 & _ & P4).
  revert E4. generalize (at_set CrashesMid.nan_crash 3087
                           (CrashesMid.set_DEC_LONG (Some (-751923 # 10000)%Q)) f3).
  intros f4 E4.
  destruct (at_set_labels CrashesMid.nan_crash 24805
              (CrashesMid.set_DEC_LAT (Some (403322 # 10000)%Q)) f4)
    as (I5 & e5 & E5 & B5 & P5).
  revert I5 E5. generalize (at_set CrashesMid.nan_crash 24805
                              (CrashesMid.set_DEC_LAT (Some (403322 # 10000)%Q)) f4).
  intros f5 I5 E5.
  destruct (at_set_labels CrashesMid.nan_crash 24805
              (CrashesMid.set_DEC_LONG (Some (-759278 # 10000)%Q)) f5)
    as (_ & e6 & E6 & _ & P6).
  revert E6. generalize (at_set CrashesMid.nan_crash 24805
                           (CrashesMid.set_DEC_LONG (Some (-759278 # 10000)%Q)) f5).
  intros f6 E6.
  rewrite (P2 I1), app_nil_r in E2. rewrite (P4 I3), app_nil_r in E4.
  rewrite (P6 I5), app_nil_r in E6.
  exists (List.length e1 + List.length e3 + List.length e5)%nat.
  split; [lia|]. split.
  - unfold values. rewrite length_map, <- (length_map fst).
    rewrite E6, E5, length_app, E4, E3, length_app, E2, E1, length_app, L0. lia.
  - intros Hlen.
    assert (A1 : e1 = []) by (apply P1, H0; lia).
    assert (A3 : e3 = []).
    { apply P3. rewrite E2, E1. apply in_or_app. left. apply H0. lia. }
    assert (A5 : e5 = []).
    { apply P5. rewrite E4, E3, E2, E1.
      apply in_or_app. left. apply in_or_app. left. apply H0. lia. }
    now rewrite A1, A3, A5.
Qed.

Lemma clean_length {pd : Parser} (t : list CrashesRaw.crash) :
  List.length (CrashesMid.clean t)
  = List.length (CrashesMid.adjust_coordinates (CrashesMid.recode t)).
Proof.
  rewrite <- (length_map without_coordinates (CrashesMid.clean t)).
  change (CrashesMid.clean t)
    with (record_fills (CrashesMid.fill_coordinates
                          (CrashesMid.adjust_coordinates (CrashesMid.recode t)))).
  rewrite record_fills_map, !length_map.
  rewrite <- (length_map without_coordinates), fill_coordinates_rows.
  apply length_map.
Qed.

Lemma crashes_recode_length {pd : Parser} (t : list CrashesRaw.crash) :
  List.length (CrashesMid.recode t) = List.length t.
Proof.
  rewrite (row_map_rows CrashesMid.recode (fun _ => CrashesMid.nan_crash))
    by apply crashes_recode_rows.
  apply length_map.
Qed.

(** X5.  Cleaning neither drops, nor duplicates, nor reorders a crash: the CRN
    column of the cleaned table is the raw CRN column, followed by at most
    three missing entries, the rows appended by the positional coordinate
    assignments whose labels are absent; with more than 24805 rows nothing
    is appended. *)
Theorem cleaning_keeps_crashes {pd : Parser} (t : list CrashesRaw.crash) :
  exists n, (n <= 3)%nat /\
    map CrashesMid.CRN (CrashesMid.clean t)
    = (map CrashesRaw.CRN t ++ repeat NaN n)%list /\
    (24805 < Z.of_nat (List.length t) -> n = 0%nat).
Proof.
  destruct (clean_column CrashesMid.CRN t) as [n E]; [intros []; reflexivity|].
  destruct (adjust_coordinates_length (CrashesMid.recode t)) as (m & Hm & Lm & Zm).
  assert (Hn : n = m).
  { apply (f_equal (@List.length cell)) in E.
    rewrite length_map, length_app, length_map, repeat_length in E.
    rewrite clean_length, Lm, crashes_recode_length in E. lia. }
  exists n. split; [lia|]. split.
  - rewrite E. reflexivity.
  - intros Hlen. rewrite Hn. apply Zm. now rewrite crashes_recode_length.
Qed.

Lemma cleaning_keeps_crashes_witness :
  exists n,
    24805 < Z.of_nat (List.length
                        (repeat (Sample.located 1 None) (Z.to_nat 24806))) /\
    n = 0%nat /\
    map CrashesMid.CRN
      (CrashesMid.clean (repeat (Sample.located 1 None) (Z.to_nat 24806)))
    = (map CrashesRaw.CRN (repeat (Sample.located 1 None) (Z.to_nat 24806))
       ++ repeat NaN n)%list.
Proof.
  destruct (cleaning_keeps_crashes
              (repeat (Sample.located 1 None) (Z.to_nat 24806)))
    as (n & _ & E & Z0).
  assert (H : 24805 < Z.of_nat (List.length
                                  (repeat (Sample.located 1 None)
                                     (Z.to_nat 24806))))
    by (vm_compute; reflexivity).
  exists n. split; [exact H|]. split; [exact (Z0 H) | exact E].
Defined.

(** ** The keys of the exported cyclists *)

(** X6.  Every exported cyclist has a numeric CRN and a unit number that is not
    missing; so the record that the repair appends to a short persons table,
    whose CRN is missing, is never exported. *)
Theorem exported_cyclist_keys {pd : Parser} b p c r out :
  notebook b p c r = Some out ->
  forall f, In f (cyclists_csv out) ->
  (exists crn, Cyclists.CRN (Cyclists.person (Cyclists.row f)) = Num crn) /\
  Cyclists.UNIT_NUM (Cyclists.person (Cyclists.row f)) <> NaN.
Proof.
  intros Hrun f Hf.
  destruct (cyclists_csv_In _ _ _ _ _ _ Hrun Hf)
    as (_ & c0 & pr & bk & Hu & _ & Hpr & Hbk & Hm & _ & Hp & _).
  unfold unfilled in Hu. rewrite Hp in Hu. injection Hu as H1 H2 _ _ _ _ _.
  unfold Cyclists.same_unit in Hm. apply andb_true_iff in Hm as [Hm1 Hm2].
  apply key_eqb_eq in Hm1, Hm2.
  cbn [Cyclists.select_person Cyclists.CRN Cyclists.UNIT_NUM] in *.
  split.
  - exists (Bicycles.CRN bk). rewrite H1. exact Hm1.
  - rewrite H2, Hm2. exact (proj1 (bicycles_recode_filled _ _ Hbk)).
Qed.

Lemma exported_cyclist_keys_witness :
  exists out f,
    notebook Sample.bicycles Sample.persons Sample.crashes Sample.roadway
    = Some out /\
    In f (cyclists_csv out) /\
    (exists crn, Cyclists.CRN (Cyclists.person (Cyclists.row f)) = Num crn) /\
    Cyclists.UNIT_NUM (Cyclists.person (Cyclists.row f)) <> NaN.
Proof.
  eexists. eexists. split; [vm_compute; reflexivity|].
  split; [left; reflexivity|].
  eapply (exported_cyclist_keys Sample.bicycles Sample.persons
            Sample.crashes Sample.roadway);
    [vm_compute; reflexivity | left; reflexivity].
Defined.

(** ** The fills of the cyclists table *)

Ltac cyclist_fields :=
  cbv beta iota zeta delta
    [on_row hd map assign Cyclists.fill_now
     Cyclists.set_WEATHER Cyclists.set_ROAD_CONDITION
     Cyclists.set_RESTRAINT_HELMET Cyclists.set_bike
     Cyclists.set_IMPACT_SIDE Cyclists.set_GRADE Cyclists.set_VEH_POSITION
     Cyclists.person Cyclists.bike Cyclists.crash
     Cyclists.CRN Cyclists.UNIT_NUM Cyclists.INJ_SEVERITY Cyclists.AGE
     Cyclists.SEX Cyclists.RESTRAINT_HELMET
     Cyclists.GRADE Cyclists.IMPACT_POINT Cyclists.IMPACT_SIDE
     Cyclists.RDWY_ALIGNMENT Cyclists.VEH_MOVEMENT Cyclists.VEH_POSITION
     Cyclists.VEH_ROLE Cyclists.PC_HDLGHT_IND Cyclists.PC_HLMT_IND
     Cyclists.PC_REAR_RFLTR_IND
     Cyclists.COUNTY Cyclists.MUNICIPALITY Cyclists.HOUR_OF_DAY
     Cyclists.ILLUMINATION Cyclists.ROAD_CONDITION Cyclists.WEATHER
     Cyclists.SPEED_LIMIT].

(** The two deductions between weather and road condition, on one row. *)
Lemma deduce_weather (road weather : cell) :
  let w := if cell_eqb road (Str "dry") && isna weather
           then Str "clear" else weather in
  let r := if cell_eqb w (Str "rain") && isna road then Str "wet" else road in
  (weather <> NaN -> w = weather) /\
  (road <> NaN -> r = road) /\
  (w <> weather -> road = Str "dry" /\ w = Str "clear") /\
  (r <> road -> weather = Str "rain" /\ r = Str "wet") /\
  ~ (r = Str "dry" /\ w = NaN) /\
  ~ (w = Str "rain" /\ r = NaN) /\
  (if cell_eqb r (Str "dry") && isna w then Str "clear" else w) = w /\
  (if cell_eqb w (Str "rain") && isna r then Str "wet" else r) = r.
Proof.
  cbv zeta.
  destruct road as [|x|s], weather as [|y|u]; cbn [cell_eqb isna andb];
    rewrite ?andb_false_r, ?andb_true_r;
    try destruct (String.eqb_spec s "dry") as [-> | Hs];
    try destruct (String.eqb_spec u "rain") as [-> | Hu];
    cbn [cell_eqb isna andb String.eqb Ascii.eqb Bool.eqb];
    rewrite ?andb_false_r, ?andb_true_r;
    try rewrite (proj2 (String.eqb_neq _ _) Hs);
    try rewrite (proj2 (String.eqb_neq _ _) Hu);
    repeat split; try congruence; try (intros [? ?]; congruence).
Qed.

Lemma fillna_kept (v x : cell) : x <> NaN -> fillna v x = x.
Proof. destruct x; [congruence | reflexivity | reflexivity]. Qed.

Lemma fillna_idem (v x : cell) : v <> NaN -> fillna v (fillna v x) = fillna v x.
Proof. intros Hv. destruct x; [|reflexivity|reflexivity]. now destruct v. Qed.

(** X7.  The last fills, record by record: a recorded weather, road condition,
    helmet, impact side, grade or position is kept; the only values written
    are "clear" for the weather of a dry road, "wet" for the road of a rainy
    crash, and "unknown"; every other column is as it was. *)
Theorem last_fills_keep_records (t : list Cyclists.cyclist) :
  Forall2
    (fun c c' =>
       let k := Cyclists.crash c in
       let k' := Cyclists.crash c' in
       (Cyclists.WEATHER k <> NaN -> Cyclists.WEATHER k' = Cyclists.WEATHER k) /\
       (Cyclists.ROAD_CONDITION k <> NaN ->
        Cyclists.ROAD_CONDITION k' = Cyclists.ROAD_CONDITION k) /\
       (Cyclists.WEATHER k' <> Cyclists.WEATHER k ->
        Cyclists.ROAD_CONDITION k = Str "dry" /\
        Cyclists.WEATHER k' = Str "clear") /\
       (Cyclists.ROAD_CONDITION k' <> Cyclists.ROAD_CONDITION k ->
        Cyclists.WEATHER k = Str "rain" /\
        Cyclists.ROAD_CONDITION k' = Str "wet") /\
       (forall col, In col [fun x => Cyclists.RESTRAINT_HELMET (Cyclists.person x);
                            fun x => Cyclists.IMPACT_SIDE (Cyclists.bike x);
                            fun x => Cyclists.GRADE (Cyclists.bike x);
                            fun x => Cyclists.VEH_POSITION (Cyclists.bike x)] ->
          (col c <> NaN -> col c' = col c) /\
          (col c = NaN -> col c' = Str "unknown")) /\
       (forall col, In col [fun x => Cyclists.IMPACT_POINT (Cyclists.bike x);
                            fun x => Cyclists.RDWY_ALIGNMENT (Cyclists.bike x);
                            fun x => Cyclists.VEH_MOVEMENT (Cyclists.bike x);
                            fun x => Cyclists.VEH_ROLE (Cyclists.bike x);
                            fun x => Cyclists.PC_HDLGHT_IND (Cyclists.bike x);
                            fun x => Cyclists.PC_HLMT_IND (Cyclists.bike x);
                            fun x => Cyclists.PC_REAR_RFLTR_IND (Cyclists.bike x);
                            fun x => Cyclists.SEX (Cyclists.person x);
                            fun x => Cyclists.COUNTY (Cyclists.crash x);
                            fun x => Cyclists.MUNICIPALITY (Cyclists.crash x)] ->
          col c' = col c) /\
       unfilled c' = unfilled c)
    t (Cyclists.fill_now t).
Proof.
  rewrite fill_now_map. apply Forall2_map_same. intros c _.
  destruct c as [p b k]. destruct p, b, k. unfold unfilled. cyclist_fields.
  pose proof (deduce_weather ROAD_CONDITION WEATHER) as D. cbv zeta in D.
  destruct D as (D1 & D2 & D3 & D4 & _).
  split; [exact D1|]. split; [exact D2|]. split; [exact D3|].
  split; [exact D4|]. split; [|split; [|reflexivity]].
  - intros col [<- | [<- | [<- | [<- | []]]]]; cbv beta;
      (split; [apply fillna_kept | intros ->; reflexivity]).
  - intros col H.
    repeat (destruct H as [<- | H]; [reflexivity|]). destruct H.
Qed.

Lemma fill_now_filled (t : list Cyclists.cyclist) (c : Cyclists.cyclist) :
  In c (Cyclists.fill_now t) ->
  (Cyclists.RESTRAINT_HELMET (Cyclists.person c) <> NaN /\
   Cyclists.IMPACT_SIDE (Cyclists.bike c) <> NaN /\
   Cyclists.GRADE (Cyclists.bike c) <> NaN /\
   Cyclists.VEH_POSITION (Cyclists.bike c) <> NaN) /\
  ~ (Cyclists.ROAD_CONDITION (Cyclists.crash c) = Str "dry" /\
     Cyclists.WEATHER (Cyclists.crash c) = NaN) /\
  ~ (Cyclists.WEATHER (Cyclists.crash c) = Str "rain" /\
     Cyclists.ROAD_CONDITION (Cyclists.crash c) = NaN).
Proof.
  intros Hc. rewrite fill_now_map in Hc.
  apply in_map_iff in Hc as [c0 [<- _]].
  destruct c0 as [p b k]. destruct p, b, k. cyclist_fields.
  pose proof (deduce_weather ROAD_CONDITION WEATHER) as D. cbv zeta in D.
  destruct D as (_ & _ & _ & _ & D5 & D6 & _).
  split; [|split; [exact D5 | exact D6]].
  split; [|split; [|split]]; apply fillna_not_NaN; discriminate.
Qed.

(** X8.  In the exported cyclists table the helmet, impact side, grade and
    position columns are never missing, no dry road comes with a missing
    weather, and no rain with a missing road condition. *)
Theorem exported_cyclists_filled {pd : Parser} b p c r out :
  notebook b p c r = Some out ->
  forall f, In f (cyclists_csv out) ->
  (Cyclists.RESTRAINT_HELMET (Cyclists.person (Cyclists.row f)) <> NaN /\
   Cyclists.IMPACT_SIDE (Cyclists.bike (Cyclists.row f)) <> NaN /\
   Cyclists.GRADE (Cyclists.bike (Cyclists.row f)) <> NaN /\
   Cyclists.VEH_POSITION (Cyclists.bike (Cyclists.row f)) <> NaN) /\
  ~ (Cyclists.ROAD_CONDITION (Cyclists.crash (Cyclists.row f)) = Str "dry" /\
     Cyclists.WEATHER (Cyclists.crash (Cyclists.row f)) = NaN) /\
  ~ (Cyclists.WEATHER (Cyclists.crash (Cyclists.row f)) = Str "rain" /\
     Cyclists.ROAD_CONDITION (Cyclists.crash (Cyclists.row f)) = NaN).
Proof.
  intros Hrun f Hf.
  destruct (notebook_inv _ _ _ _ _ Hrun) as (k & _ & _ & Hc).
  rewrite Hc in Hf. apply in_map_iff in Hf as [c1 [<- H1]].
  cbn [Cyclists.derive Cyclists.row].
  exact (fill_now_filled _ _ H1).
Qed.

Lemma exported_cyclists_filled_witness :
  exists out f,
    notebook Sample.bicycles Sample.persons Sample.crashes Sample.roadway
    = Some out /\
    In f (cyclists_csv out) /\
    Cyclists.RESTRAINT_HELMET (Cyclists.person (Cyclists.row f)) <> NaN /\
    Cyclists.IMPACT_SIDE (Cyclists.bike (Cyclists.row f)) <> NaN.
Proof.
  eexists. eexists. split; [vm_compute; reflexivity|].
  split; [left; reflexivity|].
  assert (H := exported_cyclists_filled Sample.bicycles Sample.persons
                 Sample.crashes Sample.roadway).
  specialize (H _ ltac:(vm_compute; reflexivity) _ ltac:(left; reflexivity)).
  destruct H as [[H1 [H2 _]] _]. split; [exact H1 | exact H2].
Defined.

(** X9.  The last cell may be run again: a second pass of the fills changes
    nothing. *)
Theorem last_fills_idempotent (t : list Cyclists.cyclist) :
  Cyclists.fill_now (Cyclists.fill_now t) = Cyclists.fill_now t.
Proof.
  rewrite (fill_now_map (Cyclists.fill_now t)), (fill_now_map t), map_map.
  apply map_ext. intros c.
  destruct c as [p b k]. destruct p, b, k. cyclist_fields.
  pose proof (deduce_weather ROAD_CONDITION WEATHER) as D. cbv zeta in D.
  destruct D as (_ & _ & _ & _ & _ & _ & D7 & D8).
  rewrite D7, D8, !fillna_idem by discriminate. reflexivity.
Qed.

(** ** The categorical columns and the vehicle counts of the crashes cell *)

Lemma crashes_more_recode_rows : row_map CrashesMore.recode.
Proof.
  unfold CrashesMore.recode, CrashesMore.presence_flags, CrashesMore.relabel.
  cbv beta zeta. row_map_chain.
Qed.

Lemma crashes_more_recode_map (t : list CrashesMore.crash) :
  CrashesMore.recode t = map (fun r => on_row CrashesMore.recode r r) t.
Proof. apply (row_map_rows _ (fun r => r)), crashes_more_recode_rows. Qed.

Ltac crash_more_fields :=
  cbv beta iota zeta delta
    [on_row hd map assign
     CrashesMore.recode CrashesMore.presence_flags CrashesMore.relabel
     CrashesMore.counts CrashesMore.flags CrashesMore.categories
     CrashesMore.set_COLLISION_TYPE CrashesMore.set_URBAN_RURAL
     CrashesMore.set_INTERSECT_TYPE CrashesMore.set_LOCATION_TYPE
     CrashesMore.set_RELATION_TO_ROAD CrashesMore.set_TCD_TYPE
     CrashesMore.set_TCD_FUNC_CD CrashesMore.set_BUS
     CrashesMore.set_HEAVY_TRUCK CrashesMore.set_SMALL_TRUCK
     CrashesMore.set_SUV CrashesMore.set_VAN
     CrashesMore.COLLISION_TYPE CrashesMore.URBAN_RURAL
     CrashesMore.INTERSECT_TYPE CrashesMore.LOCATION_TYPE
     CrashesMore.RELATION_TO_ROAD CrashesMore.TCD_TYPE
     CrashesMore.TCD_FUNC_CD CrashesMore.BUS_COUNT
     CrashesMore.HEAVY_TRUCK_COUNT CrashesMore.SMALL_TRUCK_COUNT
     CrashesMore.SUV_COUNT CrashesMore.VAN_COUNT CrashesMore.BUS
     CrashesMore.HEAVY_TRUCK CrashesMore.SMALL_TRUCK CrashesMore.SUV
     CrashesMore.VAN].

Lemma presence_cases (x : option Z) :
  (CrashesMore.presence x = Some 1 <-> exists z, x = Some z /\ 0 < z) /\
  (CrashesMore.presence x = None <-> x = None) /\
  (forall z, x = Some z -> z <= 0 -> CrashesMore.presence x = Some z).
Proof.
  destruct x as [z|]; cbn [CrashesMore.presence].
  - destruct (Z.gtb_spec z 0) as [H | H].
    + split; [|split].
      * split; [intros _; exists z; split; [reflexivity | lia] | reflexivity].
      * split; discriminate.
      * intros z' E Hz. apply Some_inj in E. lia.
    + split; [|split].
      * split; [intros E; apply Some_inj in E; lia|].
        intros [z' [E Hz]]. apply Some_inj in E. lia.
      * split; discriminate.
      * intros z' E _. exact E.
  - split; [|split].
    + split; [discriminate | intros [z [E _]]; discriminate].
    + split; reflexivity.
    + intros z E. discriminate.
Qed.

Lemma presence_idem (x : option Z) :
  CrashesMore.presence (CrashesMore.presence x) = CrashesMore.presence x.
Proof.
  destruct x as [z|]; [|reflexivity]. cbn [CrashesMore.presence].
  destruct (Z.gtb_spec z 0) as [H | H]; cbn [CrashesMore.presence].
  - reflexivity.
  - destruct (Z.gtb_spec z 0); [lia | reflexivity].
Qed.

(** X10.  The presence columns made from the vehicle counts: a presence is 1
    exactly when the count is positive, missing exactly when the count is
    missing, and a count that is zero or negative is copied as it is; the
    count columns themselves stay in the table unchanged. *)
Theorem vehicle_presence_flags (t : list CrashesMore.crash) :
  Forall2
    (fun r r' =>
       CrashesMore.counts r' = CrashesMore.counts r /\
       Forall2
         (fun count flag =>
            (flag = Some 1 <-> exists z, count = Some z /\ 0 < z) /\
            (flag = None <-> count = None) /\
            (forall z, count = Some z -> z <= 0 -> flag = Some z))
         (CrashesMore.counts r) (CrashesMore.flags r'))
    t (CrashesMore.recode t).
Proof.
  rewrite crashes_more_recode_map. apply Forall2_map_same. intros r _.
  destruct r. crash_more_fields. split; [reflexivity|].
  repeat (constructor; [apply presence_cases|]). constructor.
Qed.

(** X11.  The categorical columns recoded by dictionary alone: afterwards no cell
    equals a key of its column's dictionary, and a cell that was no key (a
    code the dictionary does not list, or a missing entry) is passed through
    unchanged. *)
Theorem crash_categories_recoded (t : list CrashesMore.crash) :
  Forall2
    (fun r r' =>
       Forall2
         (fun dc dc' =>
            fst dc' = fst dc /\
            no_key (fst dc) (snd dc') /\
            (no_key (fst dc) (snd dc) -> snd dc' = snd dc))
         (CrashesMore.categories r) (CrashesMore.categories r'))
    t (CrashesMore.recode t).
Proof.
  rewrite crashes_more_recode_map. apply Forall2_map_same. intros r _.
  destruct r. crash_more_fields.
  repeat (constructor;
          [cbn [fst snd]; split; [reflexivity|];
           split; [apply replace_no_raw_code; reflexivity
                  | apply replace_no_key]|]).
  constructor.
Qed.

(** X12.  This part of the cell may be run again on its own output: the recoded
    categories are not recoded again and the presence columns come out the
    same. *)
Theorem crash_categories_second_pass (t : list CrashesMore.crash) :
  CrashesMore.recode (CrashesMore.recode t) = CrashesMore.recode t.
Proof.
  rewrite (crashes_more_recode_map (CrashesMore.recode t)),
    (crashes_more_recode_map t), map_map.
  apply map_ext. intros r. destruct r. crash_more_fields.
  rewrite !replace_idem by reflexivity. reflexivity.
Qed.

(** ** The exported hour of day *)

Lemma clock_time_hour (z : Z) :
  clock_time z = true -> z <> 9999 -> 0 <= z / 100 <= 23.
Proof.
  unfold clock_time. intros H Hz.
  apply orb_true_iff in H as [H | H]; [|apply Z.eqb_eq in H; contradiction].
  apply andb_true_iff in H as [H1 H2].
  apply Z.leb_le in H1. apply Z.ltb_lt in H2.
  Z.to_euclidean_division_equations. lia.
Qed.

Lemma replace_sentinel (s : Z) (x : option Z) :
  (replace_num [(s, None)] x = None <-> x = None \/ x = Some s) /\
  (forall z, replace_num [(s, None)] x = Some z -> x = Some z /\ z <> s).
Proof.
  destruct x as [z|]; cbn [replace_num].
  - destruct (Z.eqb_spec s z) as [<- | H].
    + split; [split; [intros _; now right | reflexivity] | discriminate].
    + split.
      * split; [discriminate|]. intros [E | E]; [discriminate|].
        apply Some_inj in E. congruence.
      * intros z' E. apply Some_inj in E. subst z'. split; [reflexivity|].
        congruence.
  - split; [split; [intros _; now left | reflexivity] | discriminate].
Qed.

Lemma coerced_time_cases {pd : Parser} (c : cell) :
  (CrashesMid.number (replace [(Num 9999, NaN)] (to_numeric c)) = None <->
   CrashesMid.number (to_numeric c) = None \/
   CrashesMid.number (to_numeric c) = Some 9999) /\
  (forall z, CrashesMid.number (replace [(Num 9999, NaN)] (to_numeric c)) = Some z ->
             CrashesMid.number (to_numeric c) = Some z /\ z <> 9999).
Proof.
  destruct (to_numeric_cases c) as [-> | [z ->]];
    cbn [replace cell_eqb CrashesMid.number].
  - split; [split; [intros _; now left | reflexivity] | discriminate].
  - destruct (Z.eqb_spec 9999 z) as [<- | H]; cbn [CrashesMid.number].
    + split; [split; [intros _; now right | reflexivity] | discriminate].
    + split.
      * split; [discriminate|]. intros [E | E]; [discriminate|].
        apply Some_inj in E. congruence.
      * intros z' E. apply Some_inj in E. subst z'. split; [reflexivity|].
        congruence.
Qed.

Lemma hour_rule_recorded {pd : Parser} (x : CrashesRaw.crash) :
  (forall v, CrashesRaw.HOUR_OF_DAY x = Some v -> v <> 99 -> v <> 24 ->
             hour_rule x = Some v) /\
  (CrashesRaw.HOUR_OF_DAY x = Some 24 -> hour_rule x = Some 0).
Proof.
  unfold hour_rule. cbv zeta. split.
  - intros v -> H1 H2. cbn [replace_num].
    destruct (Z.eqb_spec 99 v); [congruence|].
    destruct (Z.eqb_spec 24 v); [congruence|]. reflexivity.
  - intros ->. reflexivity.
Qed.

Lemma hour_rule_missing {pd : Parser} (x : CrashesRaw.crash) :
  hour_rule x = None <->
  (CrashesRaw.HOUR_OF_DAY x = None \/ CrashesRaw.HOUR_OF_DAY x = Some 99) /\
  (CrashesMid.number (to_numeric (CrashesRaw.TIME_OF_DAY x)) = None \/
   CrashesMid.number (to_numeric (CrashesRaw.TIME_OF_DAY x)) = Some 9999) /\
  (CrashesRaw.DISPATCH_TM x = None \/ CrashesRaw.DISPATCH_TM x = Some 9999) /\
  (CrashesRaw.ARRIVAL_TM x = None \/ CrashesRaw.ARRIVAL_TM x = Some 9999).
Proof.
  unfold hour_rule. cbv zeta.
  destruct (coerced_time_cases (CrashesRaw.TIME_OF_DAY x)) as [T _].
  destruct (replace_sentinel 9999 (CrashesRaw.DISPATCH_TM x)) as [D _].
  destruct (replace_sentinel 9999 (CrashesRaw.ARRIVAL_TM x)) as [A _].
  rewrite <- T, <- D, <- A.
  assert (H : replace_num [(99, None); (24, Some 0)] (CrashesRaw.HOUR_OF_DAY x)
              = None <->
              CrashesRaw.HOUR_OF_DAY x = None \/
              CrashesRaw.HOUR_OF_DAY x = Some 99).
  { destruct (CrashesRaw.HOUR_OF_DAY x) as [v|]; cbn [replace_num].
    - destruct (Z.eqb_spec 99 v) as [<- | H99].
      + split; [intros _; now right | reflexivity].
      + destruct (Z.eqb_spec 24 v); split; try discriminate;
          (intros [E | E]; [discriminate | apply Some_inj in E; congruence]).
    - split; [intros _; now left | reflexivity]. }
  rewrite <- H.
  destruct (replace_num [(99, None); (24, Some 0)] (CrashesRaw.HOUR_OF_DAY x));
    [split; [discriminate | intros [E _]; discriminate]|].
  destruct (CrashesMid.number
              (replace [(Num 9999, NaN)] (to_numeric (CrashesRaw.TIME_OF_DAY x))));
    [split; [discriminate | intros [_ [E _]]; discriminate]|].
  destruct (replace_num [(9999, None)] (CrashesRaw.DISPATCH_TM x));
    [split; [discriminate | intros [_ [_ [E _]]]; discriminate]|].
  destruct (replace_num [(9999, None)] (CrashesRaw.ARRIVAL_TM x));
    cbn [option_map];
    [split; [discriminate | intros [_ [_ [_ E]]]; discriminate]|].
  split; [intros _|reflexivity].
  split; [reflexivity|]. split; [reflexivity|]. split; reflexivity.
Qed.

Lemma hour_rule_in_day {pd : Parser} (x : CrashesRaw.crash) (v : Z) :
  plausible_times x = true -> hour_rule x = Some v -> 0 <= v <= 23.
Proof.
  unfold plausible_times, hour_rule. cbv zeta. intros P.
  apply andb_true_iff in P as [P PA]. apply andb_true_iff in P as [P PD].
  apply andb_true_iff in P as [PH PT].
  destruct (coerced_time_cases (CrashesRaw.TIME_OF_DAY x)) as [_ T].
  destruct (replace_sentinel 9999 (CrashesRaw.DISPATCH_TM x)) as [_ D].
  destruct (replace_sentinel 9999 (CrashesRaw.ARRIVAL_TM x)) as [_ A].
  revert T D A PT PD PA.
  generalize (CrashesMid.number
                (replace [(Num 9999, NaN)]
                   (to_numeric (CrashesRaw.TIME_OF_DAY x)))).
  generalize (CrashesMid.number (to_numeric (CrashesRaw.TIME_OF_DAY x))).
  generalize (replace_num [(9999, None)] (CrashesRaw.DISPATCH_TM x)).
  generalize (CrashesRaw.DISPATCH_TM x).
  generalize (replace_num [(9999, None)] (CrashesRaw.ARRIVAL_TM x)).
  generalize (CrashesRaw.ARRIVAL_TM x).
  intros a a' d d' t t' T D A PT PD PA.
  assert (F : match t' with
              | Some z => Some (z / 100)
              | None => match d' with
                        | Some z => Some (z / 100)
                        | None => option_map (fun z => z / 100) a'
                        end
              end = Some v -> 0 <= v <= 23).
  { intros E. destruct t' as [z|].
    - apply Some_inj in E. subst v. destruct (T z eq_refl) as [-> Hz].
      now apply clock_time_hour.
    - destruct d' as [z|].
      + apply Some_inj in E. subst v. destruct (D z eq_refl) as [-> Hz].
        now apply clock_time_hour.
      + destruct a' as [z|]; [|discriminate]. cbn [option_map] in E.
        apply Some_inj in E. subst v. destruct (A z eq_refl) as [-> Hz].
        now apply clock_time_hour. }
  destruct (CrashesRaw.HOUR_OF_DAY x) as [h|]; cbn [replace_num]; [|exact F].
  destruct (Z.eqb_spec 99 h) as [<- | H99]; [exact F|].
  destruct (Z.eqb_spec 24 h) as [<- | H24]; intros E;
    apply Some_inj in E; subst v; [lia|].
  apply orb_true_iff in PH as [PH | PH].
  - apply andb_true_iff in PH as [P1 P2].
    apply Z.leb_le in P1. apply Z.leb_le in P2. lia.
  - apply Z.eqb_eq in PH. congruence.
Qed.

Lemma hour_rule_time {pd : Parser} (x : CrashesRaw.crash) (z : Z) :
  CrashesRaw.HOUR_OF_DAY x = None \/ CrashesRaw.HOUR_OF_DAY x = Some 99 ->
  CrashesMid.number (to_numeric (CrashesRaw.TIME_OF_DAY x)) = Some z ->
  z <> 9999 -> hour_rule x = Some (z / 100).
Proof.
  intros Hh Ht Hz. unfold hour_rule. cbv zeta.
  assert (E : replace_num [(99, None); (24, Some 0)] (CrashesRaw.HOUR_OF_DAY x)
              = None) by (destruct Hh as [-> | ->]; reflexivity).
  rewrite E.
  destruct (to_numeric (CrashesRaw.TIME_OF_DAY x)) as [|y|s];
    cbn [CrashesMid.number] in Ht; try discriminate.
  apply Some_inj in Ht. subst y. cbn [replace cell_eqb].
  destruct (Z.eqb_spec 9999 z); [congruence | reflexivity].
Qed.

Lemma nth_error_map_app {A B C : Type} (f : A -> C) (g : B -> C)
  (l : list A) (m : list B) (e : list C) (i : nat) (a : A) (b : B) :
  map f l = (map g m ++ e)%list ->
  nth_error l i = Some a -> nth_error m i = Some b -> f a = g b.
Proof.
  intros E Ha Hb. apply (map_nth_error f) in Ha. rewrite E in Ha.
  rewrite nth_error_app1 in Ha
    by (rewrite length_map; apply nth_error_Some; congruence).
  rewrite (map_nth_error g _ _ Hb) in Ha. now apply Some_inj in Ha.
Qed.

(** X13.  The exported hour of the crash at a given position: an hour
    recorded as 0 to 23 is exported as it is, and a recorded 24 as 0,
    whatever the time columns say; the exported hour is missing exactly when
    the hour, the coerced time of day, the dispatch time and the arrival
    time are all missing or their sentinel; without a recorded hour, a time
    of day that the coercion reads as a number gives its hundreds; and when
    the raw record holds clock times below 2400 only (the time of day as the
    coercion reads it), the exported hour lies between 0 and 23. *)
Theorem exported_hour_of_day {pd : Parser}
  b p c r out (i : nat) (x : CrashesRaw.crash)
  (k : Crashes.crash_sl) :
  notebook b p c r = Some out ->
  nth_error c i = Some x -> nth_error (crashes_csv out) i = Some k ->
  (forall v, CrashesRaw.HOUR_OF_DAY x = Some v -> v <> 99 -> v <> 24 ->
             Crashes.HOUR_OF_DAY (Crashes.base k) = Some v) /\
  (CrashesRaw.HOUR_OF_DAY x = Some 24 ->
   Crashes.HOUR_OF_DAY (Crashes.base k) = Some 0) /\
  (Crashes.HOUR_OF_DAY (Crashes.base k) = None <->
   (CrashesRaw.HOUR_OF_DAY x = None \/ CrashesRaw.HOUR_OF_DAY x = Some 99) /\
   (CrashesMid.number (to_numeric (CrashesRaw.TIME_OF_DAY x)) = None \/
    CrashesMid.number (to_numeric (CrashesRaw.TIME_OF_DAY x)) = Some 9999) /\
   (CrashesRaw.DISPATCH_TM x = None \/ CrashesRaw.DISPATCH_TM x = Some 9999) /\
   (CrashesRaw.ARRIVAL_TM x = None \/ CrashesRaw.ARRIVAL_TM x = Some 9999)) /\
  (CrashesRaw.HOUR_OF_DAY x = None \/ CrashesRaw.HOUR_OF_DAY x = Some 99 ->
   forall z, CrashesMid.number (to_numeric (CrashesRaw.TIME_OF_DAY x)) = Some z ->
             z <> 9999 ->
             Crashes.HOUR_OF_DAY (Crashes.base k) = Some (z / 100)) /\
  (plausible_times x = true ->
   forall v, Crashes.HOUR_OF_DAY (Crashes.base k) = Some v -> 0 <= v <= 23).
Proof.
  intros Hrun Hx Hk.
  destruct (crashes_csv_HOUR_OF_DAY b p c r out Hrun) as [n E].
  rewrite (nth_error_map_app _ _ _ _ _ i k x E Hk Hx).
  split; [exact (proj1 (hour_rule_recorded x))|].
  split; [exact (proj2 (hour_rule_recorded x))|].
  split; [exact (hour_rule_missing x)|].
  split; [intros Hh z; exact (hour_rule_time x z Hh)|].
  intros P v. exact (hour_rule_in_day x v P).
Qed.

Lemma exported_hour_of_day_witness :
  exists out x k,
    notebook Sample.bicycles Sample.persons Sample.crashes Sample.roadway
    = Some out /\
    nth_error Sample.crashes 0 = Some x /\
    nth_error (crashes_csv out) 0 = Some k /\
    plausible_times x = true /\
    forall v, Crashes.HOUR_OF_DAY (Crashes.base k) = Some v -> 0 <= v <= 23.
Proof.
  eexists. eexists. eexists.
  split; [vm_compute; reflexivity|].
  split; [vm_compute; reflexivity|].
  split; [vm_compute; reflexivity|].
  split; [vm_compute; reflexivity|].
  refine (proj2 (proj2 (proj2 (proj2
            (exported_hour_of_day Sample.bicycles Sample.persons Sample.crashes
               Sample.roadway _ 0%nat _ _ _ _ _)))) _);
    vm_compute; reflexivity.
Defined.

(** ** The county mode of the speed limits *)

(** X14.  The county mode is the smallest of the most frequent recorded limits:
    it is one of the values, no value occurs more often, and every value
    that occurs as often is at least as large.  There is no mode exactly
    when the county has no recorded limit. *)
Theorem mode_is_smallest_most_frequent (vs : list Z) :
  (Roadway.mode0 vs = None <-> vs = []) /\
  (forall m, Roadway.mode0 vs = Some m ->
     In m vs /\
     forall v, In v vs ->
       (Roadway.count v vs <= Roadway.count m vs)%nat /\
       (Roadway.count v vs = Roadway.count m vs -> m <= v)).
Proof.
  destruct vs as [|v vs']; cbn [Roadway.mode0].
  - split; [split; reflexivity | discriminate].
  - split; [split; discriminate|]. intros m E. apply Some_inj in E. subst m.
    exact (fold_best (fun x => Roadway.count x (v :: vs'))
             (Roadway.preferred (v :: vs')) (preferred_spec (v :: vs')) vs' v).
Qed.

(** ** When the run stops *)

Lemma sequence_None {A : Type} (l : list (option A)) :
  Roadway.sequence l = None <-> In None l.
Proof.
  induction l as [|[x|] l IH]; cbn [Roadway.sequence In].
  - split; [discriminate | intros []].
  - destruct (Roadway.sequence l); cbn [option_map].
    + split; [discriminate|]. intros [E | E]; [discriminate|].
      apply IH in E. discriminate.
    + split; [intros _; right; now apply IH | reflexivity].
  - split; [intros _; now left | reflexivity].
Qed.

Lemma has_group_true (t : list Roadway.segment) :
  Roadway.has_group t = true <->
  exists s county, In s t /\ Roadway.RDWY_COUNTY s = Some county.
Proof.
  unfold Roadway.has_group. rewrite existsb_exists. split.
  - intros [s [Hs E]]. destruct (Roadway.RDWY_COUNTY s) as [county|] eqn:Ec;
      [|discriminate]. exists s, county. split; [exact Hs | exact Ec].
  - intros (s & county & Hs & E). exists s. rewrite E. split; [exact Hs | reflexivity].
Qed.

Lemma fill_row_None (t : list Roadway.segment) (s : Roadway.segment) :
  Roadway.fill_row t s = None <->
  exists county, Roadway.RDWY_COUNTY s = Some county /\
                 Roadway.county_values county t = [].
Proof.
  unfold Roadway.fill_row. destruct (Roadway.RDWY_COUNTY s) as [county|].
  - destruct (Roadway.county_values county t) as [|v vs] eqn:E.
    + cbn [Roadway.mode0]. split; [intros _; exists county; now split | reflexivity].
    + cbn [Roadway.mode0]. split; [discriminate|].
      intros (c' & Ec & Ev). apply Some_inj in Ec. subst c'. congruence.
  - split; [discriminate | intros (c' & Ec & _); discriminate].
Qed.

(** X15.  A county of the roadway table none of whose segments has a recorded
    speed limit stops the run, whatever the other tables are; and a run that
    stops on a roadway table in which some county is recorded has such a
    county. *)
Theorem county_without_limit_stops_run {pd : Parser} b p c r :
  ((exists s county, In s r /\ Roadway.RDWY_COUNTY s = Some county /\
                     Roadway.county_values county r = []) ->
   notebook b p c r = None) /\
  (notebook b p c r = None ->
   (exists s county, In s r /\ Roadway.RDWY_COUNTY s = Some county) ->
   exists s county, In s r /\ Roadway.RDWY_COUNTY s = Some county /\
                    Roadway.county_values county r = []).
Proof.
  rewrite notebook_runs. unfold Roadway.fill_speed_limit. split.
  - intros (s & county & Hs & Ec & Ev).
    rewrite (proj2 (has_group_true r)) by (exists s, county; now split).
    assert (E : Roadway.sequence (map (Roadway.fill_row r) r) = None).
    { apply sequence_None, in_map_iff. exists s. split; [|exact Hs].
      apply fill_row_None. exists county. now split. }
    rewrite E. reflexivity.
  - intros H G. rewrite (proj2 (has_group_true r) G) in H.
    destruct (Roadway.sequence (map (Roadway.fill_row r) r)) eqn:E;
      [discriminate|].
    apply sequence_None, in_map_iff in E as [s [E Hs]].
    apply fill_row_None in E as (county & Ec & Ev).
    exists s, county. split; [exact Hs|]. split; [exact Ec | exact Ev].
Qed.

Lemma county_without_limit_stops_run_witness :
  (exists s county,
     In s [Sample.road 1 (Some 67) (Some 25); Sample.road 2 (Some 9) None] /\
     Roadway.RDWY_COUNTY s = Some county /\
     Roadway.county_values county
       [Sample.road 1 (Some 67) (Some 25); Sample.road 2 (Some 9) None] = []) /\
  notebook Sample.bicycles Sample.persons Sample.crashes
    [Sample.road 1 (Some 67) (Some 25); Sample.road 2 (Some 9) None] = None.
Proof.
  assert (H : exists s county,
     In s [Sample.road 1 (Some 67) (Some 25); Sample.road 2 (Some 9) None] /\
     Roadway.RDWY_COUNTY s = Some county /\
     Roadway.county_values county
       [Sample.road 1 (Some 67) (Some 25); Sample.road 2 (Some 9) None] = []).
  { exists (Sample.road 2 (Some 9) None), 9.
    split; [right; left; reflexivity|]. split; reflexivity. }
  split; [exact H|].
  exact (proj1 (county_without_limit_stops_run Sample.bicycles Sample.persons
                  Sample.crashes _) H).
Defined.

(** ** The aggregate of the roadway table *)

(** X16.  The aggregate by CRN has one row for every CRN of the roadway table and
    no other, in increasing order of CRN.  Missing speed limits are skipped:
    the limit of a row is missing only when every segment of the crash lacks
    one, and otherwise it is the least recorded limit of its segments. *)
Theorem aggregate_by_crn (t : list Roadway.segment) :
  StronglySorted Z.lt (map fst (Roadway.groupby_CRN_min t)) /\
  (forall k, In k (map fst (Roadway.groupby_CRN_min t)) <->
             exists s, In s t /\ Roadway.CRN s = k) /\
  (forall k v, In (k, v) (Roadway.groupby_CRN_min t) ->
     (v = None <->
      forall s, In s t -> Roadway.CRN s = k -> Roadway.SPEED_LIMIT s = None) /\
     (forall m, v = Some m ->
        (exists s, In s t /\ Roadway.CRN s = k /\
                   Roadway.SPEED_LIMIT s = Some m) /\
        (forall s m', In s t -> Roadway.CRN s = k ->
                      Roadway.SPEED_LIMIT s = Some m' -> m <= m'))).
Proof.
  rewrite groupby_keys. split; [apply crn_keys_sorted|].
  split; [apply crn_keys_In|].
  intros k v H. unfold Roadway.groupby_CRN_min in H.
  apply in_map_iff in H as [k' [E _]].
  assert (Ek : k' = k) by congruence. subst k'.
  assert (Ev : v = Roadway.min_of (Roadway.speed_limits_of k t)) by congruence.
  clear E. subst v. split.
  - rewrite min_of_None. split.
    + intros E s Hs Hk. destruct (Roadway.SPEED_LIMIT s) as [x|] eqn:Ex;
        [|reflexivity].
      assert (Hin : In x (Roadway.speed_limits_of k t))
        by (apply speed_limits_of_In; exists s; now split).
      rewrite E in Hin. destruct Hin.
    + intros H. destruct (Roadway.speed_limits_of k t) as [|x l] eqn:E;
        [reflexivity|].
      assert (Hin : In x (Roadway.speed_limits_of k t))
        by (rewrite E; now left).
      apply speed_limits_of_In in Hin as (s & Hs & Hk & Hx).
      rewrite (H s Hs Hk) in Hx. discriminate.
  - intros m Hm. apply min_of_spec in Hm as [Hin Hle]. split.
    + apply speed_limits_of_In. exact Hin.
    + intros s m' Hs Hk Hv. apply Hle. apply speed_limits_of_In.
      exists s. now split.
Qed.

(** ** How many rows the two joins make *)

Section MergeCount.
Context {L R O : Type}.
Variable matches : L -> R -> bool.
Variable join : L -> option R -> O.

Lemma merge_row_length (l : L) (right : list R) :
  List.length (merge_row matches join l right)
  = Nat.max 1 (List.length (filter (matches l) right)).
Proof.
  unfold merge_row. destruct (filter (matches l) right) as [|m ms];
    [reflexivity|].
  rewrite length_map. cbn [List.length]. lia.
Qed.

Lemma merge_left_length (left : list L) (right : list R) :
  List.length (merge_left matches join left right)
  = list_sum (map (fun l => Nat.max 1 (List.length (filter (matches l) right)))
                left).
Proof.
  unfold merge_left. induction left as [|l left IH]; [reflexivity|].
  cbn [flat_map map list_sum]. rewrite length_app, IH.
  fold (merge_row matches join l right). now rewrite merge_row_length.
Qed.

Lemma merge_left_filter_length (keep : O -> bool) (known : R -> bool)
  (left : list L) (right : list R) :
  (forall l, keep (join l None) = false) ->
  (forall l r, keep (join l (Some r)) = known r) ->
  List.length (filter keep (merge_left matches join left right))
  = list_sum (map (fun l => List.length
                              (filter (fun r => matches l r && known r) right))
                left).
Proof.
  intros Hn Hs.
  assert (Row : forall l,
             List.length (filter keep (merge_row matches join l right))
             = List.length (filter (fun r => matches l r && known r) right)).
  { intros l.
    assert (E : List.length (filter (fun r => matches l r && known r) right)
                = List.length (filter known (filter (matches l) right))).
    { clear. induction right as [|r right IH]; [reflexivity|].
      cbn [filter]. destruct (matches l r); cbn [andb filter];
        [destruct (known r); cbn [List.length]; now rewrite IH | exact IH]. }
    rewrite E. unfold merge_row.
    destruct (filter (matches l) right) as [|m ms].
    - cbn [filter]. now rewrite Hn.
    - generalize (m :: ms). intros q. induction q as [|r q IHq]; [reflexivity|].
      cbn [map filter]. rewrite Hs. destruct (known r); cbn [List.length];
        now rewrite IHq. }
  unfold merge_left. induction left as [|l left IH]; [reflexivity|].
  cbn [flat_map map list_sum]. rewrite filter_app, length_app, IH.
  now rewrite Row.
Qed.
End MergeCount.

Lemma list_sum_ones {A : Type} (f : A -> nat) (l : list A) :
  (forall a, In a l -> f a = 1%nat) -> list_sum (map f l) = List.length l.
Proof.
  induction l as [|a l IH]; intros H; [reflexivity|].
  cbn [map List.length].
  change (list_sum (f a :: map f l)) with (f a + list_sum (map f l))%nat.
  rewrite (H a (or_introl eq_refl)).
  rewrite IH by (intros; apply H; now right). reflexivity.
Qed.

Lemma list_sum_least {A : Type} (f : A -> nat) (l : list A) :
  (forall a, In a l -> (1 <= f a)%nat) ->
  (List.length l <= list_sum (map f l))%nat.
Proof.
  induction l as [|a l IH]; intros H; [reflexivity|].
  cbn [map List.length].
  change (list_sum (f a :: map f l)) with (f a + list_sum (map f l))%nat.
  specialize (H a (or_introl eq_refl)) as Ha.
  specialize (IH (fun x Hx => H x (or_intror Hx))). lia.
Qed.

Lemma filter_length_map {A B : Type} (f : A -> B) (q : B -> bool) (l : list A) :
  List.length (filter (fun a => q (f a)) l) = List.length (filter q (map f l)).
Proof.
  induction l as [|a l IH]; [reflexivity|]. cbn [map filter].
  destruct (q (f a)); cbn [List.length]; now rewrite IH.
Qed.

Lemma filter_repeat_none {A : Type} (q : A -> bool) (a : A) (n : nat) :
  q a = false -> filter q (repeat a n) = [].
Proof.
  intros H. induction n as [|n IH]; [reflexivity|].
  cbn [repeat filter]. now rewrite H.
Qed.

Lemma clean_CRN {pd : Parser} (t : list CrashesRaw.crash) :
  exists n, map CrashesMid.CRN (CrashesMid.clean t)
            = (map CrashesRaw.CRN t ++ repeat NaN n)%list.
Proof.
  destruct (clean_column CrashesMid.CRN t) as [n E]; [intros []; reflexivity|].
  exists n. rewrite E. reflexivity.
Qed.

(** The crashes of the exported table that carry a given CRN number are as
    many as in the raw table. *)
Lemma crashes_csv_matches {pd : Parser} b p c r out (crn : Z) :
  notebook b p c r = Some out ->
  List.length (filter (fun k => key_eqb (Num crn) (Crashes.CRN (Crashes.base k)))
                 (crashes_csv out))
  = List.length (filter (fun x => key_eqb (Num crn) (CrashesRaw.CRN x)) c).
Proof.
  intros Hrun.
  rewrite (filter_length_map (fun k => Crashes.CRN (Crashes.base k))
             (key_eqb (Num crn))).
  rewrite (crashes_csv_column CrashesMid.CRN Crashes.CRN b p c r out)
    by (try (intros []; reflexivity); exact Hrun).
  destruct (clean_CRN c) as [n ->].
  rewrite filter_app, filter_repeat_none, app_nil_r by reflexivity.
  symmetry. apply (filter_length_map CrashesRaw.CRN (key_eqb (Num crn))).
Qed.

Lemma isolate_CRN (persons : list Persons.person)
  (bicycles : list Bicycles.bicycle) (c : Cyclists.person_bike) :
  In c (Cyclists.isolate persons bicycles) ->
  exists crn, Cyclists.CRN (Cyclists.pb_person c) = Num crn.
Proof.
  intros H. apply isolate_In in H as (q & bk & _ & _ & Hm & _ & ->).
  unfold Cyclists.same_unit in Hm. apply andb_true_iff in Hm as [Hm _].
  apply key_eqb_eq in Hm. exists (Bicycles.CRN bk). exact Hm.
Qed.

(** X17.  The rows of the exported cyclists table are counted by the two joins.
    The cyclists isolated from the persons are the pairs of a person and a
    bicycle record of the same crash and unit whose vehicle type is known; a
    person without such a record is dropped, and one with several is
    repeated.  Joining the crashes drops no cyclist; when no CRN number is
    carried by two raw crashes it repeats none either, and the export has one
    row per isolated cyclist. *)
Theorem rows_of_the_joins {pd : Parser} b p c r out :
  notebook b p c r = Some out ->
  let cyclists := Cyclists.isolate (Persons.recode p) (Bicycles.recode b) in
  List.length cyclists
  = list_sum
      (map (fun q =>
              List.length
                (filter (fun bk =>
                           Cyclists.same_unit (Cyclists.select_person q) bk
                           && notnull (Bicycles.VEH_TYPE bk))
                   (Bicycles.recode b)))
         (Persons.recode p)) /\
  (List.length cyclists <= List.length (cyclists_csv out))%nat /\
  ((forall crn,
      (List.length (filter (fun x => key_eqb (Num crn) (CrashesRaw.CRN x)) c)
       <= 1)%nat) ->
   List.length (cyclists_csv out) = List.length cyclists).
Proof.
  intros Hrun. cbv zeta.
  destruct (notebook_inv _ _ _ _ _ Hrun) as (k & _ & Hk & Hc).
  assert (Hlen : List.length (cyclists_csv out)
                 = list_sum
                     (map (fun l => Nat.max 1
                                      (List.length
                                         (filter (Cyclists.same_crash l)
                                            (crashes_csv out))))
                        (Cyclists.isolate (Persons.recode p) (Bicycles.recode b)))).
  { rewrite Hc, length_map, fill_now_map, length_map.
    unfold Cyclists.merge_crashes. rewrite merge_left_length, Hk. reflexivity. }
  split; [|split].
  - unfold Cyclists.isolate. cbv zeta.
    rewrite (merge_left_filter_length Cyclists.same_unit Cyclists.join_bike
               (fun x => notnull (Cyclists.VEH_TYPE x))
               (fun bk => notnull (Bicycles.VEH_TYPE bk)))
      by (intros; reflexivity).
    rewrite map_map. reflexivity.
  - rewrite Hlen. apply list_sum_least. intros a _. lia.
  - intros Hu. rewrite Hlen. apply list_sum_ones. intros a Ha.
    destruct (isolate_CRN _ _ _ Ha) as [crn E].
    unfold Cyclists.same_crash. rewrite E.
    rewrite (crashes_csv_matches b p c r out crn Hrun).
    specialize (Hu crn). lia.
Qed.

Lemma rows_of_the_joins_witness :
  exists out,
    notebook Sample.bicycles Sample.persons Sample.crashes Sample.roadway
    = Some out /\
    (forall crn,
       (List.length (filter (fun x => key_eqb (Num crn) (CrashesRaw.CRN x))
                       Sample.crashes) <= 1)%nat) /\
    List.length (cyclists_csv out)
    = List.length (Cyclists.isolate (Persons.recode Sample.persons)
                     (Bicycles.recode Sample.bicycles)).
Proof.
  assert (Hrun : exists out,
             notebook Sample.bicycles Sample.persons Sample.crashes
               Sample.roadway = Some out)
    by (eexists; vm_compute; reflexivity).
  destruct Hrun as [out Hrun].
  assert (Hu : forall crn,
             (List.length (filter (fun x => key_eqb (Num crn) (CrashesRaw.CRN x))
                             Sample.crashes) <= 1)%nat).
  { intros crn. unfold Sample.crashes, Sample.collision.
    cbn [filter key_eqb cell_eqb CrashesRaw.CRN].
    destruct (Z.eqb_spec crn 1) as [-> | H1]; cbn [List.length filter].
    - cbn. lia.
    - destruct (crn =? 2); cbn [List.length]; lia. }
  exists out. split; [exact Hrun|]. split; [exact Hu|].
  exact (proj2 (proj2 (rows_of_the_joins Sample.bicycles Sample.persons
                         Sample.crashes Sample.roadway out Hrun)) Hu).
Defined.

(** ** The coordinate fill *)

(** X18.  The fill of the coordinates by the mean of the municipality and then of
    the county, for the latitude and the longitude alike.  A recorded
    coordinate of a record with a municipality and a county is kept.  A
    record without a county loses its coordinate, recorded or not.  A record
    with a county gets a coordinate as soon as some record of that county
    with a municipality has one.  No other column changes. *)
Theorem coordinates_filled_by_area (t : list CrashesMid.crash) :
  Forall2
    (fun r r' =>
       without_coordinates r' = without_coordinates r /\
       forall coord, In coord [CrashesMid.DEC_LAT; CrashesMid.DEC_LONG] ->
         (CrashesMid.MUNICIPALITY r <> NaN -> CrashesMid.COUNTY r <> NaN ->
          forall q, coord r = Some q -> coord r' = Some q) /\
         (CrashesMid.COUNTY r = NaN -> coord r' = None) /\
         (CrashesMid.COUNTY r <> NaN ->
          (exists x, In x t /\
             cell_eqb (CrashesMid.COUNTY x) (CrashesMid.COUNTY r) = true /\
             CrashesMid.MUNICIPALITY x <> NaN /\ coord x <> None) ->
          coord r' <> None))
    t (CrashesMid.fill_coordinates t).
Proof.
  unfold CrashesMid.fill_coordinates. cbv zeta.
  pose proof (two_fills CrashesMid.set_DEC_LAT CrashesMid.DEC_LAT
                (fun v r => eq_refl) (fun v r => eq_refl) t)
    as Lat.
  revert Lat.
  generalize (assign CrashesMid.set_DEC_LAT
       (CrashesMid.fill_mean CrashesMid.COUNTY CrashesMid.DEC_LAT
          (assign CrashesMid.set_DEC_LAT
             (CrashesMid.fill_mean CrashesMid.MUNICIPALITY CrashesMid.DEC_LAT t) t))
       (assign CrashesMid.set_DEC_LAT
          (CrashesMid.fill_mean CrashesMid.MUNICIPALITY CrashesMid.DEC_LAT t) t)).
  intros t2 Lat.
  pose proof (two_fills CrashesMid.set_DEC_LONG CrashesMid.DEC_LONG
                (fun v r => eq_refl) (fun v r => eq_refl) t2)
    as Long.
  pose proof (Forall2_compose _ _ _ _ _ Lat Long) as H.
  refine (Forall2_impl _ _ H). clear H Long.
  intros r r' (r2 & ((a1 & a2 & E2) & K1 & L1 & F1)
                  & ((b1 & b2 & E') & K2 & L2 & F2)).
  assert (C2 : CrashesMid.COUNTY r2 = CrashesMid.COUNTY r)
    by (rewrite E2; reflexivity).
  assert (M2 : CrashesMid.MUNICIPALITY r2 = CrashesMid.MUNICIPALITY r)
    by (rewrite E2; reflexivity).
  assert (G2 : CrashesMid.DEC_LONG r2 = CrashesMid.DEC_LONG r)
    by (rewrite E2; reflexivity).
  assert (A' : CrashesMid.DEC_LAT r' = CrashesMid.DEC_LAT r2)
    by (rewrite E'; reflexivity).
  split; [rewrite E', E2; reflexivity|].
  intros coord [<- | [<- | []]].
  - rewrite A'. split; [exact K1|]. split; [exact L1 | exact F1].
  - rewrite C2, M2, G2 in *. split; [exact K2|]. split; [exact L2|].
    intros Hc (x & Hx & Hk & Hm & Hq). apply (F2 Hc).
    destruct (Forall2_In_l _ _ _ x Lat Hx) as (x2 & Hx2 & (c1 & c2 & Ex) & _).
    exists x2. split; [exact Hx2|]. rewrite Ex. split; [exact Hk|].
    split; [exact Hm | exact Hq].
Qed.

(** ** The consolidated weather and the labels of the exported crashes *)

Lemma cell_eqb_refl (a : cell) : a <> NaN -> cell_eqb a a = true.
Proof.
  destruct a; cbn [cell_eqb]; [congruence | intros _; apply Z.eqb_refl
                              | intros _; apply String.eqb_refl].
Qed.

Lemma cell_eqb_true (a b : cell) : cell_eqb a b = true <-> a = b /\ a <> NaN.
Proof.
  split.
  - intros H. pose proof (cell_eqb_eq a b H) as E. split; [exact E|].
    intros ->. discriminate.
  - intros [<- H]. now apply cell_eqb_refl.
Qed.

Lemma consolidate_cells (w1 w2 : cell) :
  let p := CrashesRaw.fillna_with w2 w1 in
  let s := if cell_eqb p w2 then NaN else w2 in
  let w := if negb (cell_eqb p (Num 3)) || isna s then p else s in
  (w = w1 \/ w = w2) /\
  (w = NaN <-> w1 = NaN /\ w2 = NaN) /\
  (w = Num 3 -> (w1 = NaN \/ w1 = Num 3) /\ (w2 = NaN \/ w2 = Num 3)) /\
  (w1 <> NaN -> w1 <> Num 3 -> w = w1) /\
  (w1 = Num 3 -> w2 <> NaN -> w = w2) /\
  (s = NaN \/ (s = w2 /\ s <> p)).
Proof.
  cbv zeta.
  assert (Hp : CrashesRaw.fillna_with w2 w1 = w1 /\ w1 <> NaN \/
               CrashesRaw.fillna_with w2 w1 = w2 /\ w1 = NaN).
  { destruct w1; [right; now split | left; now split | left; now split]. }
  revert Hp. generalize (CrashesRaw.fillna_with w2 w1). intros p Hp.
  destruct (cell_eqb p w2) eqn:E2.
  - apply cell_eqb_true in E2 as [<- Hn]. cbn [isna]. rewrite orb_true_r.
    split; [destruct Hp as [[-> _] | [_ ->]]; [now left | now right]|].
    split; [split; [congruence | intros [_ ?]; congruence]|].
    split; [intros ->; destruct Hp as [[<- _] | [_ ->]]; split; auto|].
    split; [intros H1 _; destruct Hp as [[-> _] | [_ ->]]; congruence|].
    split; [reflexivity | now left].
  - assert (N2 : ~ (p = w2 /\ p <> NaN))
      by (rewrite <- cell_eqb_true, E2; discriminate).
    destruct (cell_eqb p (Num 3)) eqn:E3; cbn [negb orb].
    + apply cell_eqb_true in E3 as [-> _].
      destruct Hp as [[<- _] | [E _]];
        [|exfalso; apply N2; split; [exact E | discriminate]].
      destruct w2 as [|z|s]; cbn [isna].
      * split; [now left|]. split; [split; [discriminate | intros [? _]; discriminate]|].
           split; [intros _; split; [now right | now left]|].
           split; [congruence|]. split; [congruence | now left].
      * split; [now right|].
           split; [split; [discriminate | intros [? _]; discriminate]|].
           split; [intros E; exfalso; apply N2; split; [now symmetry | discriminate]|].
           split; [congruence|]. split; [reflexivity|]. right.
           split; [reflexivity|]. intros E. apply N2.
           split; [now symmetry | discriminate].
      * split; [now right|].
           split; [split; [discriminate | intros [? _]; discriminate]|].
           split; [discriminate|]. split; [congruence|].
           split; [reflexivity|]. right. split; [reflexivity | discriminate].
    + assert (N3 : p <> Num 3).
      { intros ->. cbn in E3. discriminate. }
      destruct Hp as [[-> H1] | [-> ->]].
      * split; [now left|].
        split; [split; [congruence | intros [? _]; congruence]|].
        split; [congruence|]. split; [reflexivity|].
        split; [congruence|].
        destruct w2; [now left | right | right];
          (split; [reflexivity|]; intros E; apply N2; split;
           [now symmetry | exact H1]).
      * split; [now right|].
        split; [split; [intros ->; now split | intros [_ ?]; assumption]|].
        split; [congruence|]. split; [congruence|].
        split; [discriminate|].
        destruct w2; [now left | |]; exfalso; apply N2; split;
          try reflexivity; discriminate.
Qed.

(** X19.  The consolidation never invents a weather: the consolidated primary is
    one of the two recorded codes, it is missing exactly when both are, it
    is the code 3 only when neither column records anything else, a primary
    other than 3 is kept, and a primary 3 gives way to any recorded
    secondary.  The secondary is cleared or left as it was. *)
Theorem consolidated_weather_is_recorded (t : list CrashesRaw.crash) :
  Forall2
    (fun r r' =>
       let w1 := CrashesRaw.WEATHER1 r in
       let w2 := CrashesRaw.WEATHER2 r in
       let w := CrashesRaw.WEATHER1 r' in
       (w = w1 \/ w = w2) /\
       (w = NaN <-> w1 = NaN /\ w2 = NaN) /\
       (w = Num 3 -> (w1 = NaN \/ w1 = Num 3) /\ (w2 = NaN \/ w2 = Num 3)) /\
       (w1 <> NaN -> w1 <> Num 3 -> w = w1) /\
       (w1 = Num 3 -> w2 <> NaN -> w = w2) /\
       (CrashesRaw.WEATHER2 r' = NaN \/ CrashesRaw.WEATHER2 r' = w2))
    t (CrashesRaw.consolidate t).
Proof.
  rewrite (row_map_rows CrashesRaw.consolidate (fun r => r))
    by apply crashes_consolidate_rows.
  apply Forall2_map_same. intros r _. destruct r. crash_fields.
  destruct (consolidate_cells WEATHER1 WEATHER2) as (H1 & H2 & H3 & H4 & H5 & H6).
  cbv zeta in H1, H2, H3, H4, H5, H6.
  split; [exact H1|]. split; [exact H2|]. split; [exact H3|].
  split; [exact H4|]. split; [exact H5|].
  destruct H6 as [H6 | [H6 _]]; [left | right]; exact H6.
Qed.

Lemma weather_code_cases {pd : Parser} (raw : cell) :
  weather_code raw = NaN \/ exists z, weather_code raw = Num z /\ z <> 99.
Proof.
  unfold weather_code. destruct (to_numeric_cases raw) as [-> | [z ->]];
    cbn [replace cell_eqb]; [now left|].
  destruct (Z.eqb_spec 99 z); [now left|]. right. exists z. split;
    [reflexivity | congruence].
Qed.

Lemma weather_rule_cases (w1 w2 : cell) :
  weather_rule w1 w2 = w1 \/ weather_rule w1 w2 = w2.
Proof.
  rewrite <- consolidate_rule.
  exact (proj1 (consolidate_cells w1 w2)).
Qed.

Lemma weather_label {pd : Parser} (raw1 raw2 : cell) :
  let w := replace CrashesMid.WEATHER_codes
             (weather_rule (weather_code raw1) (weather_code raw2)) in
  no_key CrashesMid.WEATHER_codes w /\ w <> Num 99 /\
  (forall s, w = Str s -> In (Str s) (map snd CrashesMid.WEATHER_codes)).
Proof.
  cbv zeta. split; [apply replace_no_raw_code; reflexivity|].
  assert (C : weather_rule (weather_code raw1) (weather_code raw2) = NaN \/
              exists z, weather_rule (weather_code raw1) (weather_code raw2)
                        = Num z /\ z <> 99).
  { destruct (weather_rule_cases (weather_code raw1) (weather_code raw2))
      as [-> | ->]; apply weather_code_cases. }
  destruct (replace_cases CrashesMid.WEATHER_codes
              (weather_rule (weather_code raw1) (weather_code raw2)))
    as [[_ E] | [kv [Hin [_ E]]]]; rewrite E.
  - destruct C as [-> | [z [-> Hz]]].
    + split; discriminate.
    + split; [congruence | discriminate].
  - split.
    + intros E9. apply (in_map snd) in Hin. rewrite E9 in Hin.
      revert Hin. clear. cbn [map snd CrashesMid.WEATHER_codes In].
      intros H. repeat (destruct H as [H | H]; [discriminate|]). exact H.
    + intros s <-. now apply in_map.
Qed.

Lemma clean_ROAD_CONDITION {pd : Parser} (t : list CrashesRaw.crash) :
  exists n,
    map CrashesMid.ROAD_CONDITION (CrashesMid.clean t)
    = (map (fun r => replace CrashesRaw.ROAD_CONDITION_codes
                       (CrashesRaw.ROAD_CONDITION r)) t
       ++ repeat NaN n)%list.
Proof.
  destruct (clean_column CrashesMid.ROAD_CONDITION t) as [n E];
    [intros []; reflexivity|].
  exists n. rewrite E. reflexivity.
Qed.

Lemma In_map_app_repeat {A B C : Type} (f : A -> C) (g : B -> C) (l : list A)
  (m : list B) (d : C) (n : nat) (a : A) :
  map f l = (map g m ++ repeat d n)%list -> In a l ->
  (exists b, In b m /\ f a = g b) \/ f a = d.
Proof.
  intros E Ha. apply (in_map f) in Ha. rewrite E in Ha.
  apply in_app_iff in Ha as [Ha | Ha].
  - apply in_map_iff in Ha as [b [Hb Hin]]. left. exists b. now split.
  - right. exact (repeat_spec _ _ _ Ha).
Qed.

(** X20.  The labelled columns of the exported crashes table hold no raw code of
    their dictionaries; the weather is never the sentinel 99, and a weather
    that is a text is one of the labels of the dictionary. *)
Theorem exported_crash_labels {pd : Parser} b p c r out :
  notebook b p c r = Some out ->
  forall k, In k (crashes_csv out) ->
  no_raw_code
    [(CrashesRaw.ILLUMINATION_codes, Crashes.ILLUMINATION (Crashes.base k));
     (CrashesRaw.ROAD_CONDITION_codes, Crashes.ROAD_CONDITION (Crashes.base k));
     (CrashesMid.WEATHER_codes, Crashes.WEATHER (Crashes.base k))] /\
  Crashes.WEATHER (Crashes.base k) <> Num 99 /\
  (forall s, Crashes.WEATHER (Crashes.base k) = Str s ->
             In (Str s) (map snd CrashesMid.WEATHER_codes)).
Proof.
  intros Hrun k Hk.
  destruct (crashes_csv_ILLUMINATION b p c r out Hrun) as [n1 E1].
  destruct (crashes_csv_WEATHER b p c r out Hrun) as [n3 E3].
  destruct (clean_ROAD_CONDITION c) as [n2 E2].
  rewrite <- (crashes_csv_column CrashesMid.ROAD_CONDITION Crashes.ROAD_CONDITION
                b p c r out) in E2 by (try (intros []; reflexivity); exact Hrun).
  assert (I : no_key CrashesRaw.ILLUMINATION_codes
                (Crashes.ILLUMINATION (Crashes.base k))).
  { destruct (In_map_app_repeat _ _ _ _ _ _ k E1 Hk) as [[x [_ ->]] | ->];
      [|reflexivity].
    apply fillna_no_raw_code; [reflexivity|].
    apply replace_no_raw_code. reflexivity. }
  assert (R : no_key CrashesRaw.ROAD_CONDITION_codes
                (Crashes.ROAD_CONDITION (Crashes.base k))).
  { destruct (In_map_app_repeat _ _ _ _ _ _ k E2 Hk) as [[x [_ ->]] | ->];
      [|reflexivity].
    apply replace_no_raw_code. reflexivity. }
  destruct (In_map_app_repeat _ _ _ _ _ _ k E3 Hk) as [[x [_ ->]] | ->].
  - destruct (weather_label (CrashesRaw.WEATHER1 x) (CrashesRaw.WEATHER2 x))
      as (W1 & W2 & W3).
    split; [|split; [exact W2 | exact W3]].
    constructor; [exact I|]. constructor; [exact R|].
    constructor; [exact W1 | constructor].
  - split; [|split; [discriminate | discriminate]].
    constructor; [exact I|]. constructor; [exact R|].
    constructor; [reflexivity | constructor].
Qed.

Lemma exported_crash_labels_witness :
  exists out k,
    notebook Sample.bicycles Sample.persons Sample.crashes Sample.roadway
    = Some out /\
    In k (crashes_csv out) /\
    Crashes.WEATHER (Crashes.base k) <> Num 99.
Proof.
  eexists. eexists. split; [vm_compute; reflexivity|].
  split; [left; reflexivity|].
  refine (proj1 (proj2
            (exported_crash_labels Sample.bicycles Sample.persons Sample.crashes
               Sample.roadway _ _ _ _)));
    [vm_compute; reflexivity | left; reflexivity].
Defined.

(** ** The properties above on the sample tables *)

Lemma last_fills_keep_records_witness :
  exists c',
    nth_error (Cyclists.fill_now [SampleMore.cyclist]) 0 = Some c' /\
    Cyclists.GRADE (Cyclists.bike SampleMore.cyclist) = NaN /\
    Cyclists.GRADE (Cyclists.bike c') = Str "unknown".
Proof.
  eexists. split; [vm_compute; reflexivity|]. split; [reflexivity|].
  pose proof (Forall2_nth_error _ _ _ 0%nat _ _
                (last_fills_keep_records [SampleMore.cyclist])
                eq_refl ltac:(vm_compute; reflexivity)) as H.
  cbv zeta in H. destruct H as (_ & _ & _ & _ & H & _).
  apply (H (fun x => Cyclists.GRADE (Cyclists.bike x))).
  - right. right. left. reflexivity.
  - reflexivity.
Defined.

Lemma vehicle_presence_flags_witness :
  exists r',
    nth_error (CrashesMore.recode [SampleMore.crash]) 0 = Some r' /\
    (exists z, CrashesMore.BUS_COUNT SampleMore.crash = Some z /\ 0 < z) /\
    CrashesMore.BUS r' = Some 1.
Proof.
  eexists. split; [vm_compute; reflexivity|].
  assert (P : exists z, CrashesMore.BUS_COUNT SampleMore.crash = Some z /\ 0 < z)
    by (exists 2; split; reflexivity).
  split; [exact P|].
  pose proof (Forall2_nth_error _ _ _ 0%nat _ _
                (vehicle_presence_flags [SampleMore.crash])
                eq_refl ltac:(vm_compute; reflexivity)) as [_ H].
  pose proof (Forall2_nth_error _ _ _ 0%nat _ _ H eq_refl eq_refl) as [H1 _].
  exact (proj2 H1 P).
Defined.

Lemma crash_categories_recoded_witness :
  exists r',
    nth_error (CrashesMore.recode [SampleMore.crash]) 0 = Some r' /\
    no_key CrashesMore.URBAN_RURAL_codes
      (CrashesMore.URBAN_RURAL SampleMore.crash) /\
    CrashesMore.URBAN_RURAL r' = Num 99.
Proof.
  eexists. split; [vm_compute; reflexivity|].
  assert (P : no_key CrashesMore.URBAN_RURAL_codes
                (CrashesMore.URBAN_RURAL SampleMore.crash)) by reflexivity.
  split; [exact P|].
  pose proof (Forall2_nth_error _ _ _ 0%nat _ _
                (crash_categories_recoded [SampleMore.crash])
                eq_refl ltac:(vm_compute; reflexivity)) as H.
  pose proof (Forall2_nth_error _ _ _ 1%nat _ _ H eq_refl eq_refl)
    as (_ & _ & H2).
  exact (H2 P).
Defined.

Lemma mode_is_smallest_most_frequent_witness :
  Roadway.mode0 [35; 25; 25; 35] = Some 25 /\
  In 25 [35; 25; 25; 35] /\
  forall v, In v [35; 25; 25; 35] ->
    Nat.le (Roadway.count v [35; 25; 25; 35])
      (Roadway.count 25 [35; 25; 25; 35]) /\
    (Roadway.count v [35; 25; 25; 35] = Roadway.count 25 [35; 25; 25; 35] ->
     25 <= v).
Proof.
  assert (E : Roadway.mode0 [35; 25; 25; 35] = Some 25) by reflexivity.
  split; [exact E|].
  exact (proj2 (mode_is_smallest_most_frequent [35; 25; 25; 35]) 25 E).
Defined.

Lemma aggregate_by_crn_witness :
  In (1, Some 25) (Roadway.groupby_CRN_min Sample.roadway) /\
  exists s, In s Sample.roadway /\ Roadway.CRN s = 1 /\
            Roadway.SPEED_LIMIT s = Some 25.
Proof.
  assert (H : In (1, Some 25) (Roadway.groupby_CRN_min Sample.roadway))
    by (left; reflexivity).
  split; [exact H|].
  exact (proj1 (proj2 (proj2 (proj2 (aggregate_by_crn Sample.roadway))
                         1 (Some 25) H) 25 eq_refl)).
Defined.

Lemma coordinates_filled_by_area_witness :
  exists r r',
    nth_error (map CrashesMid.rename_drop Sample.crashes_a) 0 = Some r /\
    nth_error (CrashesMid.fill_coordinates
                 (map CrashesMid.rename_drop Sample.crashes_a)) 0 = Some r' /\
    CrashesMid.DEC_LAT r = None /\
    CrashesMid.COUNTY r <> NaN /\
    (exists x, In x (map CrashesMid.rename_drop Sample.crashes_a) /\
       cell_eqb (CrashesMid.COUNTY x) (CrashesMid.COUNTY r) = true /\
       CrashesMid.MUNICIPALITY x <> NaN /\ CrashesMid.DEC_LAT x <> None) /\
    CrashesMid.DEC_LAT r' <> None.
Proof.
  eexists. eexists. split; [reflexivity|].
  split; [vm_compute; reflexivity|]. split; [reflexivity|].
  assert (C : CrashesMid.COUNTY
                (CrashesMid.rename_drop (Sample.located 1 None)) <> NaN)
    by discriminate.
  assert (X : exists x, In x (map CrashesMid.rename_drop Sample.crashes_a) /\
       cell_eqb (CrashesMid.COUNTY x)
         (CrashesMid.COUNTY (CrashesMid.rename_drop (Sample.located 1 None)))
       = true /\
       CrashesMid.MUNICIPALITY x <> NaN /\ CrashesMid.DEC_LAT x <> None).
  { exists (CrashesMid.rename_drop (Sample.located 2 (Some 40%Q))).
    split; [right; left; reflexivity|]. split; [reflexivity|].
    split; discriminate. }
  split; [exact C|]. split; [exact X|].
  pose proof (Forall2_nth_error _ _ _ 0%nat _ _
                (coordinates_filled_by_area
                   (map CrashesMid.rename_drop Sample.crashes_a))
                eq_refl ltac:(vm_compute; reflexivity)) as [_ H].
  exact (proj2 (proj2 (H CrashesMid.DEC_LAT (or_introl eq_refl))) C X).
Defined.

Lemma consolidated_weather_is_recorded_witness :
  exists r r',
    nth_error Sample.crashes 0 = Some r /\
    nth_error (CrashesRaw.consolidate Sample.crashes) 0 = Some r' /\
    CrashesRaw.WEATHER1 r = Num 3 /\ CrashesRaw.WEATHER2 r <> NaN /\
    CrashesRaw.WEATHER1 r' = CrashesRaw.WEATHER2 r.
Proof.
  eexists. eexists. split; [reflexivity|].
  split; [vm_compute; reflexivity|].
  assert (A : CrashesRaw.WEATHER1
                (Sample.collision 1 (Num 9) (Num 3) (Num 7) (Some 99)) = Num 3)
    by reflexivity.
  assert (B : CrashesRaw.WEATHER2
                (Sample.collision 1 (Num 9) (Num 3) (Num 7) (Some 99)) <> NaN)
    by discriminate.
  split; [exact A|]. split; [exact B|].
  pose proof (Forall2_nth_error _ _ _ 0%nat _ _
                (consolidated_weather_is_recorded Sample.crashes)
                eq_refl ltac:(vm_compute; reflexivity)) as H.
  cbv zeta in H. destruct H as (_ & _ & _ & _ & H & _).
  exact (H A B).
Defined.
